(** * Qiime2Methods: a shallow embedding of [qiime2_methods.py]

    The module is a catalogue of static methods.  Most of them build an
    argument vector and hand it to [subprocess.run]; five of them fan a list
    of samples out over a [ThreadPoolExecutor]; three of them work on the
    file system ([make_folder], [list_fastq], [change_taxonomy_file_header]).

    The embedding has three layers:
    - Python strings, integers and the few built-ins the module uses;
    - the outside world: a file-system tree with POSIX path resolution, the
      log of the external commands that were run, and the effect of each
      external program as an opaque function;
    - the methods of [Qiime2Methods], written in a state-and-exception monad
      over that world, one definition per method, under the method's name. *)

From Stdlib Require Import String Ascii List ZArith Bool Lia Arith.
From Stdlib Require Import DecimalString.
Import ListNotations.

Open Scope string_scope.
Open Scope list_scope.

(* ===================================================================== *)
(** ** Python strings *)
(* ===================================================================== *)

Module Py.

Definition LF : ascii := "010"%char.
Definition CR : ascii := "013"%char.
Definition TAB : ascii := "009"%char.

(** [s.startswith(p)] and [s.endswith(p)]. *)
Definition startswith (s p : string) : bool := String.prefix p s.

Fixpoint endswith (s p : string) : bool :=
  String.eqb s p
  || match s with
     | EmptyString => false
     | String _ s' => endswith s' p
     end.

(** [s.endswith((p1, p2, ...))]: true when one of the suffixes fits. *)
Definition endswith_any (s : string) (ps : list string) : bool :=
  existsb (endswith s) ps.

(** [s.split(sep)] for a one-character separator: the fields between the
    separators, empty fields kept, never the empty list. *)
Fixpoint split (sep : ascii) (s : string) : list string :=
  match s with
  | EmptyString => [EmptyString]
  | String c s' =>
      if Ascii.eqb c sep then EmptyString :: split sep s'
      else match split sep s' with
           | [] => [String c EmptyString]
           | x :: xs => String c x :: xs
           end
  end.

(** [sep.join(xs)]. *)
Fixpoint join (sep : string) (xs : list string) : string :=
  match xs with
  | [] => EmptyString
  | [x] => x
  | x :: xs' => x ++ sep ++ join sep xs'
  end.

(** [str(n)] for an [int]. *)
Definition str (n : Z) : string := NilZero.string_of_int (Z.to_int n).

(** Does the string hold the character? *)
Fixpoint mem (c : ascii) (s : string) : bool :=
  match s with
  | EmptyString => false
  | String d s' => Ascii.eqb d c || mem c s'
  end.

(** Text-mode reading ([open(..., 'r')], [newline=None]): universal
    newlines.  A carriage return, alone or followed by a line feed, reaches
    the program as one line feed. *)
Fixpoint universal_newlines (s : string) : string :=
  match s with
  | EmptyString => EmptyString
  | String c s' =>
      if Ascii.eqb c CR then
        match s' with
        | String d s'' =>
            if Ascii.eqb d LF then String LF (universal_newlines s'')
            else String LF (universal_newlines s')
        | EmptyString => String LF EmptyString
        end
      else String c (universal_newlines s')
  end.

(** The lines a file iterator yields: each ends with its line feed, except
    possibly the last. *)
Fixpoint lines (s : string) : list string :=
  match s with
  | EmptyString => []
  | String c s' =>
      if Ascii.eqb c LF then String LF EmptyString :: lines s'
      else match lines s' with
           | [] => [String c EmptyString]
           | l :: ls => String c l :: ls
           end
  end.

(** Dynamically typed values, for argument tuples unpacked with [*p]. *)
Inductive value : Type :=
| VStr (s : string)
| VInt (n : Z).

(** The exceptions that occur in this module's runs.
    ([UnicodeDecodeError] is a [ValueError] in Python; nothing here
    catches either.) *)
Inductive exn : Type :=
| TypeError
| ValueError
| IndexError
| StopIteration
| OverflowError
| UnicodeDecodeError
| FileNotFoundError
| NotADirectoryError
| IsADirectoryError
| FileExistsError
| OSError
| CalledProcessError (returncode : Z).

(** [isinstance(e, OSError)]. *)
Definition is_OSError (e : exn) : bool :=
  match e with
  | FileNotFoundError | NotADirectoryError | IsADirectoryError
  | FileExistsError | OSError => true
  | _ => false
  end.

(** [l[i]] on a list: [IndexError] out of range. *)
Definition index {A} (l : list A) (i : nat) : exn + A :=
  match nth_error l i with
  | Some x => inr x
  | None => inl IndexError
  end.

(** *** Text and bytes

    A file holds bytes; a [str] is held here as its UTF-8 encoding, so
    that decoding a file is checking that its bytes are well-formed UTF-8
    and encoding is the identity.  UTF-8 is the codec of text files
    wherever the locale is a UTF-8 one, which includes the C and POSIX
    locales from Python 3.7 on.  Line feed and carriage return are single
    bytes that occur in no longer sequence, so lines and newline
    translation are the same on the bytes and on the characters.

    The well-formed sequences are those of the Unicode standard (no
    overlong forms, no surrogates, nothing above U+10FFFF), which is what
    the strict decoder accepts.  The decoder is either at the boundary
    of a character or expects a byte in [lo..hi] followed by [more]
    bytes in [80..BF]. *)
Definition byte_in (lo hi : N) (a : ascii) : bool :=
  (lo <=? N_of_ascii a)%N && (N_of_ascii a <=? hi)%N.

Inductive utf8_state : Type :=
| Boundary
| Continue (lo hi : N) (more : nat).

Definition utf8_step (st : utf8_state) (a : ascii) : option utf8_state :=
  match st with
  | Boundary =>
      if byte_in 0 127 a then Some Boundary
      else if byte_in 194 223 a then Some (Continue 128 191 0)
      else if byte_in 224 224 a then Some (Continue 160 191 1)
      else if byte_in 225 236 a then Some (Continue 128 191 1)
      else if byte_in 237 237 a then Some (Continue 128 159 1)
      else if byte_in 238 239 a then Some (Continue 128 191 1)
      else if byte_in 240 240 a then Some (Continue 144 191 2)
      else if byte_in 241 243 a then Some (Continue 128 191 2)
      else if byte_in 244 244 a then Some (Continue 128 143 2)
      else None
  | Continue lo hi more =>
      if byte_in lo hi a
      then Some (match more with O => Boundary | S k => Continue 128 191 k end)
      else None
  end.

Fixpoint utf8_from (st : utf8_state) (s : string) : bool :=
  match s with
  | EmptyString => match st with Boundary => true | Continue _ _ _ => false end
  | String a s' =>
      match utf8_step st a with
      | Some st' => utf8_from st' s'
      | None => false
      end
  end.

(** The bytes decode: [bytes.decode('utf-8')] does not raise. *)
Definition utf8_valid (s : string) : bool := utf8_from Boundary s.

(** *** [int(a / 4)]

    [a / 4] on two [int]s is true division: the result is the [float]
    nearest to the exact quotient, ties to even, and [OverflowError] when
    it exceeds the range of a double.  Dividing by four only moves the
    binary exponent, so the float is [round53 a / 4], where [round53]
    rounds an integer to 53 significant bits.  [int(...)] then truncates
    towards zero. *)
Definition round53 (a : Z) : Z :=
  let m := Z.abs a in
  if (m <? 2 ^ 53)%Z then a
  else
    let e := (Z.log2 m - 52)%Z in
    let q := Z.shiftr m e in
    let r := (m - Z.shiftl q e)%Z in
    let half := (2 ^ (e - 1))%Z in
    let q' := if (half <? r)%Z || ((r =? half)%Z && Z.odd q) then (q + 1)%Z else q in
    (Z.sgn a * Z.shiftl q' e)%Z.

Definition int_div4 (a : Z) : exn + Z :=
  let f4 := round53 a in          (* four times the float [a / 4] *)
  if (2 ^ 1026 <=? Z.abs f4)%Z then inl OverflowError
  else inr (Z.quot f4 4).

End Py.

(* ===================================================================== *)
(** ** The file system *)
(* ===================================================================== *)

(** A tree of directories, regular files and special files, without links.
    [Special] stands for whatever is neither a regular file nor a directory
    (a FIFO, a socket, a device): [os.walk] lists it among the file names,
    [os.path.isfile] is false on it.  A directory keeps its entries in the
    order in which [os.scandir] reports them. *)
Module FS.

#[warnings="-register-all"]
Inductive node : Type :=
| File (content : string)
| Special
| Dir (entries : list (string * node)).

Definition entries : Type := list (string * node).

(** A position in the tree: the names from the root down. *)
Definition position : Type := list string.

Fixpoint assoc (name : string) (es : entries) : option node :=
  match es with
  | [] => None
  | (k, n) :: es' => if String.eqb k name then Some n else assoc name es'
  end.

(** Replace the entry called [name], or add it at the end. *)
Fixpoint put (name : string) (n : node) (es : entries) : entries :=
  match es with
  | [] => [(name, n)]
  | (k, m) :: es' =>
      if String.eqb k name then (k, n) :: es' else (k, m) :: put name n es'
  end.

Fixpoint remove (name : string) (es : entries) : entries :=
  match es with
  | [] => []
  | (k, m) :: es' =>
      if String.eqb k name then remove name es' else (k, m) :: remove name es'
  end.

Fixpoint alter (name : string) (f : node -> node) (es : entries) : entries :=
  match es with
  | [] => []
  | (k, m) :: es' =>
      if String.eqb k name then (k, f m) :: es' else (k, m) :: alter name f es'
  end.

Fixpoint lookup (n : node) (pos : position) {struct pos} : option node :=
  match pos with
  | [] => Some n
  | c :: pos' =>
      match n with
      | Dir es =>
          match assoc c es with
          | Some n' => lookup n' pos'
          | None => None
          end
      | _ => None
      end
  end.

(** Write [Some n] at a position, or unlink what is there ([None]).  The
    parent has to be a directory, otherwise nothing changes. *)
Fixpoint update (t : node) (pos : position) (v : option node) {struct pos} : node :=
  match pos with
  | [] => t
  | c :: pos' =>
      match t with
      | Dir es =>
          match pos' with
          | [] => Dir (match v with Some n => put c n es | None => remove c es end)
          | _ :: _ => Dir (alter c (fun child => update child pos' v) es)
          end
      | _ => t
      end
  end.

Definition is_dir (o : option node) : bool :=
  match o with Some (Dir _) => true | _ => false end.

Definition is_file (o : option node) : bool :=
  match o with Some (File _) => true | _ => false end.

(** One component of a path moves the position: an empty component and a
    dot stay, two dots go up (the root is its own parent), a name goes
    down. *)
Definition step (pos : position) (c : string) : position :=
  if String.eqb c "" || String.eqb c "." then pos
  else if String.eqb c ".." then removelast pos
  else pos ++ [c].

(** Path resolution, one component at a time.  Every component, also an
    empty one or a dot, is looked up in a directory: what precedes it must
    exist ([ENOENT], [FileNotFoundError]) and be a directory ([ENOTDIR],
    [NotADirectoryError]).  The last component itself may be missing. *)
Fixpoint namei (root : node) (pos : position) (comps : list string)
  : Py.exn + position :=
  match comps with
  | [] => inr pos
  | c :: cs =>
      match lookup root pos with
      | Some (Dir _) => namei root (step pos c) cs
      | Some _ => inl Py.NotADirectoryError
      | None => inl Py.FileNotFoundError
      end
  end.

(** A path string, from the root when it starts with a slash, from the
    working directory otherwise.  The empty path names nothing. *)
Definition start (cwd : position) (path : string) : position :=
  if Py.startswith path "/" then [] else cwd.

Definition resolve (root : node) (cwd : position) (path : string)
  : Py.exn + position :=
  if String.eqb path "" then inl Py.FileNotFoundError
  else namei root (start cwd path) (Py.split "/" path).

(** The names a directory entry can have. *)
Definition valid_name (c : string) : bool :=
  negb (String.eqb c "") && negb (String.eqb c ".") && negb (String.eqb c "..")
  && negb (Py.mem "/" c).

Fixpoint names_unique (es : entries) : bool :=
  match es with
  | [] => true
  | (k, _) :: es' =>
      match assoc k es' with None => names_unique es' | Some _ => false end
  end.

(** Well-formed trees: valid names, no name twice in a directory. *)
Fixpoint wf (t : node) : bool :=
  match t with
  | Dir es =>
      names_unique es
      && (fix all (l : entries) : bool :=
            match l with
            | [] => true
            | (k, n) :: l' => valid_name k && wf n && all l'
            end) es
  | _ => true
  end.

(** The two lists [os.walk] makes of a directory's entries: the
    directories, and everything else. *)
Definition dirnames (es : entries) : list string :=
  map fst (filter (fun e => match snd e with Dir _ => true | _ => false end) es).

Definition filenames (es : entries) : list string :=
  map fst (filter (fun e => match snd e with Dir _ => false | _ => true end) es).

Definition walk_item : Type := string * list string * list string.

(** [os.walk] on a directory reached under the path [top]: the triple for
    the directory itself, then the walks of its subdirectories in the order
    of the listing, each under [join top name].  [join] is a parameter
    here; it is [os.path.join] below. *)
Fixpoint walk (join : string -> string -> string) (top : string) (t : node)
  : list walk_item :=
  match t with
  | Dir es =>
      (top, dirnames es, filenames es)
      :: flat_map (fun e => walk join (join top (fst e)) (snd e)) es
  | _ => []
  end.

End FS.

(* ===================================================================== *)
(** ** The world and the monad of the methods *)
(* ===================================================================== *)

(** What lies outside the Python process.  [programs] gives, for an
    argument vector and the tree it finds, the exit status of the external
    program and the tree it leaves; nothing is assumed about it.  [calls]
    logs the argument vectors handed to [subprocess.run], oldest first, and
    [history] logs the tree after each change, oldest first. *)
Record world : Type := mkWorld {
  root : FS.node;
  cwd : FS.position;
  programs : list string -> FS.node -> Z * FS.node;
  calls : list (list string);
  history : list FS.node
}.

(** A computation returns a value or raises, and leaves a world. *)
Definition M (A : Type) : Type := world -> (Py.exn + A) * world.

Definition ret {A} (a : A) : M A := fun w => (inr a, w).

Definition raise {A} (e : Py.exn) : M A := fun w => (inl e, w).

Definition bind {A B} (m : M A) (k : A -> M B) : M B :=
  fun w =>
    match m w with
    | (inr a, w') => k a w'
    | (inl e, w') => (inl e, w')
    end.

Declare Scope py_scope.
Delimit Scope py_scope with py.
Notation "x <- m ;; k" := (bind m (fun x => k))
  (at level 61, m at next level, right associativity) : py_scope.
Notation "' pat <- m ;; k" := (bind m (fun x => match x with pat => k end))
  (at level 61, pat pattern, m at next level, right associativity) : py_scope.
Notation "m ;; k" := (bind m (fun _ => k))
  (at level 61, right associativity) : py_scope.
Open Scope py_scope.

(** [try: m  except: h]. *)
Definition catch {A} (m : M A) (h : Py.exn -> M A) : M A :=
  fun w =>
    match m w with
    | (inl e, w') => h e w'
    | r => r
    end.

(** Run [m] and keep its exception, if any, as a value: what a worker
    thread does with a task, storing the outcome in the task's future. *)
Definition attempt {A} (m : M A) : M (Py.exn + A) :=
  fun w => let (r, w') := m w in (inr r, w').

(** A pure result that may be an exception. *)
Definition lift {A} (r : Py.exn + A) : M A := fun w => (r, w).

Definition get_world : M world := fun w => (inr w, w).

(** Replace the tree and log the new one. *)
Definition set_root (t : FS.node) : M unit :=
  fun w => (inr tt, mkWorld t (cwd w) (programs w) (calls w) (history w ++ [t])).

(** [for x in xs: body x]. *)
Fixpoint for_each {A} (xs : list A) (body : A -> M unit) : M unit :=
  match xs with
  | [] => ret tt
  | x :: xs' => body x ;; for_each xs' body
  end.

(** A loop that carries an accumulator (a local variable it rebinds). *)
Fixpoint for_fold {A S} (xs : list A) (acc : S) (body : S -> A -> M S) : M S :=
  match xs with
  | [] => ret acc
  | x :: xs' => acc' <- body acc x ;; for_fold xs' acc' body
  end.

(* ===================================================================== *)
(** ** Library calls: [os], [os.path], [pathlib], [open], [subprocess],
       [concurrent.futures] *)
(* ===================================================================== *)

Module os.

Definition locate (path : string) : M FS.position :=
  w <- get_world ;; lift (FS.resolve (root w) (cwd w) path).

(** What a path names, if anything. *)
Definition stat (path : string) : M FS.node :=
  pos <- locate path ;;
  w <- get_world ;;
  match FS.lookup (root w) pos with
  | Some n => ret n
  | None => raise Py.FileNotFoundError
  end.

(** [os.path.isfile], [os.path.isdir]: false on any [OSError]. *)
Definition path_isfile (path : string) : M bool :=
  catch (n <- stat path ;; ret (FS.is_file (Some n))) (fun _ => ret false).

Definition path_isdir (path : string) : M bool :=
  catch (n <- stat path ;; ret (FS.is_dir (Some n))) (fun _ => ret false).

(** [os.path.join(a, b)] of [posixpath]. *)
Definition path_join (a b : string) : string :=
  if Py.startswith b "/" then b
  else if String.eqb a "" || Py.endswith a "/" then a ++ b
  else a ++ "/" ++ b.

(** [os.path.basename(p)]: what follows the last slash. *)
Definition path_basename (p : string) : string :=
  last (Py.split "/" p) "".

(** [os.path.isabs(p)]. *)
Definition path_isabs (p : string) : bool := Py.startswith p "/".

Definition scandir (path : string) : M FS.entries :=
  n <- stat path ;;
  match n with
  | FS.Dir es => ret es
  | _ => raise Py.NotADirectoryError
  end.

(** [os.walk(top)], top down, links not followed, [onerror=None]: a
    directory that cannot be listed is skipped, so a [top] that is missing
    or not a directory gives no triple at all.  The generator is run to its
    end at once: its one user here changes nothing while it iterates.  The
    subdirectories are walked along the tree: in a well-formed tree
    [join top name] resolves to the entry [name] of the directory at [top]
    (lemma [stat_join]). *)
Definition walk (top : string) : M (list FS.walk_item) :=
  catch (es <- scandir top ;; ret (FS.walk path_join top (FS.Dir es)))
        (fun e => if Py.is_OSError e then ret [] else raise e).

(** [os.mkdir(path)]. *)
Definition mkdir (path : string) : M unit :=
  pos <- locate path ;;
  w <- get_world ;;
  match FS.lookup (root w) pos with
  | Some _ => raise Py.FileExistsError
  | None => set_root (FS.update (root w) pos (Some (FS.Dir [])))
  end.

(** [os.replace(src, dst)] for a source that is not a directory: in one
    step [dst] names what [src] named and [src] names nothing.  Renaming a
    directory is outside the model. *)
Definition replace (src dst : string) : M unit :=
  ps <- locate src ;;
  pd <- locate dst ;;
  w <- get_world ;;
  match FS.lookup (root w) ps with
  | None => raise Py.FileNotFoundError
  | Some (FS.Dir _) => raise Py.OSError
  | Some n =>
      match FS.lookup (root w) pd with
      | Some (FS.Dir _) => raise Py.IsADirectoryError
      | _ => set_root (FS.update (FS.update (root w) ps None) pd (Some n))
      end
  end.

End os.

(** [open(path, 'w')] and [open(path, 'r')] in text mode.  A file object
    open for writing is the position it writes to; what is written is in
    the file at once (buffering is left out).  A file object open for
    reading is what its reads will give: the lines still to come, or the
    exception of the decoder when the bytes of the file are not text.
    Opening reads nothing, so that exception comes with the first read.
    (The decoder is run on the whole file at the first read; the
    interpreter runs it block by block, so that on a large file with a bad
    byte far down, the lines of the blocks before it are still handed
    out.)  Only regular files are opened; on a special file [open] is
    taken to raise [OSError]. *)
Module io.

Definition writer : Type := FS.position.
Definition reader : Type := (Py.exn + list string)%type.

Definition open_w (path : string) : M writer :=
  pos <- os.locate path ;;
  w <- get_world ;;
  match FS.lookup (root w) pos with
  | Some (FS.Dir _) => raise Py.IsADirectoryError
  | Some FS.Special => raise Py.OSError
  | Some (FS.File _) | None =>
      set_root (FS.update (root w) pos (Some (FS.File ""))) ;; ret pos
  end.

Definition write (f : writer) (s : string) : M unit :=
  w <- get_world ;;
  match FS.lookup (root w) f with
  | Some (FS.File c) => set_root (FS.update (root w) f (Some (FS.File (c ++ s))))
  | _ => raise Py.OSError
  end.

Definition open_r (path : string) : M reader :=
  n <- os.stat path ;;
  match n with
  | FS.File c =>
      ret (if Py.utf8_valid c then inr (Py.lines (Py.universal_newlines c))
           else inl Py.UnicodeDecodeError)
  | FS.Dir _ => raise Py.IsADirectoryError
  | FS.Special => raise Py.OSError
  end.

(** [next(f)]. *)
Definition next (f : reader) : M (string * reader) :=
  match f with
  | inl e => raise e
  | inr [] => raise Py.StopIteration
  | inr (l :: f') => ret (l, inr f')
  end.

(** [for line in f: body]. *)
Definition for_lines (f : reader) (body : string -> M unit) : M unit :=
  match f with
  | inl e => raise e
  | inr ls => for_each ls body
  end.

End io.

Module pathlib.

(** A [PurePosixPath]: anchored at the root or not, and its parts. *)
Record Path : Type := mkPath { anchored : bool; parts : list string }.

(** [Path(s)]: empty components and dots are dropped, [..] is kept.  (Two
    leading slashes, which POSIX sets apart, are read as one.) *)
Definition of_string (s : string) : Path :=
  mkPath (Py.startswith s "/")
         (filter (fun c => negb (String.eqb c "" || String.eqb c "."))
                 (Py.split "/" s)).

(** [str(p)]. *)
Definition to_string (p : Path) : string :=
  match anchored p, parts p with
  | false, [] => "."
  | false, ps => Py.join "/" ps
  | true, ps => "/" ++ Py.join "/" ps
  end.

(** [p.parent]: the path without its last part; a path without parts is
    its own parent. *)
Definition parent (p : Path) : Path := mkPath (anchored p) (removelast (parts p)).

(** [p.is_dir()]. *)
Definition is_dir (p : Path) : M bool := os.path_isdir (to_string p).

(** [p.mkdir(parents=False, exist_ok=...)]:
<<
        try:
            os.mkdir(self, mode)
        except FileNotFoundError:
            if not parents or self.parent == self:
                raise
            ...
        except OSError:
            if not exist_ok or not self.is_dir():
                raise
>> *)
Definition mkdir_flat (p : Path) (exist_ok : bool) : M unit :=
  catch (os.mkdir (to_string p))
        (fun e =>
           match e with
           | Py.FileNotFoundError => raise e
           | _ =>
               if Py.is_OSError e then
                 d <- is_dir p ;;
                 if negb exist_ok || negb d then raise e else ret tt
               else raise e
           end).

(** [p.mkdir(parents=True, exist_ok=...)]; the first branch goes on
<<
            self.parent.mkdir(parents=True, exist_ok=True)
            self.mkdir(mode, parents=False, exist_ok=exist_ok)
>>
    The recursion is on the number [n] of parts of [p]; a path without
    parts is its own parent. *)
Fixpoint mkdir_parents (n : nat) (p : Path) (exist_ok : bool) : M unit :=
  catch (os.mkdir (to_string p))
        (fun e =>
           match e with
           | Py.FileNotFoundError =>
               match n with
               | O => raise e
               | S n' =>
                   mkdir_parents n' (parent p) true ;;
                   mkdir_flat p exist_ok
               end
           | _ =>
               if Py.is_OSError e then
                 d <- is_dir p ;;
                 if negb exist_ok || negb d then raise e else ret tt
               else raise e
           end).

Definition mkdir (p : Path) (parents exist_ok : bool) : M unit :=
  if parents then mkdir_parents (length (parts p)) p exist_ok
  else mkdir_flat p exist_ok.

End pathlib.

Module subprocess.

Record CompletedProcess : Type :=
  mkCompleted { args : list string; returncode : Z }.

(** [subprocess.run(cmd, check=...)]: the program runs to its end, the
    call is logged, the tree is what the program leaves.  The exit status
    goes into the result; only with [check=True] does a non-zero status
    raise.  That the program can be started at all is assumed. *)
Definition run (cmd : list string) (check : bool) : M CompletedProcess :=
  fun w =>
    let (rc, t) := programs w cmd (root w) in
    let w' := mkWorld t (cwd w) (programs w) (calls w ++ [cmd]) (history w ++ [t]) in
    if check && negb (rc =? 0)%Z then (inl (Py.CalledProcessError rc), w')
    else (inr (mkCompleted cmd rc), w').

End subprocess.

(** [concurrent.futures].  The workers of a pool run side by side; the
    model runs each task when it is submitted, so the effects appear in
    submission order, which is one of the schedules the pool allows.  A
    future holds the value or the exception of its task. *)
Module futures.

Definition future (B : Type) : Type := (Py.exn + B)%type.

(** [with ThreadPoolExecutor(max_workers=n) as executor: body].  The
    constructor refuses a pool without workers; leaving the block waits for
    every submitted task. *)
Definition ThreadPoolExecutor {A} (max_workers : Z) (body : M A) : M A :=
  if (max_workers <=? 0)%Z then raise Py.ValueError else body.

(** [executor.map(fn, args)]: every element of the iterable [args] is
    taken and submitted before the first result is handed out.  An element
    whose evaluation raises ends the submission with that exception.  When
    a result raises, the pool cancels the tasks that have not started yet;
    the model lets them run, as the pool may too, and the only tasks that
    raise in this module raise before they do anything. *)
Fixpoint map {A B} (fn : A -> M B) (args : list (Py.exn + A)) : M (list (future B)) :=
  match args with
  | [] => ret []
  | inl e :: _ => raise e
  | inr a :: rest =>
      f <- attempt (fn a) ;;
      fs <- map fn rest ;;
      ret (f :: fs)
  end.

(** [for results in <the iterator map returned>: body]: the results come
    in submission order; the exception of a task is raised when its result
    is asked for. *)
Definition for_results {B} (fs : list (future B)) (body : B -> M unit) : M unit :=
  for_each fs (fun f => r <- lift f ;; body r).

End futures.

(* ===================================================================== *)
(** ** class Qiime2Methods *)
(* ===================================================================== *)

Module Qiime2Methods.

Import Py.
Local Open Scope string_scope.

Definition make_folder (folder : string) : M unit :=
  pathlib.mkdir (pathlib.of_string folder) true true.

Definition fastq_suffixes : list string := [".fastq"; ".fastq.gz"; ".fq"; ".fq.gz"].

Definition list_fastq (my_path : string) : M (list string) :=
  let fastq_list := [] in
  triples <- os.walk my_path ;;
  for_fold triples fastq_list (fun fastq_list '(root, directories, filenames) =>
    for_fold filenames fastq_list (fun fastq_list filename =>
      let absolute_path := os.path_join root filename in
      is_file <- os.path_isfile absolute_path ;;
      if is_file && endswith_any filename fastq_suffixes
      then ret (fastq_list ++ [absolute_path])%list
      else ret fastq_list)).

Definition rc_fastq_cmd (input_fastq output_fastq : string) : list string :=
  ["reformat.sh";
   "ow=t";
   "rcomp=t";
   "in=" ++ input_fastq;
   "out=" ++ output_fastq].

Definition rc_fastq (input_fastq output_fastq : string) : M unit :=
  let cmd := rc_fastq_cmd input_fastq output_fastq in
  _ <- subprocess.run cmd false ;; ret tt.

(** [os.path.basename(f).split('_')[0]]: [split] never returns an empty
    list. *)
Definition sample_token (fastq_file : string) : string :=
  hd "" (split "_" (os.path_basename fastq_file)).

(** [str(0.99)] is the text [0.99]. *)
Definition extract_its_se_cmd (fastq_file output_folder log_folder : string) (cpu : Z)
  : list string :=
  ["itsxpress";
   "--threads"; str cpu;
   "--single_end";
   "--fastq"; fastq_file;
   "--region"; "ITS1";
   "--taxa"; "Fungi";
   "--cluster_id"; "0.99";
   "--outfile"; output_folder ++ "/" ++ os.path_basename fastq_file;
   "--log"; log_folder ++ "/" ++ sample_token fastq_file ++ ".log";
   "--threads"; str cpu].

Definition extract_its_se (fastq_file output_folder log_folder : string) (cpu : Z)
  : M unit :=
  let cmd := extract_its_se_cmd fastq_file output_folder log_folder cpu in
  _ <- subprocess.run cmd false ;; ret tt.

(** [Qiime2Methods.extract_its_se( *p )]: the tuple must have the four
    positional arguments; the three paths are concatenated with strings. *)
Definition extract_its_se_star (p : list value) : M unit :=
  match p with
  | [VStr fastq_file; VStr output_folder; VStr log_folder; VInt cpu] =>
      extract_its_se fastq_file output_folder log_folder cpu
  | _ => raise TypeError
  end.

Definition rc_fastq_parallel (fastq_list : list string) (output_folder : string) (cpu : Z)
  : M unit :=
  max_workers <- lift (int_div4 cpu) ;;
  futures.ThreadPoolExecutor max_workers (
    let args := List.map (fun fastq =>
                  match int_div4 cpu with
                  | inr share => inr [VStr fastq; VStr output_folder; VInt share]
                  | inl e => inl e
                  end) fastq_list in
    results <- futures.map extract_its_se_star args ;;
    futures.for_results results (fun _ => ret tt)).

Definition extract_its_se_parallel (fastq_list : list string)
  (output_folder log_folder : string) (cpu : Z) : M unit :=
  max_workers <- lift (int_div4 cpu) ;;
  futures.ThreadPoolExecutor max_workers (
    let args := List.map (fun fastq =>
                  match int_div4 cpu with
                  | inr share =>
                      inr [VStr fastq; VStr output_folder; VStr log_folder; VInt share]
                  | inl e => inl e
                  end) fastq_list in
    results <- futures.map extract_its_se_star args ;;
    futures.for_results results (fun _ => ret tt)).

Definition extract_its_pe_cmd (fastq_r1 fastq_r2 output_folder log_folder : string)
  (cpu : Z) : list string :=
  ["itsxpress";
   "--threads"; str cpu;
   "--fastq"; fastq_r1;
   "--fastq2"; fastq_r2;
   "--region"; "ITS1";
   "--taxa"; "Fungi";
   "--cluster_id"; "0.99";
   "--outfile"; output_folder ++ "/" ++ os.path_basename fastq_r1;
   "--outfile2"; output_folder ++ "/" ++ os.path_basename fastq_r2;
   "--log"; log_folder ++ "/" ++ sample_token fastq_r1 ++ ".log";
   "--threads"; str cpu].

Definition extract_its_pe (fastq_r1 fastq_r2 output_folder log_folder : string)
  (cpu : Z) : M unit :=
  let cmd := extract_its_pe_cmd fastq_r1 fastq_r2 output_folder log_folder cpu in
  _ <- subprocess.run cmd false ;; ret tt.

Definition extract_its_pe_star (p : list value) : M unit :=
  match p with
  | [VStr fastq_r1; VStr fastq_r2; VStr output_folder; VStr log_folder; VInt cpu] =>
      extract_its_pe fastq_r1 fastq_r2 output_folder log_folder cpu
  | _ => raise TypeError
  end.

(** A sample dictionary: sample name to the list of its files, in the
    dictionary's iteration order. *)
Definition sample_dict : Type := list (string * list string).

Definition extract_its_pe_parallel (samples : sample_dict)
  (output_folder log_folder : string) (cpu : Z) : M unit :=
  max_workers <- lift (int_div4 cpu) ;;
  futures.ThreadPoolExecutor max_workers (
    let args := List.map (fun '(sample, fastq_list) =>
                  match index fastq_list 0, index fastq_list 1, int_div4 cpu with
                  | inr r1, inr r2, inr share =>
                      inr [VStr r1; VStr r2; VStr output_folder; VStr log_folder;
                           VInt share]
                  | inl e, _, _ | _, inl e, _ | _, _, inl e => inl e
                  end) samples in
    results <- futures.map extract_its_pe_star args ;;
    futures.for_results results (fun _ => ret tt)).

Definition fix_fastq_se_cmd (fastq_file : string) : list string :=
  ["python"; "remove_empty_fastq_entries.py";
   "-f"; fastq_file].

Definition fix_fastq_se (fastq_file : string) : M unit :=
  let cmd := fix_fastq_se_cmd fastq_file in
  _ <- subprocess.run cmd false ;; ret tt.

Definition fix_fastq_se_parallel (fastq_list : list string) (cpu : Z) : M unit :=
  futures.ThreadPoolExecutor cpu (
    let args := List.map (fun fastq => inr fastq) fastq_list in
    results <- futures.map fix_fastq_se args ;;
    futures.for_results results (fun _ => ret tt)).

Definition fix_fastq_pe_cmd (fastq_r1 fastq_r2 : string) : list string :=
  ["python"; "remove_empty_fastq_entries.py";
   "-f"; fastq_r1;
   "-f2"; fastq_r2].

Definition fix_fastq_pe (fastq_r1 fastq_r2 : string) : M unit :=
  let cmd := fix_fastq_pe_cmd fastq_r1 fastq_r2 in
  _ <- subprocess.run cmd false ;; ret tt.

Definition fix_fastq_pe_star (p : list value) : M unit :=
  match p with
  | [VStr fastq_r1; VStr fastq_r2] => fix_fastq_pe fastq_r1 fastq_r2
  | _ => raise TypeError
  end.

Definition fix_fastq_pe_parallel (samples : sample_dict) (cpu : Z) : M unit :=
  futures.ThreadPoolExecutor cpu (
    let args := List.map (fun '(sample, fastq_list) =>
                  match index fastq_list 0, index fastq_list 1 with
                  | inr r1, inr r2 => inr [VStr r1; VStr r2]
                  | inl e, _ | _, inl e => inl e
                  end) samples in
    results <- futures.map fix_fastq_pe_star args ;;
    futures.for_results results (fun _ => ret tt)).

Definition qiime2_import_fastq_se_cmd (fastq_folder reads_qza : string) : list string :=
  ["qiime"; "tools"; "import";
   "--type"; "SampleData[SequencesWithQuality]";
   "--input-format"; "CasavaOneEightSingleLanePerSampleDirFmt";
   "--input-path"; fastq_folder;
   "--output-path"; reads_qza].

Definition qiime2_import_fastq_se (fastq_folder reads_qza : string) : M unit :=
  let cmd := qiime2_import_fastq_se_cmd fastq_folder reads_qza in
  _ <- subprocess.run cmd false ;; ret tt.

Definition qiime2_import_fastq_pe_cmd (fastq_folder reads_qza : string) : list string :=
  ["qiime"; "tools"; "import";
   "--type"; "SampleData[PairedEndSequencesWithQuality]";
   "--input-format"; "CasavaOneEightSingleLanePerSampleDirFmt";
   "--input-path"; fastq_folder;
   "--output-path"; reads_qza].

Definition qiime2_import_fastq_pe (fastq_folder reads_qza : string) : M unit :=
  let cmd := qiime2_import_fastq_pe_cmd fastq_folder reads_qza in
  _ <- subprocess.run cmd false ;; ret tt.

Definition qiime2_demux_summary_cmd (reads_qza output_qzv : string) : list string :=
  ["qiime"; "demux"; "summarize";
   "--p-n"; str 1000;
   "--i-data"; reads_qza;
   "--o-visualization"; output_qzv].

Definition qiime2_demux_summary (reads_qza output_qzv : string) : M unit :=
  let cmd := qiime2_demux_summary_cmd reads_qza output_qzv in
  _ <- subprocess.run cmd false ;; ret tt.

Definition qiime2_dada2_denoise_single_cmd
  (reads_qza repseq_qza table_qza stats_qza : string) : list string :=
  ["qiime"; "dada2"; "denoise-single";
   "--p-n-threads"; str 0;
   "--p-trim-left"; str 0;
   "--p-trunc-len"; str 0;
   "--i-demultiplexed-seqs"; reads_qza;
   "--o-representative-sequences"; repseq_qza;
   "--o-table"; table_qza;
   "--o-denoising-stats"; stats_qza].

Definition qiime2_dada2_denoise_single
  (reads_qza repseq_qza table_qza stats_qza : string) : M unit :=
  let cmd := qiime2_dada2_denoise_single_cmd reads_qza repseq_qza table_qza stats_qza in
  _ <- subprocess.run cmd false ;; ret tt.

Definition qiime2_dada2_denoise_paired_cmd
  (reads_qza repseq_qza table_qza stats_qza : string) : list string :=
  ["qiime"; "dada2"; "denoise-paired";
   "--p-n-threads"; str 0;
   "--p-trim-left-f"; str 0;
   "--p-trim-left-r"; str 0;
   "--p-trunc-len-f"; str 0;
   "--p-trunc-len-r"; str 0;
   "--i-demultiplexed-seqs"; reads_qza;
   "--o-representative-sequences"; repseq_qza;
   "--o-table"; table_qza;
   "--o-denoising-stats"; stats_qza].

Definition qiime2_dada2_denoise_paired
  (reads_qza repseq_qza table_qza stats_qza : string) : M unit :=
  let cmd := qiime2_dada2_denoise_paired_cmd reads_qza repseq_qza table_qza stats_qza in
  _ <- subprocess.run cmd false ;; ret tt.

Definition qiime2_metadata_tabulate_cmd (stats_qza stats_qzv : string) : list string :=
  ["qiime"; "metadata"; "tabulate";
   "--m-input-file"; stats_qza;
   "--o-visualization"; stats_qzv].

Definition qiime2_metadata_tabulate (stats_qza stats_qzv : string) : M unit :=
  let cmd := qiime2_metadata_tabulate_cmd stats_qza stats_qzv in
  _ <- subprocess.run cmd false ;; ret tt.

Definition qiime2_export_cmd (qza output_folder : string) : list string :=
  ["qiime"; "tools"; "export";
   "--input-path"; qza;
   "--output-path"; output_folder].

Definition qiime2_export (qza output_folder : string) : M unit :=
  let cmd := qiime2_export_cmd qza output_folder in
  _ <- subprocess.run cmd false ;; ret tt.

Definition qiime2_sample_summarize_cmd (metadata_file table_qza table_qzv : string)
  : list string :=
  ["qiime"; "feature-table"; "summarize";
   "--m-sample-metadata-file"; metadata_file;
   "--i-table"; table_qza;
   "--o-visualization"; table_qzv].

Definition qiime2_sample_summarize (metadata_file table_qza table_qzv : string) : M unit :=
  let cmd := qiime2_sample_summarize_cmd metadata_file table_qza table_qzv in
  _ <- subprocess.run cmd false ;; ret tt.

Definition qiime2_seq_sumamry_cmd (repseqs_qza repseqs_qzv : string) : list string :=
  ["qiime"; "feature-table"; "tabulate-seqs";
   "--i-data"; repseqs_qza;
   "--o-visualization"; repseqs_qzv].

Definition qiime2_seq_sumamry (repseqs_qza repseqs_qzv : string) : M unit :=
  let cmd := qiime2_seq_sumamry_cmd repseqs_qza repseqs_qzv in
  _ <- subprocess.run cmd false ;; ret tt.

Definition qiime2_phylogeny_cmd
  (repseqs_qza align_repseqs_qza masked_align_repseqs_qza unrooted_tree_qza
   rooted_tree_qza : string) : list string :=
  ["qiime"; "phylogeny"; "align-to-tree-mafft-fasttree";
   "--p-n-threads"; "auto";
   "--i-sequences"; repseqs_qza;
   "--o-alignment"; align_repseqs_qza;
   "--o-masked-alignment"; masked_align_repseqs_qza;
   "--o-tree"; unrooted_tree_qza;
   "--o-rooted-tree"; rooted_tree_qza].

Definition qiime2_phylogeny
  (repseqs_qza align_repseqs_qza masked_align_repseqs_qza unrooted_tree_qza
   rooted_tree_qza : string) : M unit :=
  let cmd := qiime2_phylogeny_cmd repseqs_qza align_repseqs_qza masked_align_repseqs_qza
               unrooted_tree_qza rooted_tree_qza in
  _ <- subprocess.run cmd false ;; ret tt.

Definition qiime2_core_diversity_cmd
  (cpu : Z) (metadata_file rooted_tree_qza table_qza output_folder : string)
  : list string :=
  ["qiime"; "diversity"; "core-metrics-phylogenetic";
   "--p-n-jobs-or-threads"; str cpu;
   "--p-sampling-depth"; str 1000;
   "--i-phylogeny"; rooted_tree_qza;
   "--i-table"; table_qza;
   "--m-metadata-file"; metadata_file;
   "--output-dir"; output_folder ++ "/core-metrics-results"].

(** The method ends after the assignment to [cmd]: there is no
    [subprocess.run(cmd)]. *)
Definition qiime2_core_diversity
  (cpu : Z) (metadata_file rooted_tree_qza table_qza output_folder : string) : M unit :=
  let cmd := qiime2_core_diversity_cmd cpu metadata_file rooted_tree_qza table_qza
               output_folder in
  ret tt.

Definition qiime2_rarefaction_cmd (metadata_file rooted_tree_qza table_qza rare_qzv : string)
  : list string :=
  ["qiime"; "diversity"; "alpha-rarefaction";
   "--p-max-depth"; str 4000;
   "--i-phylogeny"; rooted_tree_qza;
   "--i-table"; table_qza;
   "--m-metadata-file"; metadata_file;
   "--o-visualization"; rare_qzv].

Definition qiime2_rarefaction (metadata_file rooted_tree_qza table_qza rare_qzv : string)
  : M unit :=
  let cmd := qiime2_rarefaction_cmd metadata_file rooted_tree_qza table_qza rare_qzv in
  _ <- subprocess.run cmd false ;; ret tt.

Definition qiime2_classify_cmd (qiime2_classifier repseqs_qza taxonomy_qza : string)
  : list string :=
  ["qiime"; "feature-classifier"; "classify-sklearn";
   "--p-n-jobs"; str (-1);
   "--i-classifier"; qiime2_classifier;
   "--i-reads"; repseqs_qza;
   "--o-classification"; taxonomy_qza].

Definition qiime2_classify (qiime2_classifier repseqs_qza taxonomy_qza : string) : M unit :=
  let cmd := qiime2_classify_cmd qiime2_classifier repseqs_qza taxonomy_qza in
  _ <- subprocess.run cmd false ;; ret tt.

(** ['#OTUID\ttaxonomy\tconfidence\n']. *)
Definition taxonomy_header : string :=
  "#OTUID" ++ String TAB "taxonomy" ++ String TAB "confidence" ++ String LF "".

Definition change_taxonomy_file_header (input_taxo : string) : M unit :=
  let tmp := input_taxo ++ ".tmp" in
  (out_f <- io.open_w tmp ;;
   io.write out_f taxonomy_header ;;
   in_f <- io.open_r input_taxo ;;
   '(_, in_f) <- io.next in_f ;;
   io.for_lines in_f (fun line => io.write out_f line)) ;;
  os.replace tmp input_taxo.

Definition biom_add_metadata_cmd (input_biom taxonomy_tsv output_biom : string)
  : list string :=
  ["biom"; "add-metadata";
   "--sc-separated"; "taxonomy";
   "-i"; input_biom;
   "--observation-metadata-fp"; taxonomy_tsv;
   "-o"; output_biom].

Definition biom_add_metadata (input_biom taxonomy_tsv output_biom : string) : M unit :=
  let cmd := biom_add_metadata_cmd input_biom taxonomy_tsv output_biom in
  _ <- subprocess.run cmd false ;; ret tt.

Definition biom_convert_taxo_cmd (input_biom_taxo taxonomy_tsv output_tsv_taxo : string)
  : list string :=
  ["biom"; "convert";
   "--to-tsv";
   "--header-key"; "taxonomy";
   "-i"; input_biom_taxo;
   "--observation-metadata-fp"; taxonomy_tsv;
   "-o"; output_tsv_taxo].

Definition biom_convert_taxo (input_biom_taxo taxonomy_tsv output_tsv_taxo : string)
  : M unit :=
  let cmd := biom_convert_taxo_cmd input_biom_taxo taxonomy_tsv output_tsv_taxo in
  _ <- subprocess.run cmd false ;; ret tt.

Definition qiime2_taxa_barplot_cmd
  (table_qza taxonomy_qza metadata_file taxo_bar_plot_qzv : string) : list string :=
  ["qiime"; "taxa"; "barplot";
   "--i-table"; table_qza;
   "--i-taxonomy"; taxonomy_qza;
   "--m-metadata-file"; metadata_file;
   "--o-visualization"; taxo_bar_plot_qzv].

Definition qiime2_taxa_barplot
  (table_qza taxonomy_qza metadata_file taxo_bar_plot_qzv : string) : M unit :=
  let cmd := qiime2_taxa_barplot_cmd table_qza taxonomy_qza metadata_file
               taxo_bar_plot_qzv in
  _ <- subprocess.run cmd false ;; ret tt.

End Qiime2Methods.

(** The methods that hand an argument vector to [subprocess.run], each with
    its arguments: a way to speak about all of them at once. *)
Inductive method_call : Type :=
| Call_rc_fastq (input_fastq output_fastq : string)
| Call_extract_its_se (fastq_file output_folder log_folder : string) (cpu : Z)
| Call_extract_its_pe (fastq_r1 fastq_r2 output_folder log_folder : string) (cpu : Z)
| Call_fix_fastq_se (fastq_file : string)
| Call_fix_fastq_pe (fastq_r1 fastq_r2 : string)
| Call_qiime2_import_fastq_se (fastq_folder reads_qza : string)
| Call_qiime2_import_fastq_pe (fastq_folder reads_qza : string)
| Call_qiime2_demux_summary (reads_qza output_qzv : string)
| Call_qiime2_dada2_denoise_single (reads_qza repseq_qza table_qza stats_qza : string)
| Call_qiime2_dada2_denoise_paired (reads_qza repseq_qza table_qza stats_qza : string)
| Call_qiime2_metadata_tabulate (stats_qza stats_qzv : string)
| Call_qiime2_export (qza output_folder : string)
| Call_qiime2_sample_summarize (metadata_file table_qza table_qzv : string)
| Call_qiime2_seq_sumamry (repseqs_qza repseqs_qzv : string)
| Call_qiime2_phylogeny (repseqs_qza align_repseqs_qza masked_align_repseqs_qza
                         unrooted_tree_qza rooted_tree_qza : string)
| Call_qiime2_rarefaction (metadata_file rooted_tree_qza table_qza rare_qzv : string)
| Call_qiime2_classify (qiime2_classifier repseqs_qza taxonomy_qza : string)
| Call_biom_add_metadata (input_biom taxonomy_tsv output_biom : string)
| Call_biom_convert_taxo (input_biom_taxo taxonomy_tsv output_tsv_taxo : string)
| Call_qiime2_taxa_barplot (table_qza taxonomy_qza metadata_file taxo_bar_plot_qzv : string).

Definition invoke (c : method_call) : M unit :=
  match c with
  | Call_rc_fastq a b => Qiime2Methods.rc_fastq a b
  | Call_extract_its_se a b c n => Qiime2Methods.extract_its_se a b c n
  | Call_extract_its_pe a b c d n => Qiime2Methods.extract_its_pe a b c d n
  | Call_fix_fastq_se a => Qiime2Methods.fix_fastq_se a
  | Call_fix_fastq_pe a b => Qiime2Methods.fix_fastq_pe a b
  | Call_qiime2_import_fastq_se a b => Qiime2Methods.qiime2_import_fastq_se a b
  | Call_qiime2_import_fastq_pe a b => Qiime2Methods.qiime2_import_fastq_pe a b
  | Call_qiime2_demux_summary a b => Qiime2Methods.qiime2_demux_summary a b
  | Call_qiime2_dada2_denoise_single a b c d =>
      Qiime2Methods.qiime2_dada2_denoise_single a b c d
  | Call_qiime2_dada2_denoise_paired a b c d =>
      Qiime2Methods.qiime2_dada2_denoise_paired a b c d
  | Call_qiime2_metadata_tabulate a b => Qiime2Methods.qiime2_metadata_tabulate a b
  | Call_qiime2_export a b => Qiime2Methods.qiime2_export a b
  | Call_qiime2_sample_summarize a b c => Qiime2Methods.qiime2_sample_summarize a b c
  | Call_qiime2_seq_sumamry a b => Qiime2Methods.qiime2_seq_sumamry a b
  | Call_qiime2_phylogeny a b c d e => Qiime2Methods.qiime2_phylogeny a b c d e
  | Call_qiime2_rarefaction a b c d => Qiime2Methods.qiime2_rarefaction a b c d
  | Call_qiime2_classify a b c => Qiime2Methods.qiime2_classify a b c
  | Call_biom_add_metadata a b c => Qiime2Methods.biom_add_metadata a b c
  | Call_biom_convert_taxo a b c => Qiime2Methods.biom_convert_taxo a b c
  | Call_qiime2_taxa_barplot a b c d => Qiime2Methods.qiime2_taxa_barplot a b c d
  end.

Definition argv (c : method_call) : list string :=
  match c with
  | Call_rc_fastq a b => Qiime2Methods.rc_fastq_cmd a b
  | Call_extract_its_se a b c n => Qiime2Methods.extract_its_se_cmd a b c n
  | Call_extract_its_pe a b c d n => Qiime2Methods.extract_its_pe_cmd a b c d n
  | Call_fix_fastq_se a => Qiime2Methods.fix_fastq_se_cmd a
  | Call_fix_fastq_pe a b => Qiime2Methods.fix_fastq_pe_cmd a b
  | Call_qiime2_import_fastq_se a b => Qiime2Methods.qiime2_import_fastq_se_cmd a b
  | Call_qiime2_import_fastq_pe a b => Qiime2Methods.qiime2_import_fastq_pe_cmd a b
  | Call_qiime2_demux_summary a b => Qiime2Methods.qiime2_demux_summary_cmd a b
  | Call_qiime2_dada2_denoise_single a b c d =>
      Qiime2Methods.qiime2_dada2_denoise_single_cmd a b c d
  | Call_qiime2_dada2_denoise_paired a b c d =>
      Qiime2Methods.qiime2_dada2_denoise_paired_cmd a b c d
  | Call_qiime2_metadata_tabulate a b => Qiime2Methods.qiime2_metadata_tabulate_cmd a b
  | Call_qiime2_export a b => Qiime2Methods.qiime2_export_cmd a b
  | Call_qiime2_sample_summarize a b c => Qiime2Methods.qiime2_sample_summarize_cmd a b c
  | Call_qiime2_seq_sumamry a b => Qiime2Methods.qiime2_seq_sumamry_cmd a b
  | Call_qiime2_phylogeny a b c d e => Qiime2Methods.qiime2_phylogeny_cmd a b c d e
  | Call_qiime2_rarefaction a b c d => Qiime2Methods.qiime2_rarefaction_cmd a b c d
  | Call_qiime2_classify a b c => Qiime2Methods.qiime2_classify_cmd a b c
  | Call_biom_add_metadata a b c => Qiime2Methods.biom_add_metadata_cmd a b c
  | Call_biom_convert_taxo a b c => Qiime2Methods.biom_convert_taxo_cmd a b c
  | Call_qiime2_taxa_barplot a b c d => Qiime2Methods.qiime2_taxa_barplot_cmd a b c d
  end.

(** The world after one external program has run on [cmd]. *)
Definition after_run (w : world) (cmd : list string) : world :=
  let t := snd (programs w cmd (root w)) in
  mkWorld t (cwd w) (programs w) (calls w ++ [cmd]) (history w ++ [t]).

(** The world after the programs of [cmds] have run, one after the other. *)
Definition after_runs (w : world) (cmds : list (list string)) : world :=
  fold_left after_run cmds w.

(** [flag value] occurs in the argument vector, the value right after the
    flag. *)
Fixpoint has_option (cmd : list string) (flag value : string) : bool :=
  match cmd with
  | [] => false
  | f :: rest =>
      match rest with
      | v :: _ => (String.eqb f flag && String.eqb v value) || has_option rest flag value
      | [] => false
      end
  end.

(** The first two files of a sample, as [fastq_list[0]] and
    [fastq_list[1]] give them. *)
Definition mates (s : string * list string) : string * string :=
  (nth 0 (snd s) "", nth 1 (snd s) "").

(** What [os.stat] finds, as a function of the world. *)
Definition stat_of (w : world) (path : string) : Py.exn + FS.node :=
  match FS.resolve (root w) (cwd w) path with
  | inl e => inl e
  | inr pos =>
      match FS.lookup (root w) pos with
      | Some n => inr n
      | None => inl Py.FileNotFoundError
      end
  end.

(** What the two loops of [list_fastq] keep of the triples of a walk. *)
Definition is_fastq_file (w : world) (root filename : string) : bool :=
  match stat_of w (os.path_join root filename) with
  | inr (FS.File _) => true
  | _ => false
  end
  && Py.endswith_any filename Qiime2Methods.fastq_suffixes.

Definition collected (w : world) (triples : list FS.walk_item) : list string :=
  flat_map (fun t : FS.walk_item =>
              let '(root, _, filenames) := t in
              List.map (os.path_join root) (filter (is_fastq_file w root) filenames))
           triples.

(** The regular files with a fastq suffix below a node, each by the names
    that lead down to it, in the order of the walk. *)
Definition is_fastq_entry (e : string * FS.node) : bool :=
  FS.is_file (Some (snd e)) && Py.endswith_any (fst e) Qiime2Methods.fastq_suffixes.

Fixpoint fastq_below (t : FS.node) : list FS.position :=
  match t with
  | FS.Dir es =>
      List.map (fun e => [fst e]) (filter is_fastq_entry es)
      ++ flat_map (fun e => List.map (cons (fst e)) (fastq_below (snd e))) es
  | _ => []
  end.

(** [os.path.join] along the names, from [top]. *)
Definition join_down (top : string) (names : FS.position) : string :=
  fold_left os.path_join names top.

(** The directories of [t] are directories of [t'] too. *)
Definition keeps_dirs (t t' : FS.node) : Prop :=
  forall q, FS.is_dir (FS.lookup t q) = true -> FS.is_dir (FS.lookup t' q) = true.

(** One world grew out of another by new directories only. *)
Definition grew (w w' : world) : Prop :=
  cwd w' = cwd w /\ programs w' = programs w /\ calls w' = calls w
  /\ keeps_dirs (root w) (root w')
  /\ (forall q n, FS.lookup (root w') q = Some n -> FS.is_dir (Some n) = false ->
                  FS.lookup (root w) q = Some n).

(** While [change_taxonomy_file_header] writes its temporary file, seen
    from the world [w0] it started in: the table, entry [c] of the
    directory at [parent], is untouched in the world and in every tree
    logged since [w0]; the temporary file next to it holds [written]; no
    directory was lost and no program was run. *)
Definition writing (w0 : world) (parent : FS.position) (c content written : string)
  (w : world) : Prop :=
  cwd w = cwd w0 /\ programs w = programs w0 /\ calls w = calls w0
  /\ keeps_dirs (root w0) (root w)
  /\ FS.lookup (root w) (parent ++ [c]) = Some (FS.File content)
  /\ FS.lookup (root w) (parent ++ [(c ++ ".tmp")%string]) = Some (FS.File written)
  /\ exists hs, history w = history w0 ++ hs
                /\ Forall (fun t => FS.lookup t (parent ++ [c]) = Some (FS.File content)) hs.

(** Where a path starts. *)
Definition start_of (w : world) (anchored : bool) : FS.position :=
  if anchored then [] else cwd w.

(** The entries found under a directory, each with the path that
    [os.path.join] builds for it on the way down: [reaches top es p name n]
    when the directory listed as [es], reached under the path [top], holds
    at some depth an entry [name] that is the node [n], and [p] is its
    path. *)
Inductive reaches : string -> FS.entries -> string -> string -> FS.node -> Prop :=
| reaches_here top es name n :
    In (name, n) es -> reaches top es (os.path_join top name) name n
| reaches_below top es d es' p name n :
    In (d, FS.Dir es') es ->
    reaches (os.path_join top d) es' p name n ->
    reaches top es p name n.

(** The path made of the first [k] parts of [p]: [p] itself, its parent,
    the parent of its parent, and so on up to the anchor. *)
Definition ancestor (k : nat) (p : pathlib.Path) : pathlib.Path :=
  pathlib.mkPath (pathlib.anchored p) (firstn k (pathlib.parts p)).

(** The parts [pathlib] keeps: not empty, not a dot, without a slash. *)
Definition is_part (c : string) : bool :=
  negb (String.eqb c "" || String.eqb c ".") && negb (Py.mem "/" c).

(** Where the kernel gets to along a [Path]: from the root or the working
    directory, which has to be a directory, through the parts. *)
Definition goto (w : world) (p : pathlib.Path) : Py.exn + FS.position :=
  FS.namei (root w) (start_of w (pathlib.anchored p)) ("." :: pathlib.parts p).

(** The path names a directory. *)
Definition dir_at (w : world) (p : pathlib.Path) : bool :=
  match goto w p with
  | inr pos => FS.is_dir (FS.lookup (root w) pos)
  | inl _ => false
  end.

(** Nothing but directories on the way: going through the components
    from [pos], no position met on the way, the last one included, holds a
    file or a special file.  A position that holds nothing is fine. *)
Fixpoint clear_way (t : FS.node) (pos : FS.position) (comps : list string) : bool :=
  match FS.lookup t pos with
  | Some (FS.File _) | Some FS.Special => false
  | _ =>
      match comps with
      | [] => true
      | c :: cs => clear_way t (FS.step pos c) cs
      end
  end.

(** [p.mkdir(parents=True, exist_ok=True)] meets no file-system error: the
    directory the path starts from exists, and no component of the path is
    taken by something that is not a directory. *)
Definition unobstructed (w : world) (p : pathlib.Path) : bool :=
  FS.is_dir (FS.lookup (root w) (start_of w (pathlib.anchored p)))
  && clear_way (root w) (start_of w (pathlib.anchored p)) (pathlib.parts p).

(** A path at which [open(path, 'w')] can write a regular file: nothing
    is there yet, or a regular file. *)
Definition vacant_or_regular (w : world) (path : string) : bool :=
  match stat_of w path with
  | inr (FS.File _) => true
  | inl Py.FileNotFoundError => true
  | _ => false
  end.

(** Every file of [w], regular or special, is in [w'] where it was and
    as it was. *)
Definition keeps_files (w w' : world) : Prop :=
  forall q n, FS.lookup (root w) q = Some n -> FS.is_dir (Some n) = false ->
              FS.lookup (root w') q = Some n.

(** The text after the first line: what follows the first line feed. *)
Fixpoint after_first_line (s : string) : string :=
  match s with
  | EmptyString => EmptyString
  | String c s' => if Ascii.eqb c Py.LF then s' else after_first_line s'
  end.

(** What [list_fastq] returns for a path, as a function of the world. *)
Definition listed (w : world) (my_path : string) : list string :=
  match fst (Qiime2Methods.list_fastq my_path w) with
  | inr fastq_list => fastq_list
  | inl _ => []
  end.

(** The world [w'] differs from [w] at most in what the positions of
    [but] hold: the same working directory, programs and calls; the same
    positions hold directories; and at every other position the same
    file, if any. *)
Definition touched_only (but : list FS.position) (w w' : world) : Prop :=
  cwd w' = cwd w /\ programs w' = programs w /\ calls w' = calls w
  /\ (forall q, FS.is_dir (FS.lookup (root w') q) = FS.is_dir (FS.lookup (root w) q))
  /\ (forall q n, ~ In q but -> FS.is_dir (Some n) = false ->
                  (FS.lookup (root w') q = Some n <-> FS.lookup (root w) q = Some n)).

(** The positions that a path names in a world: one, or none when the
    path does not resolve. *)
Definition named (w : world) (path : string) : list FS.position :=
  match FS.resolve (root w) (cwd w) path with
  | inr pos => [pos]
  | inl _ => []
  end.

(** The world [w'] lists as [w] does: the same working directory, a
    well-formed tree if [w] has one, every directory still a directory,
    and at every position of [w] a node with the same fastq files
    below. *)
Definition listing_kept (w w' : world) : Prop :=
  cwd w' = cwd w
  /\ (FS.wf (root w) = true -> FS.wf (root w') = true)
  /\ keeps_dirs (root w) (root w')
  /\ (forall q n, FS.lookup (root w) q = Some n ->
                  exists n', FS.lookup (root w') q = Some n'
                             /\ fastq_below n' = fastq_below n).

(** The three ways in which a line ends, given the text [next] that
    follows it: with a line feed, with a carriage return and a line feed,
    or with a carriage return alone, one that no line feed follows. *)
Definition line_end (eol next : string) : bool :=
  String.eqb eol (String Py.LF "")
  || String.eqb eol (String Py.CR (String Py.LF ""))
  || (String.eqb eol (String Py.CR "")
      && negb (Py.startswith next (String Py.LF ""))).

(** A state of the decoder in which only bytes from [80] up are
    accepted, or the boundary of a character: every state the decoder
    gets into. *)
Definition high_state (st : Py.utf8_state) : Prop :=
  match st with
  | Py.Boundary => True
  | Py.Continue lo _ _ => (128 <= lo)%N
  end.

(** [p.mkdir(parents=True, exist_ok=True)] meets no file-system error,
    for the path as the caller writes it: the directory the string starts
    from exists, and no component of the string, taken as the kernel
    takes it, leads to something that is not a directory. *)
Definition unobstructed_path (w : world) (folder : string) : bool :=
  FS.is_dir (FS.lookup (root w) (FS.start (cwd w) folder))
  && clear_way (root w) (FS.start (cwd w) folder) (Py.split "/" folder).

(** Example worlds for the closed statements below: Linux-like trees, and
    external programs that exit with status 1 and touch nothing. *)
Definition failing_programs : list string -> FS.node -> Z * FS.node :=
  fun _ t => (1%Z, t).

Definition example_tree : FS.node :=
  FS.Dir
    [("home",
      FS.Dir
        [("data",
          FS.Dir
            [("s1_R1.fq", FS.File "@r");
             ("notes.txt", FS.File "n");
             ("pipe.fastq", FS.Special);
             ("run2",
              FS.Dir
                [("s2_R1.fastq.gz", FS.File "z");
                 ("old.fastq", FS.Dir [("s3.fq", FS.File "")])])]);
         ("taxonomy.tsv",
          FS.File ("Feature ID" ++ String Py.TAB "Taxon" ++ String Py.TAB "Confidence"
                   ++ String Py.LF "f1" ++ String Py.TAB "k__Fungi" ++ String Py.TAB "0.9"
                   ++ String Py.LF "")%string);
         ("crlf.tsv",
          FS.File ("X" ++ String Py.CR (String Py.LF "f1")
                   ++ String Py.CR (String Py.LF ""))%string);
         ("empty.tsv", FS.File "")])].

Definition example_world : world :=
  mkWorld example_tree ["home"] failing_programs [] [].

(* ===================================================================== *)
(** * Properties *)
(* ===================================================================== *)

(** ** The built-ins on examples *)

Example py_split_ex : Py.split "_" "S1_R1_001.fastq" = ["S1"; "R1"; "001.fastq"].
Proof. reflexivity. Qed.

Example py_str_ex : Py.str 1000 = "1000" /\ Py.str (-1) = "-1" /\ Py.str 0 = "0".
Proof. repeat split. Qed.

Example py_endswith_ex :
  Py.endswith_any "a.fq.gz" Qiime2Methods.fastq_suffixes = true
  /\ Py.endswith_any "a.fq.gz.txt" Qiime2Methods.fastq_suffixes = false.
Proof. split; reflexivity. Qed.

Example py_int_div4_ex :
  Py.int_div4 8 = inr 2%Z /\ Py.int_div4 3 = inr 0%Z
  /\ Py.int_div4 (-5) = inr (-1)%Z
  /\ Py.int_div4 (2 ^ 55 + 4)%Z = inr (2 ^ 53)%Z.
Proof. repeat split; vm_compute; reflexivity. Qed.

Example py_lines_ex :
  Py.lines (Py.universal_newlines ("a" ++ String Py.CR (String Py.LF "b")))
  = ["a" ++ String Py.LF ""; "b"]%string.
Proof. reflexivity. Qed.

(** ** External processes *)

Section Processes.

Import Qiime2Methods.

(** Without [check], [subprocess.run] returns whatever the status. *)
Lemma run_unchecked (cmd : list string) (w : world) :
  subprocess.run cmd false w
  = (inr (subprocess.mkCompleted cmd (fst (programs w cmd (root w)))),
     after_run w cmd).
Proof.
  unfold subprocess.run, after_run.
  destruct (programs w cmd (root w)) as [rc t]; reflexivity.
Qed.

(** With [check=True] a non-zero status would raise: the model tells the
    two apart. *)
Lemma run_checked_raises (cmd : list string) (w : world) :
  fst (programs w cmd (root w)) <> 0%Z ->
  fst (subprocess.run cmd true w)
  = inl (Py.CalledProcessError (fst (programs w cmd (root w)))).
Proof.
  unfold subprocess.run. destruct (programs w cmd (root w)) as [rc t]; simpl.
  intros H. destruct (Z.eqb_spec rc 0); [contradiction|reflexivity].
Qed.

(** Each method of the catalogue runs its own argument vector, once. *)
Lemma invoke_after_run (c : method_call) (w : world) :
  invoke c w = (inr tt, after_run w (argv c)).
Proof.
  destruct c; cbn [invoke argv];
    unfold rc_fastq, extract_its_se, extract_its_pe, fix_fastq_se, fix_fastq_pe,
      qiime2_import_fastq_se, qiime2_import_fastq_pe, qiime2_demux_summary,
      qiime2_dada2_denoise_single, qiime2_dada2_denoise_paired,
      qiime2_metadata_tabulate, qiime2_export, qiime2_sample_summarize,
      qiime2_seq_sumamry, qiime2_phylogeny, qiime2_rarefaction, qiime2_classify,
      biom_add_metadata, biom_convert_taxo, qiime2_taxa_barplot;
    unfold bind; rewrite run_unchecked; reflexivity.
Qed.

Lemma calls_after_run w cmd : calls (after_run w cmd) = calls w ++ [cmd].
Proof. reflexivity. Qed.

Lemma calls_after_runs cmds : forall w,
  calls (after_runs w cmds) = calls w ++ cmds.
Proof.
  unfold after_runs.
  induction cmds as [|c cmds IH]; intros w; simpl.
  - now rewrite app_nil_r.
  - rewrite IH, calls_after_run, <- app_assoc. reflexivity.
Qed.

(** C7.  A method that runs an external program returns [None] normally
    whatever exit status [rc] the program ends with: the status is not
    looked at, nothing is raised, and the world the caller gets back holds
    the call and the program's effect on the tree but no trace of [rc]. *)
Theorem exit_status_is_swallowed (c : method_call) (w : world) (rc : Z) (t : FS.node) :
  programs w (argv c) (root w) = (rc, t) ->
  invoke c w
  = (inr tt, mkWorld t (cwd w) (programs w) (calls w ++ [argv c]) (history w ++ [t])).
Proof.
  intros H. rewrite invoke_after_run. unfold after_run. now rewrite H.
Qed.

Lemma exit_status_is_swallowed_witness :
  programs example_world (argv (Call_qiime2_classify "c.qza" "r.qza" "t.qza"))
           (root example_world) = (1%Z, example_tree)
  /\ invoke (Call_qiime2_classify "c.qza" "r.qza" "t.qza") example_world
     = (inr tt,
        mkWorld example_tree ["home"] failing_programs
                [argv (Call_qiime2_classify "c.qza" "r.qza" "t.qza")]
                [example_tree]).
Proof.
  split; [reflexivity|].
  apply (exit_status_is_swallowed
           (Call_qiime2_classify "c.qza" "r.qza" "t.qza") example_world 1 example_tree).
  reflexivity.
Defined.

(** C2.  [qiime2_core_diversity] only builds its argument vector: the
    vector holds [--p-sampling-depth 1000] and an output directory ending
    in [/core-metrics-results], but the method hands it to nobody.  It
    returns with the world as it found it: no call is logged and the tree
    is untouched. *)
Theorem qiime2_core_diversity_runs_nothing
  (cpu : Z) (metadata_file rooted_tree_qza table_qza output_folder : string) (w : world) :
  qiime2_core_diversity cpu metadata_file rooted_tree_qza table_qza output_folder w
  = (inr tt, w)
  /\ has_option
       (qiime2_core_diversity_cmd cpu metadata_file rooted_tree_qza table_qza output_folder)
       "--p-sampling-depth" "1000" = true
  /\ has_option
       (qiime2_core_diversity_cmd cpu metadata_file rooted_tree_qza table_qza output_folder)
       "--output-dir" (output_folder ++ "/core-metrics-results") = true.
Proof.
  split; [reflexivity|]. unfold qiime2_core_diversity_cmd.
  split; cbn -[String.eqb Py.str]; rewrite ?String.eqb_refl; cbn;
    rewrite ?orb_true_r; reflexivity.
Qed.

(** C6.  The paired operations run one program on both mates: after
    [fix_fastq_pe] the log is one call longer, and that call holds
    [-f r1] and [-f2 r2]; after [extract_its_pe] likewise, with
    [--fastq r1] and [--fastq2 r2]. *)
Theorem paired_ops_one_joint_invocation
  (fastq_r1 fastq_r2 output_folder log_folder : string) (cpu : Z) (w : world) :
  (exists w' cmd,
      fix_fastq_pe fastq_r1 fastq_r2 w = (inr tt, w')
      /\ calls w' = calls w ++ [cmd]
      /\ has_option cmd "-f" fastq_r1 = true
      /\ has_option cmd "-f2" fastq_r2 = true)
  /\ (exists w' cmd,
      extract_its_pe fastq_r1 fastq_r2 output_folder log_folder cpu w = (inr tt, w')
      /\ calls w' = calls w ++ [cmd]
      /\ has_option cmd "--fastq" fastq_r1 = true
      /\ has_option cmd "--fastq2" fastq_r2 = true).
Proof.
  split.
  - exists (after_run w (fix_fastq_pe_cmd fastq_r1 fastq_r2)),
           (fix_fastq_pe_cmd fastq_r1 fastq_r2).
    split; [exact (invoke_after_run (Call_fix_fastq_pe fastq_r1 fastq_r2) w)|].
    split; [reflexivity|].
    unfold fix_fastq_pe_cmd.
    split; cbn -[String.eqb]; rewrite ?String.eqb_refl; cbn;
      rewrite ?orb_true_r; reflexivity.
  - exists (after_run w (extract_its_pe_cmd fastq_r1 fastq_r2 output_folder log_folder cpu)),
           (extract_its_pe_cmd fastq_r1 fastq_r2 output_folder log_folder cpu).
    split; [exact (invoke_after_run
                     (Call_extract_its_pe fastq_r1 fastq_r2 output_folder log_folder cpu) w)|].
    split; [reflexivity|].
    unfold extract_its_pe_cmd.
    split; cbn -[String.eqb Py.str os.path_basename sample_token];
      rewrite ?String.eqb_refl; cbn -[String.eqb Py.str os.path_basename sample_token];
      rewrite ?orb_true_r; reflexivity.
Qed.

End Processes.

(** ** The parallel dispatchers *)

Section Dispatch.

Import Qiime2Methods.

(** A pool whose tasks each run one program: the programs run in
    submission order, every future holds [None]. *)
Lemma futures_map_runs {X A} (fn : A -> M unit) (arg : X -> Py.exn + A)
  (cmd : X -> list string) (xs : list X) :
  (forall x, In x xs ->
     exists a, arg x = inr a /\ forall w, fn a w = (inr tt, after_run w (cmd x))) ->
  forall w : world,
    futures.map fn (List.map arg xs) w
    = (inr (List.map (fun _ => inr tt) xs), after_runs w (List.map cmd xs)).
Proof.
  induction xs as [|x xs IH]; intros H w; [reflexivity|].
  destruct (H x (or_introl eq_refl)) as (a & Ha & Hfn).
  cbn [List.map futures.map]. rewrite Ha. unfold bind, attempt. rewrite Hfn.
  rewrite IH by (intros y Hy; apply H; now right). reflexivity.
Qed.

(** A pool whose tasks all raise at once: nothing happens to the world and
    every future holds the exception. *)
Lemma futures_map_raises {X A} (fn : A -> M unit) (arg : X -> Py.exn + A)
  (e : Py.exn) (xs : list X) :
  (forall x, In x xs -> exists a, arg x = inr a /\ forall w, fn a w = (inl e, w)) ->
  forall w : world,
    futures.map fn (List.map arg xs) w = (inr (List.map (fun _ => inl e) xs), w).
Proof.
  induction xs as [|x xs IH]; intros H w; [reflexivity|].
  destruct (H x (or_introl eq_refl)) as (a & Ha & Hfn).
  cbn [List.map futures.map]. rewrite Ha. unfold bind, attempt. rewrite Hfn.
  rewrite IH by (intros y Hy; apply H; now right). reflexivity.
Qed.

Lemma for_results_all_done {A} (xs : list A) (w : world) :
  futures.for_results (List.map (fun _ => @inr Py.exn unit tt) xs) (fun _ => ret tt) w
  = (inr tt, w).
Proof.
  unfold futures.for_results. revert w.
  induction xs as [|x xs IH]; intros w; [reflexivity|].
  cbn. unfold bind, lift, ret. cbn. apply IH.
Qed.

Lemma pool_open {A} (n : Z) (body : M A) :
  (0 < n)%Z -> futures.ThreadPoolExecutor n body = body.
Proof.
  intros H. unfold futures.ThreadPoolExecutor.
  destruct (Z.leb_spec n 0); [lia|reflexivity].
Qed.

Lemma extract_its_se_after_run a b c n w :
  extract_its_se a b c n w = (inr tt, after_run w (extract_its_se_cmd a b c n)).
Proof. exact (invoke_after_run (Call_extract_its_se a b c n) w). Qed.

Lemma extract_its_pe_after_run a b c d n w :
  extract_its_pe a b c d n w = (inr tt, after_run w (extract_its_pe_cmd a b c d n)).
Proof. exact (invoke_after_run (Call_extract_its_pe a b c d n) w). Qed.

Lemma fix_fastq_se_after_run a w :
  fix_fastq_se a w = (inr tt, after_run w (fix_fastq_se_cmd a)).
Proof. exact (invoke_after_run (Call_fix_fastq_se a) w). Qed.

Lemma fix_fastq_pe_after_run a b w :
  fix_fastq_pe a b w = (inr tt, after_run w (fix_fastq_pe_cmd a b)).
Proof. exact (invoke_after_run (Call_fix_fastq_pe a b) w). Qed.

(** The four dispatchers that call their own worker: with a pool of at
    least one worker, one run per item, in submission order, each with the
    item's own fields and the share [n = int(cpu / 4)]. *)
Lemma extract_its_se_parallel_runs
  (fastq_list : list string) (output_folder log_folder : string) (cpu n : Z) (w : world) :
  Py.int_div4 cpu = inr n -> (0 < n)%Z ->
  extract_its_se_parallel fastq_list output_folder log_folder cpu w
  = (inr tt,
     after_runs w (List.map (fun fastq =>
                     extract_its_se_cmd fastq output_folder log_folder n) fastq_list)).
Proof.
  intros Hn Hpos. unfold extract_its_se_parallel. rewrite Hn.
  unfold bind at 1, lift. rewrite pool_open by assumption.
  unfold bind.
  rewrite (futures_map_runs extract_its_se_star _
             (fun fastq => extract_its_se_cmd fastq output_folder log_folder n)).
  - apply for_results_all_done.
  - intros x _. eexists; split; [reflexivity|].
    intros w0. apply extract_its_se_after_run.
Qed.

Lemma index_mates (s : string * list string) :
  (2 <= length (snd s))%nat ->
  Py.index (snd s) 0 = inr (fst (mates s)) /\ Py.index (snd s) 1 = inr (snd (mates s)).
Proof.
  destruct s as [k [|a [|b l]]]; simpl; try lia. intros _. split; reflexivity.
Qed.

Lemma extract_its_pe_parallel_runs
  (samples : sample_dict) (output_folder log_folder : string) (cpu n : Z) (w : world) :
  Py.int_div4 cpu = inr n -> (0 < n)%Z ->
  Forall (fun s => (2 <= length (snd s))%nat) samples ->
  extract_its_pe_parallel samples output_folder log_folder cpu w
  = (inr tt,
     after_runs w (List.map (fun s =>
                     extract_its_pe_cmd (fst (mates s)) (snd (mates s))
                                        output_folder log_folder n) samples)).
Proof.
  intros Hn Hpos Hall. unfold extract_its_pe_parallel. rewrite Hn.
  unfold bind at 1, lift. rewrite pool_open by assumption.
  unfold bind.
  rewrite (futures_map_runs extract_its_pe_star _
             (fun s => extract_its_pe_cmd (fst (mates s)) (snd (mates s))
                                          output_folder log_folder n)).
  - apply for_results_all_done.
  - intros [k l] Hin. rewrite Forall_forall in Hall.
    destruct (index_mates (k, l) (Hall _ Hin)) as [H0 H1]. simpl in H0, H1.
    rewrite H0, H1. eexists; split; [reflexivity|].
    intros w0. apply extract_its_pe_after_run.
Qed.

Lemma fix_fastq_se_parallel_runs (fastq_list : list string) (cpu : Z) (w : world) :
  (0 < cpu)%Z ->
  fix_fastq_se_parallel fastq_list cpu w
  = (inr tt, after_runs w (List.map fix_fastq_se_cmd fastq_list)).
Proof.
  intros Hpos. unfold fix_fastq_se_parallel. rewrite pool_open by assumption.
  unfold bind.
  rewrite (futures_map_runs fix_fastq_se _ fix_fastq_se_cmd).
  - apply for_results_all_done.
  - intros x _. eexists; split; [reflexivity|].
    intros w0. apply fix_fastq_se_after_run.
Qed.

Lemma fix_fastq_pe_parallel_runs (samples : sample_dict) (cpu : Z) (w : world) :
  (0 < cpu)%Z ->
  Forall (fun s => (2 <= length (snd s))%nat) samples ->
  fix_fastq_pe_parallel samples cpu w
  = (inr tt,
     after_runs w (List.map (fun s => fix_fastq_pe_cmd (fst (mates s)) (snd (mates s)))
                            samples)).
Proof.
  intros Hpos Hall. unfold fix_fastq_pe_parallel. rewrite pool_open by assumption.
  unfold bind.
  rewrite (futures_map_runs fix_fastq_pe_star _
             (fun s => fix_fastq_pe_cmd (fst (mates s)) (snd (mates s)))).
  - apply for_results_all_done.
  - intros [k l] Hin. rewrite Forall_forall in Hall.
    destruct (index_mates (k, l) (Hall _ Hin)) as [H0 H1]. simpl in H0, H1.
    rewrite H0, H1. eexists; split; [reflexivity|].
    intros w0. apply fix_fastq_pe_after_run.
Qed.

(** C1 (the reorient dispatcher).  [rc_fastq_parallel] does not call
    [rc_fastq]: its tasks call [extract_its_se] with the three values
    (file, output folder, share), one short of the four positional
    arguments.  Every task raises [TypeError] before it builds a command,
    the first result raises it again in the caller, and the world is as
    before: for a list with at least one file and a pool with at least one
    worker, no program is run for any item. *)
Theorem rc_fastq_parallel_raises_TypeError
  (fastq_list : list string) (output_folder : string) (cpu n : Z) (w : world) :
  Py.int_div4 cpu = inr n -> (0 < n)%Z -> fastq_list <> [] ->
  rc_fastq_parallel fastq_list output_folder cpu w = (inl Py.TypeError, w).
Proof.
  intros Hn Hpos Hne. unfold rc_fastq_parallel. rewrite Hn.
  unfold bind at 1, lift. rewrite pool_open by assumption.
  unfold bind.
  rewrite (futures_map_raises extract_its_se_star _ Py.TypeError).
  - destruct fastq_list as [|x xs]; [contradiction|]. reflexivity.
  - intros x _. eexists; split; [reflexivity|]. intros w0. reflexivity.
Qed.

Lemma rc_fastq_parallel_raises_TypeError_witness :
  Py.int_div4 8 = inr 2%Z /\ (0 < 2)%Z /\ ["s1_R1.fastq"] <> []
  /\ rc_fastq_parallel ["s1_R1.fastq"] "out" 8 example_world
     = (inl Py.TypeError, example_world).
Proof.
  split; [reflexivity|]. split; [lia|]. split; [discriminate|].
  apply (rc_fastq_parallel_raises_TypeError ["s1_R1.fastq"] "out" 8 2 example_world);
    [reflexivity | lia | discriminate].
Defined.

End Dispatch.

(** ** CPU accounting *)

Section Accounting.

Import Qiime2Methods.

(** An integer of at most 53 bits is a float as it stands. *)
Lemma round53_small (a : Z) : (Z.abs a < 2 ^ 53)%Z -> Py.round53 a = a.
Proof.
  intros H. unfold Py.round53.
  destruct (Z.ltb_spec (Z.abs a) (2 ^ 53)); [reflexivity|lia].
Qed.

(** Below [2 ^ 53] the division is exact: [int(cpu / 4)] is the floor. *)
Lemma int_div4_exact (cpu : Z) :
  (0 <= cpu < 2 ^ 53)%Z -> Py.int_div4 cpu = inr (cpu / 4)%Z.
Proof.
  intros [H0 H1]. unfold Py.int_div4.
  rewrite round53_small by (rewrite Z.abs_eq; assumption).
  rewrite Z.abs_eq by assumption.
  destruct (Z.leb_spec (2 ^ 1026) cpu) as [Hbig|_].
  - exfalso. assert (2 ^ 53 < 2 ^ 1026)%Z by (apply Z.pow_lt_mono_r; lia). lia.
  - now rewrite Z.quot_div_nonneg by lia.
Qed.




End Accounting.

(** ** Strings and paths *)

Section Strings.

Lemma string_app_nil_r (s : string) : (s ++ "")%string = s.
Proof. induction s as [|c s IH]; simpl; [reflexivity | now rewrite IH]. Qed.

Lemma string_app_assoc (a b c : string) :
  ((a ++ b) ++ c)%string = (a ++ b ++ c)%string.
Proof. induction a as [|x a IH]; simpl; [reflexivity | now rewrite IH]. Qed.

(** [s.endswith(p)]: [s] is something followed by [p]. *)
Lemma endswith_spec (s p : string) :
  Py.endswith s p = true <-> exists t, s = (t ++ p)%string.
Proof.
  induction s as [|c s IH]; cbn [Py.endswith].
  - rewrite orb_false_r, String.eqb_eq. split.
    + intros H. exists "". now subst.
    + intros [t H]. destruct t; simpl in H; [now subst|discriminate].
  - rewrite orb_true_iff, IH, String.eqb_eq. split.
    + intros [H|[t H]].
      * exists "". now subst.
      * exists (String c t). simpl. now subst.
    + intros [t H]. destruct t as [|d t]; simpl in H.
      * left. now subst p.
      * right. inversion H. now exists t.
Qed.

Lemma split_not_nil (sep : ascii) (s : string) : Py.split sep s <> [].
Proof.
  destruct s as [|c s]; simpl; [discriminate|].
  destruct (Ascii.eqb c sep); [discriminate|].
  destruct (Py.split sep s); discriminate.
Qed.

(** A string without the separator is one field. *)
Lemma split_one (sep : ascii) (s : string) :
  Py.mem sep s = false -> Py.split sep s = [s].
Proof.
  induction s as [|c s IH]; simpl; [reflexivity|].
  intros H. apply orb_false_iff in H. destruct H as [Hc Hs].
  rewrite Hc, (IH Hs). reflexivity.
Qed.

(** No field holds the separator. *)
Lemma split_fields (sep : ascii) (s : string) :
  Forall (fun c => Py.mem sep c = false) (Py.split sep s).
Proof.
  induction s as [|c s IH]; simpl.
  - repeat constructor.
  - destruct (Ascii.eqb c sep) eqn:E.
    + constructor; [reflexivity | exact IH].
    + destruct (Py.split sep s) as [|x xs].
      * repeat constructor. simpl. now rewrite E.
      * inversion IH; subst. constructor; [|assumption].
        simpl. now rewrite E.
Qed.

(** Splitting what was put together around a separator. *)
Lemma split_app_sep (sep : ascii) (a b : string) :
  Py.split sep (a ++ String sep b) = Py.split sep a ++ Py.split sep b.
Proof.
  induction a as [|c a IH]; simpl.
  - now rewrite Ascii.eqb_refl.
  - destruct (Ascii.eqb c sep); [now rewrite IH|].
    rewrite IH. pose proof (split_not_nil sep a).
    destruct (Py.split sep a); [contradiction | reflexivity].
Qed.

(** What is appended without a separator goes to the last field. *)
Lemma split_app_last (sep : ascii) (a t : string) :
  Py.mem sep t = false ->
  Py.split sep (a ++ t)
  = removelast (Py.split sep a) ++ [(last (Py.split sep a) "" ++ t)%string].
Proof.
  intros Ht. induction a as [|c a IH]; simpl.
  - now apply split_one.
  - destruct (Ascii.eqb c sep).
    + rewrite IH. pose proof (split_not_nil sep a).
      destruct (Py.split sep a); [contradiction | reflexivity].
    + rewrite IH. pose proof (split_not_nil sep a).
      destruct (Py.split sep a) as [|x [|y ys]]; [contradiction | reflexivity |].
      reflexivity.
Qed.

Lemma split_join (sep : ascii) (xs : list string) :
  xs <> [] -> Forall (fun c => Py.mem sep c = false) xs ->
  Py.split sep (Py.join (String sep "") xs) = xs.
Proof.
  induction xs as [|x xs IH]; [contradiction|]. intros _ H.
  inversion H as [|? ? Hx Hxs]; subst.
  destruct xs as [|y ys].
  - simpl. now apply split_one.
  - change (Py.join (String sep "") (x :: y :: ys))
      with (x ++ String sep (Py.join (String sep "") (y :: ys)))%string.
    rewrite split_app_sep, split_one by assumption.
    rewrite IH by (discriminate || assumption). reflexivity.
Qed.

Lemma startswith_app (s t : string) (p : ascii) :
  s <> "" -> Py.startswith (s ++ t) (String p "") = Py.startswith s (String p "").
Proof.
  intros H. destruct s as [|c s]; [contradiction|].
  unfold Py.startswith. simpl.
  destruct (Ascii.ascii_dec p c); [destruct s, t; reflexivity|reflexivity].
Qed.

Lemma mem_false_not_startswith (c : ascii) (s : string) :
  Py.mem c s = false -> Py.startswith s (String c "") = false.
Proof.
  destruct s as [|d s]; simpl; [reflexivity|].
  intros H. apply orb_false_iff in H. destruct H as [H _].
  unfold Py.startswith. simpl.
  destruct (Ascii.ascii_dec c d) as [->|]; [|reflexivity].
  now rewrite Ascii.eqb_refl in H.
Qed.

(** Text without carriage returns is read as it is. *)
Lemma universal_newlines_id (s : string) :
  Py.mem Py.CR s = false -> Py.universal_newlines s = s.
Proof.
  induction s as [|c s IH]; simpl; [reflexivity|].
  intros H. apply orb_false_iff in H. destruct H as [Hc Hs].
  rewrite Hc, (IH Hs). reflexivity.
Qed.

(** The lines of a text put together give the text back. *)
Lemma concat_lines (s : string) :
  fold_right String.append "" (Py.lines s) = s.
Proof.
  induction s as [|c s IH]; simpl; [reflexivity|].
  destruct (Ascii.eqb_spec c Py.LF) as [->|_].
  - simpl. now rewrite IH.
  - destruct (Py.lines s) as [|l ls]; simpl in *; now rewrite <- IH.
Qed.

(** The first line ends at the first line feed. *)
Lemma lines_first (x rest : string) :
  Py.mem Py.LF x = false ->
  Py.lines (x ++ String Py.LF rest) = (x ++ String Py.LF "")%string :: Py.lines rest.
Proof.
  induction x as [|c x IH]; simpl.
  - reflexivity.
  - intros H. apply orb_false_iff in H. destruct H as [Hc Hx].
    rewrite Hc, (IH Hx). reflexivity.
Qed.

(** Text without carriage returns passes the reader as it is, whatever
    follows it. *)
Lemma universal_newlines_app (a b : string) :
  Py.mem Py.CR a = false ->
  Py.universal_newlines (a ++ b) = (a ++ Py.universal_newlines b)%string.
Proof.
  induction a as [|c a IH]; simpl; [reflexivity|].
  intros H. apply orb_false_iff in H. destruct H as [Hc Ha].
  now rewrite Hc, (IH Ha).
Qed.

(** Each of the three line ends reaches the program as one line feed. *)
Lemma universal_newlines_line_end (eol next : string) :
  line_end eol next = true ->
  Py.mem Py.CR next = false ->
  Py.universal_newlines (eol ++ next) = String Py.LF next.
Proof.
  unfold line_end. intros H Hn.
  pose proof (universal_newlines_id next Hn) as Hid.
  apply orb_true_iff in H. destruct H as [H|H];
    [apply orb_true_iff in H; destruct H as [H|H]|].
  - apply String.eqb_eq in H. subst eol. simpl. now rewrite Hid.
  - apply String.eqb_eq in H. subst eol. simpl. now rewrite Hid.
  - apply andb_true_iff in H. destruct H as [H Hs].
    apply String.eqb_eq in H. subst eol.
    destruct next as [|d next']; [reflexivity|].
    transitivity (String Py.LF (Py.universal_newlines (String d next')));
      [|now rewrite Hid].
    simpl. destruct (Ascii.eqb_spec d Py.LF) as [->|_]; [|reflexivity].
    exfalso. unfold Py.startswith in Hs. simpl in Hs. now destruct next'.
Qed.

End Strings.

(** ** The tree *)

Section Tree.

(** Induction on a tree, with the hypothesis for every entry of a
    directory. *)
Lemma node_nested_ind (P : FS.node -> Prop) :
  (forall c, P (FS.File c)) ->
  P FS.Special ->
  (forall es, Forall (fun e => P (snd e)) es -> P (FS.Dir es)) ->
  forall n, P n.
Proof.
  intros Hf Hs Hd. fix IH 1. intros [c| |es]; [apply Hf | apply Hs |].
  apply Hd. induction es as [|[k n] es IHes]; constructor; [apply IH | exact IHes].
Qed.

Lemma assoc_In k n (es : FS.entries) : FS.assoc k es = Some n -> In (k, n) es.
Proof.
  induction es as [|[k' m] es IH]; simpl; [discriminate|].
  destruct (String.eqb_spec k' k) as [->|_].
  - intros [= ->]. now left.
  - intros H. right. now apply IH.
Qed.

Lemma In_assoc k n (es : FS.entries) :
  FS.names_unique es = true -> In (k, n) es -> FS.assoc k es = Some n.
Proof.
  induction es as [|[k' m] es IH]; simpl; [contradiction|].
  intros Hu [[= -> ->]|Hin].
  - now rewrite String.eqb_refl.
  - destruct (FS.assoc k' es) eqn:E; [discriminate|].
    destruct (String.eqb_spec k' k) as [->|_].
    + rewrite (IH Hu Hin) in E. discriminate.
    + now apply IH.
Qed.

Lemma assoc_put_same k n (es : FS.entries) : FS.assoc k (FS.put k n es) = Some n.
Proof.
  induction es as [|[k' m] es IH]; simpl.
  - now rewrite String.eqb_refl.
  - destruct (String.eqb_spec k' k) as [->|Hne]; simpl.
    + now rewrite String.eqb_refl.
    + destruct (String.eqb_spec k' k); [contradiction | exact IH].
Qed.

Lemma assoc_put_other k k' n (es : FS.entries) :
  k <> k' -> FS.assoc k' (FS.put k n es) = FS.assoc k' es.
Proof.
  intros Hne. induction es as [|[j m] es IH]; simpl.
  - destruct (String.eqb_spec k k'); [contradiction | reflexivity].
  - destruct (String.eqb_spec j k) as [->|_]; simpl.
    + destruct (String.eqb_spec k k'); [contradiction | reflexivity].
    + now rewrite IH.
Qed.

Lemma assoc_remove_same k (es : FS.entries) : FS.assoc k (FS.remove k es) = None.
Proof.
  induction es as [|[k' m] es IH]; simpl; [reflexivity|].
  destruct (String.eqb_spec k' k) as [->|Hne]; simpl; [exact IH|].
  destruct (String.eqb_spec k' k); [contradiction | exact IH].
Qed.

Lemma assoc_remove_other k k' (es : FS.entries) :
  k <> k' -> FS.assoc k' (FS.remove k es) = FS.assoc k' es.
Proof.
  intros Hne. induction es as [|[j m] es IH]; simpl; [reflexivity|].
  destruct (String.eqb_spec j k) as [->|_]; simpl.
  - destruct (String.eqb_spec k k'); [contradiction | exact IH].
  - now rewrite IH.
Qed.

Lemma assoc_alter_same k f (es : FS.entries) :
  FS.assoc k (FS.alter k f es) = option_map f (FS.assoc k es).
Proof.
  induction es as [|[k' m] es IH]; simpl; [reflexivity|].
  destruct (String.eqb_spec k' k) as [->|Hne]; simpl.
  - now rewrite String.eqb_refl.
  - destruct (String.eqb_spec k' k); [contradiction | exact IH].
Qed.

Lemma assoc_alter_other k k' f (es : FS.entries) :
  k <> k' -> FS.assoc k' (FS.alter k f es) = FS.assoc k' es.
Proof.
  intros Hne. induction es as [|[j m] es IH]; simpl; [reflexivity|].
  destruct (String.eqb_spec j k) as [->|_]; simpl.
  - destruct (String.eqb_spec k k'); [contradiction | reflexivity].
  - now rewrite IH.
Qed.

Lemma lookup_app (t : FS.node) (p q : FS.position) :
  FS.lookup t (p ++ q)
  = match FS.lookup t p with Some n => FS.lookup n q | None => None end.
Proof.
  revert t. induction p as [|c p IH]; intros t; simpl; [reflexivity|].
  destruct t as [| |es]; try reflexivity.
  destruct (FS.assoc c es); [apply IH | reflexivity].
Qed.

Lemma lookup_snoc (t : FS.node) (p : FS.position) (c : string) es :
  FS.lookup t p = Some (FS.Dir es) -> FS.lookup t (p ++ [c]) = FS.assoc c es.
Proof.
  intros H. rewrite lookup_app, H. simpl. now destruct (FS.assoc c es).
Qed.

(** What lies above a node of the tree is a directory. *)
Lemma lookup_parent_dir (t : FS.node) (p : FS.position) (c : string) n :
  FS.lookup t (p ++ [c]) = Some n -> FS.is_dir (FS.lookup t p) = true.
Proof.
  rewrite lookup_app. destruct (FS.lookup t p) as [[| |es]|]; simpl; try discriminate.
  reflexivity.
Qed.

Lemma is_dir_removelast (t : FS.node) (p : FS.position) :
  FS.is_dir (FS.lookup t p) = true -> FS.is_dir (FS.lookup t (removelast p)) = true.
Proof.
  destruct p as [|c0 p0]; [trivial|]. set (p := c0 :: p0).
  assert (Hne : p <> []) by discriminate.
  destruct (exists_last Hne) as (p' & c & E). rewrite E, removelast_last.
  destruct (FS.lookup t (p' ++ [c])) as [n|] eqn:L; [|discriminate].
  intros _. now apply lookup_parent_dir with (c := c) (n := n).
Qed.

(** Well-formedness goes down the tree. *)
Lemma wf_Dir (es : FS.entries) :
  FS.wf (FS.Dir es) = true ->
  FS.names_unique es = true
  /\ forall k n, In (k, n) es -> FS.valid_name k = true /\ FS.wf n = true.
Proof.
  cbn [FS.wf]. intros H. apply andb_true_iff in H. destruct H as [Hu Hall].
  split; [exact Hu|]. clear Hu.
  induction es as [|[k' m] es IH]; [contradiction|].
  apply andb_true_iff in Hall. destruct Hall as [Hkm Hrest].
  apply andb_true_iff in Hkm. destruct Hkm as [Hk Hm].
  intros k n [[= -> ->]|Hin]; [now split|]. now apply IH.
Qed.

Lemma wf_lookup (t : FS.node) (p : FS.position) n :
  FS.wf t = true -> FS.lookup t p = Some n -> FS.wf n = true.
Proof.
  revert t. induction p as [|c p IH]; intros t Hwf; simpl.
  - now intros [= <-].
  - destruct t as [| |es]; try discriminate.
    destruct (FS.assoc c es) as [m|] eqn:E; [|discriminate].
    apply IH. apply assoc_In in E.
    now apply (proj2 (wf_Dir es Hwf) c m).
Qed.

Lemma update_deeper (d : string) (pos : FS.position) (es : FS.entries) v :
  pos <> [] ->
  FS.update (FS.Dir es) (d :: pos) v
  = FS.Dir (FS.alter d (fun child => FS.update child pos v) es).
Proof. destruct pos; [contradiction | reflexivity]. Qed.

(** Writing at [parent/c] is read back at [parent/c]. *)
Lemma lookup_update_same (parent : FS.position) (c : string) (v : option FS.node) :
  forall t, FS.is_dir (FS.lookup t parent) = true ->
  FS.lookup (FS.update t (parent ++ [c]) v) (parent ++ [c]) = v.
Proof.
  induction parent as [|d ps IH]; intros t Hd.
  - simpl in Hd. destruct t as [| |es]; try discriminate. simpl.
    destruct v as [n|]; simpl.
    + now rewrite assoc_put_same.
    + now rewrite assoc_remove_same.
  - simpl in Hd. destruct t as [| |es]; try discriminate.
    destruct (FS.assoc d es) as [child|] eqn:E; [|discriminate].
    change ((d :: ps) ++ [c]) with (d :: (ps ++ [c])).
    rewrite update_deeper by (now destruct ps).
    cbn [FS.lookup]. rewrite assoc_alter_same, E. simpl. now apply IH.
Qed.

(** Writing at [parent/c] leaves [parent/c'] alone. *)
Lemma lookup_update_sibling (parent : FS.position) (c c' : string) (v : option FS.node) :
  c <> c' ->
  forall t, FS.lookup (FS.update t (parent ++ [c]) v) (parent ++ [c'])
            = FS.lookup t (parent ++ [c']).
Proof.
  intros Hne. induction parent as [|d ps IH]; intros t.
  - simpl. destruct t as [| |es]; try reflexivity. simpl.
    destruct v as [n|]; simpl.
    + now rewrite assoc_put_other.
    + now rewrite assoc_remove_other.
  - change ((d :: ps) ++ [c]) with (d :: (ps ++ [c])).
    change ((d :: ps) ++ [c']) with (d :: (ps ++ [c'])).
    destruct t as [| |es]; try reflexivity.
    rewrite update_deeper by (now destruct ps).
    cbn [FS.lookup]. rewrite assoc_alter_same.
    destruct (FS.assoc d es) as [child|]; simpl; [|reflexivity].
    apply IH.
Qed.

(** Writing where no directory is keeps every directory a directory. *)
Lemma update_keeps_dirs (pos : FS.position) (v : option FS.node) :
  forall t q,
    FS.is_dir (FS.lookup t pos) = false ->
    FS.is_dir (FS.lookup t q) = true ->
    FS.is_dir (FS.lookup (FS.update t pos v) q) = true.
Proof.
  induction pos as [|c pos' IH]; intros t q Hpos Hq; [exact Hq|].
  destruct t as [| |es]; try exact Hq.
  destruct q as [|d q']; [now destruct pos'|].
  cbn [FS.update]. destruct pos' as [|x xs].
  - cbn [FS.lookup] in *.
    destruct (String.eqb_spec c d) as [->|Hne].
    + exfalso. destruct (FS.assoc d es) as [[| |es']|]; simpl in *; try discriminate;
        destruct q'; simpl in Hq; discriminate.
    + destruct v as [n|]; [rewrite assoc_put_other | rewrite assoc_remove_other];
        assumption.
  - cbn [FS.lookup] in Hq |- *.
    destruct (String.eqb_spec c d) as [->|Hne].
    + rewrite assoc_alter_same.
      cbn [FS.lookup] in Hpos.
      destruct (FS.assoc d es) as [child|]; simpl in *; [|discriminate].
      now apply IH.
    + now rewrite assoc_alter_other.
Qed.

(** A new, empty directory where nothing was: what is not a directory is
    where it was. *)
Lemma mkdir_keeps_files (pos : FS.position) :
  forall t q n,
    FS.lookup t pos = None ->
    FS.lookup (FS.update t pos (Some (FS.Dir []))) q = Some n ->
    FS.is_dir (Some n) = false ->
    FS.lookup t q = Some n.
Proof.
  induction pos as [|c pos' IH]; intros t q n Hpos Hq Hn; [exact Hq|].
  destruct t as [| |es]; try exact Hq.
  destruct q as [|d q'].
  - exfalso. cbn [FS.update] in Hq. destruct pos'; simpl in Hq;
      injection Hq as <-; discriminate.
  - cbn [FS.update] in Hq. destruct pos' as [|x xs].
    + cbn [FS.lookup] in *.
      destruct (String.eqb_spec c d) as [->|Hne].
      * exfalso. rewrite assoc_put_same in Hq.
        destruct q'; simpl in Hq; [injection Hq as <-|]; discriminate.
      * now rewrite assoc_put_other in Hq.
    + cbn [FS.lookup] in Hq |- *.
      destruct (String.eqb_spec c d) as [->|Hne].
      * rewrite assoc_alter_same in Hq. cbn [FS.lookup] in Hpos.
        destruct (FS.assoc d es) as [child|]; simpl in *; [|discriminate].
        now apply IH.
      * now rewrite assoc_alter_other in Hq.
Qed.

(** *** Path resolution *)

Lemma namei_app (t : FS.node) (cs cs' : list string) :
  forall pos,
    FS.namei t pos (cs ++ cs')
    = match FS.namei t pos cs with
      | inr p => FS.namei t p cs'
      | inl e => inl e
      end.
Proof.
  induction cs as [|c cs IH]; intros pos; simpl; [reflexivity|].
  destruct (FS.lookup t pos) as [[| |es]|]; try reflexivity. apply IH.
Qed.

(** Resolution only asks which positions hold directories. *)
Lemma namei_keeps (t t' : FS.node) (cs : list string) :
  (forall q, FS.is_dir (FS.lookup t q) = true -> FS.is_dir (FS.lookup t' q) = true) ->
  forall pos p, FS.namei t pos cs = inr p -> FS.namei t' pos cs = inr p.
Proof.
  intros Hk. induction cs as [|c cs IH]; intros pos p; simpl; [trivial|].
  destruct (FS.lookup t pos) as [[| |es]|] eqn:E; try discriminate.
  assert (Hd : FS.is_dir (FS.lookup t' pos) = true) by (apply Hk; now rewrite E).
  destruct (FS.lookup t' pos) as [[| |es']|]; try discriminate. apply IH.
Qed.

Lemma namei_error (t : FS.node) (cs : list string) :
  forall pos e, FS.namei t pos cs = inl e -> Py.is_OSError e = true.
Proof.
  induction cs as [|c cs IH]; intros pos e; simpl; [discriminate|].
  destruct (FS.lookup t pos) as [[| |es]|]; try (intros [= <-]; reflexivity).
  apply IH.
Qed.

Lemma resolve_error (t : FS.node) (cwd : FS.position) (path : string) e :
  FS.resolve t cwd path = inl e -> Py.is_OSError e = true.
Proof.
  unfold FS.resolve. destruct (String.eqb path "").
  - now intros [= <-].
  - apply namei_error.
Qed.

End Tree.

(** ** Looking at the file system: [os.stat], [os.walk], [list_fastq] *)

Section Enumerator.

Import Qiime2Methods.

Lemma os_locate_eq (path : string) (w : world) :
  os.locate path w = (FS.resolve (root w) (cwd w) path, w).
Proof. reflexivity. Qed.

Lemma os_stat_eq (path : string) (w : world) :
  os.stat path w = (stat_of w path, w).
Proof.
  unfold os.stat, stat_of, bind. rewrite os_locate_eq.
  destruct (FS.resolve (root w) (cwd w) path) as [e|pos]; [reflexivity|].
  unfold get_world. now destruct (FS.lookup (root w) pos).
Qed.

Lemma stat_of_error (w : world) (path : string) e :
  stat_of w path = inl e -> Py.is_OSError e = true.
Proof.
  unfold stat_of.
  destruct (FS.resolve (root w) (cwd w) path) as [e'|pos] eqn:E.
  - intros [= <-]. eapply resolve_error; eassumption.
  - destruct (FS.lookup (root w) pos); [discriminate|]. now intros [= <-].
Qed.

Lemma os_path_isfile_eq (path : string) (w : world) :
  os.path_isfile path w
  = (inr (match stat_of w path with inr (FS.File _) => true | _ => false end), w).
Proof.
  unfold os.path_isfile, catch, bind. rewrite os_stat_eq.
  destruct (stat_of w path) as [e|[| |]]; reflexivity.
Qed.

Lemma os_path_isdir_eq (path : string) (w : world) :
  os.path_isdir path w
  = (inr (match stat_of w path with inr (FS.Dir _) => true | _ => false end), w).
Proof.
  unfold os.path_isdir, catch, bind. rewrite os_stat_eq.
  destruct (stat_of w path) as [e|[| |]]; reflexivity.
Qed.

Lemma os_scandir_eq (path : string) (w : world) :
  os.scandir path w
  = (match stat_of w path with
     | inr (FS.Dir es) => inr es
     | inr _ => inl Py.NotADirectoryError
     | inl e => inl e
     end, w).
Proof.
  unfold os.scandir, bind. rewrite os_stat_eq.
  destruct (stat_of w path) as [e|[| |]]; reflexivity.
Qed.

Lemma os_walk_eq (top : string) (w : world) :
  os.walk top w
  = (inr (match stat_of w top with
          | inr (FS.Dir es) => FS.walk os.path_join top (FS.Dir es)
          | _ => []
          end), w).
Proof.
  unfold os.walk, catch, bind. rewrite os_scandir_eq.
  destruct (stat_of w top) as [e|[| |]] eqn:E; try reflexivity.
  now rewrite (stat_of_error w top e E).
Qed.

Lemma valid_name_facts (c : string) :
  FS.valid_name c = true ->
  c <> "" /\ Py.mem "/" c = false /\ (forall pos, FS.step pos c = pos ++ [c]).
Proof.
  unfold FS.valid_name. rewrite !andb_true_iff, !negb_true_iff.
  intros [[[H1 H2] H3] H4].
  split; [intros ->; discriminate|]. split; [assumption|].
  intros pos. unfold FS.step. now rewrite H1, H2, H3.
Qed.

(** In a well-formed tree, [os.path.join(top, name)] names the entry
    [name] of the directory that [top] names. *)
Lemma resolve_join (w : world) (top name : string) (pos : FS.position)
  (es : FS.entries) (n : FS.node) :
  FS.wf (root w) = true ->
  FS.resolve (root w) (cwd w) top = inr pos ->
  FS.lookup (root w) pos = Some (FS.Dir es) ->
  In (name, n) es ->
  FS.resolve (root w) (cwd w) (os.path_join top name) = inr (pos ++ [name])
  /\ FS.lookup (root w) (pos ++ [name]) = Some n.
Proof.
  intros Hwf R L Hin.
  pose proof (wf_lookup _ _ _ Hwf L) as Hwfd.
  destruct (wf_Dir es Hwfd) as [Hu Hall].
  destruct (Hall name n Hin) as [Hv _].
  destruct (valid_name_facts name Hv) as (Hne & Hslash & Hstep).
  split; [|rewrite (lookup_snoc _ _ name es L); now apply In_assoc].
  unfold FS.resolve in R.
  destruct (String.eqb_spec top "") as [->|Htop]; [discriminate|].
  assert (Hgoal : forall joined,
             joined <> "" ->
             Py.startswith joined "/" = Py.startswith top "/" ->
             FS.namei (root w) (FS.start (cwd w) top) (Py.split "/" joined)
             = inr (pos ++ [name]) ->
             FS.resolve (root w) (cwd w) joined = inr (pos ++ [name])).
  { intros joined Hj Hs Hn. unfold FS.resolve.
    destruct (String.eqb_spec joined ""); [contradiction|].
    unfold FS.start. rewrite Hs. exact Hn. }
  unfold os.path_join.
  rewrite (mem_false_not_startswith _ _ Hslash).
  destruct (String.eqb_spec top ""); [contradiction|]. cbn [orb].
  destruct (Py.endswith top "/") eqn:Hend.
  - apply endswith_spec in Hend. destruct Hend as [t' ->].
    apply Hgoal.
    + destruct t'; discriminate.
    + now apply (startswith_app (t' ++ "/") name "/"%char).
    + rewrite string_app_assoc. cbn [String.append].
      rewrite split_app_sep, (split_one _ _ Hslash).
      change (t' ++ "/")%string with (t' ++ String "/" "")%string in R.
      rewrite split_app_sep in R. cbn [Py.split] in R.
      rewrite namei_app in R |- *.
      destruct (FS.namei (root w) _ (Py.split "/" t')) as [e|p1]; [discriminate|].
      cbn [FS.namei] in R |- *.
      destruct (FS.lookup (root w) p1) as [[| |es1]|] eqn:L1; try discriminate.
      cbn in R. injection R as <-. now rewrite Hstep.
  - apply Hgoal.
    + destruct top; [contradiction|discriminate].
    + now apply (startswith_app top ("/" ++ name) "/"%char).
    + cbn [String.append].
      rewrite split_app_sep, (split_one _ _ Hslash), namei_app, R.
      cbn [FS.namei]. now rewrite L, Hstep.
Qed.

Lemma stat_join (w : world) (top name : string) (es : FS.entries) (n : FS.node) :
  FS.wf (root w) = true ->
  stat_of w top = inr (FS.Dir es) ->
  In (name, n) es ->
  stat_of w (os.path_join top name) = inr n.
Proof.
  intros Hwf Htop Hin. unfold stat_of in Htop |- *.
  destruct (FS.resolve (root w) (cwd w) top) as [e|pos] eqn:R; [discriminate|].
  destruct (FS.lookup (root w) pos) as [d|] eqn:L; [|discriminate].
  injection Htop as ->.
  destruct (resolve_join w top name pos es n Hwf R L Hin) as [-> ->]. reflexivity.
Qed.

(** A loop whose body only computes is a fold. *)
Lemma for_fold_pure {A S} (xs : list A) (f : S -> A -> S) (body : S -> A -> M S)
  (w : world) :
  (forall acc x, body acc x w = (inr (f acc x), w)) ->
  forall acc, for_fold xs acc body w = (inr (fold_left f xs acc), w).
Proof.
  intros H. induction xs as [|x xs IH]; intros acc; simpl; [reflexivity|].
  unfold bind. rewrite H. apply IH.
Qed.

Lemma fold_left_pick {A B} (keep : A -> bool) (h : A -> B) (xs : list A) :
  forall acc,
    fold_left (fun acc x => if keep x then acc ++ [h x] else acc) xs acc
    = acc ++ List.map h (filter keep xs).
Proof.
  induction xs as [|x xs IH]; intros acc; simpl; [now rewrite app_nil_r|].
  rewrite IH. destruct (keep x); [|reflexivity].
  simpl. now rewrite <- app_assoc.
Qed.

Lemma fold_left_flat {A B} (g : A -> list B) (xs : list A) :
  forall acc, fold_left (fun acc x => acc ++ g x) xs acc = acc ++ flat_map g xs.
Proof.
  induction xs as [|x xs IH]; intros acc; simpl; [now rewrite app_nil_r|].
  rewrite IH. now rewrite <- app_assoc.
Qed.

(** [list_fastq] changes nothing and returns what its loops keep of the
    walk. *)
Lemma list_fastq_eq (my_path : string) (w : world) :
  list_fastq my_path w
  = (inr (collected w (match stat_of w my_path with
                       | inr (FS.Dir es) => FS.walk os.path_join my_path (FS.Dir es)
                       | _ => []
                       end)), w).
Proof.
  unfold list_fastq, bind. rewrite os_walk_eq.
  set (triples := match stat_of w my_path with
                  | inr (FS.Dir es) => FS.walk os.path_join my_path (FS.Dir es)
                  | _ => []
                  end).
  set (g := fun t : FS.walk_item =>
              let '(root, _, filenames) := t in
              List.map (os.path_join root) (filter (is_fastq_file w root) filenames)).
  rewrite (for_fold_pure triples (fun acc t => acc ++ g t)).
  - rewrite fold_left_flat. reflexivity.
  - intros acc [[r ds] fs].
    rewrite (for_fold_pure fs
               (fun acc f => if is_fastq_file w r f
                             then acc ++ [os.path_join r f] else acc)).
    + now rewrite fold_left_pick.
    + intros acc' f. unfold bind. rewrite os_path_isfile_eq.
      unfold is_fastq_file.
      destruct (stat_of w (os.path_join r f)) as [e|[| |]]; cbn [andb];
        try reflexivity.
      destruct (Py.endswith_any f fastq_suffixes); reflexivity.
Qed.

(** C10.  A root that is no directory, because nothing is there or
    because something else is, gives the empty list: [os.walk] swallows the
    error of the listing.  Nothing is raised and the world is as before. *)
Theorem list_fastq_without_directory (my_path : string) (w : world) :
  os.path_isdir my_path w = (inr false, w) ->
  list_fastq my_path w = (inr [], w).
Proof.
  rewrite os_path_isdir_eq, list_fastq_eq. intros H.
  destruct (stat_of w my_path) as [e|[| |]]; try reflexivity. discriminate.
Qed.

Lemma list_fastq_without_directory_witness :
  os.path_isdir "/home/nowhere" example_world = (inr false, example_world)
  /\ list_fastq "/home/nowhere" example_world = (inr [], example_world).
Proof.
  split; [reflexivity|].
  apply (list_fastq_without_directory "/home/nowhere" example_world). reflexivity.
Defined.

Lemma reaches_inv top es p name n :
  reaches top es p name n <->
  (In (name, n) es /\ p = os.path_join top name)
  \/ (exists d es', In (d, FS.Dir es') es /\ reaches (os.path_join top d) es' p name n).
Proof.
  split.
  - intros H. destruct H as [top es name n Hin | top es d es' p name n Hin Hr].
    + left. now split.
    + right. now exists d, es'.
  - intros [[Hin ->]|(d & es' & Hin & Hr)].
    + now apply reaches_here.
    + now apply reaches_below with d es'.
Qed.

Lemma collected_flat_map {A} (w : world) (F : A -> list FS.walk_item) (xs : list A) :
  collected w (flat_map F xs) = flat_map (fun x => collected w (F x)) xs.
Proof.
  unfold collected. induction xs as [|x xs IH]; simpl; [reflexivity|].
  now rewrite flat_map_app, IH.
Qed.

Lemma collected_cons (w : world) (r : string) (ds fs : list string) l :
  collected w ((r, ds, fs) :: l)
  = List.map (os.path_join r) (filter (is_fastq_file w r) fs) ++ collected w l.
Proof. reflexivity. Qed.

Lemma In_filenames (f : string) (es : FS.entries) :
  In f (FS.filenames es)
  <-> exists n, In (f, n) es /\ FS.is_dir (Some n) = false.
Proof.
  unfold FS.filenames. rewrite in_map_iff. split.
  - intros ([k n] & <- & Hin). apply filter_In in Hin. destruct Hin as [Hin Hn].
    exists n. split; [assumption|]. simpl in *. now destruct n.
  - intros (n & Hin & Hn). exists (f, n). split; [reflexivity|].
    apply filter_In. split; [assumption|]. simpl in *. now destruct n.
Qed.

Lemma stat_of_nonempty (w : world) (path : string) n :
  stat_of w path = inr n -> path <> "".
Proof. intros H ->. discriminate. Qed.

(** Joining a valid name to a path keeps it absolute or relative. *)
Lemma path_join_isabs (top name : string) :
  top <> "" -> FS.valid_name name = true ->
  os.path_isabs (os.path_join top name) = os.path_isabs top.
Proof.
  intros Htop Hv. destruct (valid_name_facts name Hv) as (_ & Hslash & _).
  unfold os.path_join, os.path_isabs.
  rewrite (mem_false_not_startswith _ _ Hslash).
  destruct (String.eqb top "" || Py.endswith top "/");
    now apply (startswith_app top _ "/"%char).
Qed.

Section Found.

Variable w : world.
Hypothesis Hwf : FS.wf (root w) = true.

Lemma stat_of_wf (path : string) (n : FS.node) :
  stat_of w path = inr n -> FS.wf n = true.
Proof.
  unfold stat_of. destruct (FS.resolve (root w) (cwd w) path) as [e|pos]; [discriminate|].
  destruct (FS.lookup (root w) pos) as [m|] eqn:L; [|discriminate].
  intros [= <-]. eapply wf_lookup; eassumption.
Qed.

(** What is reached is what its path names. *)
Lemma reaches_stat top es p name n :
  reaches top es p name n ->
  stat_of w top = inr (FS.Dir es) ->
  stat_of w p = inr n /\ os.path_isabs p = os.path_isabs top.
Proof.
  induction 1 as [top es name n Hin | top es d es' p name n Hin Hr IH]; intros Hs.
  - split; [now apply stat_join with es|].
    apply path_join_isabs; [eapply stat_of_nonempty; eassumption|].
    now apply (proj2 (wf_Dir es (stat_of_wf _ _ Hs)) name n).
  - assert (Hd : stat_of w (os.path_join top d) = inr (FS.Dir es'))
      by now apply stat_join with es.
    destruct (IH Hd) as [H1 H2]. split; [assumption|]. rewrite H2.
    apply path_join_isabs; [eapply stat_of_nonempty; eassumption|].
    now apply (proj2 (wf_Dir es (stat_of_wf _ _ Hs)) d (FS.Dir es')).
Qed.

(** What the loops keep of the walk of a directory are the paths of the
    regular files with a fastq suffix that are reached under it. *)
Lemma collected_walk (t : FS.node) :
  forall top es, t = FS.Dir es ->
  stat_of w top = inr t ->
  forall p,
    In p (collected w (FS.walk os.path_join top t))
    <-> exists name content,
          reaches top es p name (FS.File content)
          /\ Py.endswith_any name Qiime2Methods.fastq_suffixes = true.
Proof.
  induction t as [c| |es0 IH] using node_nested_ind; try discriminate.
  intros top es [= <-] Hs p. rewrite Forall_forall in IH.
  cbn [FS.walk].
  rewrite collected_cons, in_app_iff, in_map_iff, collected_flat_map, in_flat_map.
  split.
  - intros [(f & <- & Hf)|((d & sub) & Hin & Hp)].
    + apply filter_In in Hf. destruct Hf as [Hf Hk].
      apply In_filenames in Hf. destruct Hf as (n & Hin & _).
      unfold is_fastq_file in Hk. rewrite (stat_join w top f es0 n Hwf Hs Hin) in Hk.
      apply andb_true_iff in Hk. destruct Hk as [Hn Hsuf].
      destruct n as [content| |]; try discriminate.
      exists f, content. split; [now apply reaches_here | assumption].
    + cbn [fst snd] in Hp. destruct sub as [| |es']; try contradiction.
      apply (IH (d, FS.Dir es') Hin (os.path_join top d) es' eq_refl) in Hp.
      * destruct Hp as (name & content & Hr & Hsuf). exists name, content.
        split; [now apply reaches_below with d es' | assumption].
      * now apply stat_join with es0.
  - intros (name & content & Hr & Hsuf). apply reaches_inv in Hr.
    destruct Hr as [[Hin ->]|(d & es' & Hin & Hr)].
    + left. exists name. split; [reflexivity|]. apply filter_In. split.
      * apply In_filenames. now exists (FS.File content).
      * unfold is_fastq_file.
        now rewrite (stat_join w top name es0 _ Hwf Hs Hin), Hsuf.
    + right. exists (d, FS.Dir es'). split; [assumption|]. cbn [fst snd].
      apply (IH (d, FS.Dir es') Hin (os.path_join top d) es' eq_refl).
      * now apply stat_join with es0.
      * now exists name, content.
Qed.

End Found.

Lemma flat_map_ext_in {A B} (f g : A -> list B) (l : list A) :
  (forall a, In a l -> f a = g a) -> flat_map f l = flat_map g l.
Proof.
  induction l as [|a l IH]; intros H; simpl; [reflexivity|].
  rewrite (H a (or_introl eq_refl)), IH; [reflexivity|].
  intros b Hb. apply H. now right.
Qed.

Lemma map_flat_map {A B C} (g : B -> C) (f : A -> list B) (l : list A) :
  List.map g (flat_map f l) = flat_map (fun a => List.map g (f a)) l.
Proof.
  induction l as [|a l IH]; simpl; [reflexivity|]. now rewrite map_app, IH.
Qed.

Section Below.

Variable w : world.
Hypothesis Hwf : FS.wf (root w) = true.

(** The file names the inner loop keeps are the fastq entries. *)
Lemma kept_filenames (top : string) (es l : FS.entries) :
  stat_of w top = inr (FS.Dir es) ->
  (forall e, In e l -> In e es) ->
  filter (is_fastq_file w top) (FS.filenames l)
  = List.map fst (filter is_fastq_entry l).
Proof.
  intros Hs. unfold FS.filenames.
  induction l as [|[k n] l IH]; intros Hl; [reflexivity|].
  assert (Hk : is_fastq_file w top k = is_fastq_entry (k, n)).
  { unfold is_fastq_file, is_fastq_entry.
    rewrite (stat_join w top k es n Hwf Hs (Hl _ (or_introl eq_refl))).
    now destruct n. }
  assert (IH' := IH (fun e He => Hl e (or_intror He))).
  cbn [filter snd]. destruct n as [c| |es']; cbn [List.map filter fst].
  - rewrite Hk. destruct (is_fastq_entry (k, FS.File c)); cbn [List.map fst];
      now rewrite IH'.
  - rewrite Hk. cbn. exact IH'.
  - cbn. exact IH'.
Qed.

(** What the loops keep of a walk, as paths joined down from [top]. *)
Lemma collected_below (t : FS.node) :
  forall top,
    stat_of w top = inr t ->
    collected w (FS.walk os.path_join top t)
    = List.map (join_down top) (fastq_below t).
Proof.
  induction t as [c| |es IH] using node_nested_ind; intros top Hs; try reflexivity.
  rewrite Forall_forall in IH. cbn [FS.walk fastq_below].
  rewrite collected_cons, map_app, collected_flat_map, map_flat_map.
  f_equal.
  - rewrite (kept_filenames top es es Hs (fun e H => H)), !map_map. reflexivity.
  - apply flat_map_ext_in. intros [k n] Hin. cbn [fst snd].
    pose proof (IH (k, n) Hin (os.path_join top k)) as IHn. cbn [snd] in IHn.
    rewrite IHn, map_map; [reflexivity|]. now apply stat_join with es.
Qed.

(** A path joined down from [top] resolves to the position below
    [top]'s. *)
Lemma below_resolve (t : FS.node) :
  forall top pos names,
    FS.resolve (root w) (cwd w) top = inr pos ->
    FS.lookup (root w) pos = Some t ->
    In names (fastq_below t) ->
    FS.resolve (root w) (cwd w) (join_down top names) = inr (pos ++ names).
Proof.
  induction t as [c| |es IH] using node_nested_ind; intros top pos names R L;
    try contradiction.
  rewrite Forall_forall in IH. cbn [fastq_below].
  rewrite in_app_iff, in_map_iff, in_flat_map.
  intros [([k n] & <- & Hin)|([k n] & Hin & Hn)].
  - apply filter_In in Hin. destruct Hin as [Hin _].
    exact (proj1 (resolve_join w top k pos es n Hwf R L Hin)).
  - cbn [fst snd] in Hn. apply in_map_iff in Hn. destruct Hn as (rel & <- & Hrel).
    destruct (resolve_join w top k pos es n Hwf R L Hin) as [R' L'].
    unfold join_down. cbn [fold_left]. fold (join_down (os.path_join top k) rel).
    pose proof (IH (k, n) Hin (os.path_join top k) (pos ++ [k]) rel) as IHn.
    cbn [snd] in IHn. rewrite (IHn R' L' Hrel). now rewrite <- app_assoc.
Qed.

End Below.

Lemma In_assoc_some k n (es : FS.entries) :
  In (k, n) es -> FS.assoc k es <> None.
Proof.
  induction es as [|[k' m] es IH]; simpl; [contradiction|].
  intros [[= -> ->]|Hin].
  - now rewrite String.eqb_refl.
  - destruct (String.eqb k' k); [discriminate | now apply IH].
Qed.

(** In a well-formed tree no file is listed twice. *)
Lemma fastq_below_NoDup (t : FS.node) : FS.wf t = true -> NoDup (fastq_below t).
Proof.
  induction t as [c| |es IH] using node_nested_ind; intros Hwf; try constructor.
  rewrite Forall_forall in IH. destruct (wf_Dir es Hwf) as [Hu Hall].
  assert (IH' : forall e, In e es -> NoDup (fastq_below (snd e))).
  { intros [k n] Hin. apply (IH (k, n) Hin). now apply (Hall k n). }
  clear IH Hall Hwf. cbn [fastq_below]. apply NoDup_app.
  - induction es as [|[k n] es IHes]; [constructor|].
    cbn [FS.names_unique] in Hu.
    destruct (FS.assoc k es) eqn:E; [discriminate|].
    assert (Hrest := IHes Hu (fun e He => IH' e (or_intror He))).
    cbn [filter]. destruct (is_fastq_entry (k, n)); [|exact Hrest].
    cbn [List.map fst]. constructor; [|exact Hrest].
    rewrite in_map_iff. intros ([k' n'] & [= ->] & Hin).
    apply filter_In in Hin. destruct Hin as [Hin _].
    now apply (In_assoc_some k n' es).
  - induction es as [|[k n] es IHes]; [constructor|].
    cbn [FS.names_unique] in Hu.
    destruct (FS.assoc k es) eqn:E; [discriminate|].
    assert (Hrest := IHes Hu (fun e He => IH' e (or_intror He))).
    cbn [flat_map fst snd]. apply NoDup_app.
    + apply NoDup_map_NoDup_ForallPairs.
      * intros a b _ _ [= H]. exact H.
      * exact (IH' (k, n) (or_introl eq_refl)).
    + exact Hrest.
    + intros a Ha Hb. apply in_map_iff in Ha. destruct Ha as (rel & <- & _).
      apply in_flat_map in Hb. destruct Hb as ([k' n'] & Hin & Hb).
      apply in_map_iff in Hb. destruct Hb as (rel' & [= -> _] & _).
      now apply (In_assoc_some k n' es).
  - intros a Ha Hb. apply in_map_iff in Ha. destruct Ha as (e & <- & _).
    apply in_flat_map in Hb. destruct Hb as ([k' n'] & Hin & Hb).
    apply in_map_iff in Hb. destruct Hb as (rel' & [= _ Hrel] & Hrel').
    subst rel'. destruct n' as [| |es']; try contradiction.
    cbn [snd fastq_below] in Hrel'. apply in_app_iff in Hrel'.
    destruct Hrel' as [H|H].
    + apply in_map_iff in H. destruct H as (? & [=] & _).
    + apply in_flat_map in H. destruct H as (? & _ & H).
      apply in_map_iff in H. destruct H as (? & [=] & _).
Qed.

(** C4, as amended.  On a well-formed tree, for a root that names a
    directory (listed as [es]), [list_fastq] returns and leaves the world
    as it was; the list holds exactly the paths of the regular files that
    are reached under the root at any depth and whose names end in one of
    the four suffixes, none of them twice; each path names that regular
    file; and each path is the root as given, joined down to the file:
    absolute when the root was given absolute, relative when it was given
    relative. *)
Theorem list_fastq_finds_the_fastq_files
  (my_path : string) (es : FS.entries) (w : world) :
  FS.wf (root w) = true ->
  os.scandir my_path w = (inr es, w) ->
  exists fastq_list,
    list_fastq my_path w = (inr fastq_list, w)
    /\ (forall p,
          In p fastq_list
          <-> exists name content,
                reaches my_path es p name (FS.File content)
                /\ Py.endswith_any name fastq_suffixes = true)
    /\ NoDup fastq_list
    /\ (forall p, In p fastq_list -> os.path_isfile p w = (inr true, w))
    /\ (forall p, In p fastq_list -> os.path_isabs p = os.path_isabs my_path).
Proof.
  intros Hwf Hscan. rewrite os_scandir_eq in Hscan.
  assert (Hs : stat_of w my_path = inr (FS.Dir es)).
  { destruct (stat_of w my_path) as [e|[| |es']]; try discriminate.
    now injection Hscan as ->. }
  rewrite list_fastq_eq, Hs. eexists. split; [reflexivity|].
  assert (Hiff := collected_walk w Hwf (FS.Dir es) my_path es eq_refl Hs).
  split; [exact Hiff|]. split; [|split; intros p Hp; apply Hiff in Hp;
    destruct Hp as (name & content & Hr & _);
    destruct (reaches_stat w Hwf _ _ _ _ _ Hr Hs) as [H1 H2]].
  - rewrite (collected_below w Hwf (FS.Dir es) my_path Hs).
    unfold stat_of in Hs.
    destruct (FS.resolve (root w) (cwd w) my_path) as [e|pos] eqn:R; [discriminate|].
    destruct (FS.lookup (root w) pos) as [d|] eqn:L; [|discriminate].
    injection Hs as ->.
    apply NoDup_map_NoDup_ForallPairs.
    + intros a b Ha Hb E.
      pose proof (below_resolve w Hwf _ _ _ _ R L Ha) as Ra.
      pose proof (below_resolve w Hwf _ _ _ _ R L Hb) as Rb.
      rewrite E, Rb in Ra. injection Ra as Ra. symmetry.
      now apply app_inv_head in Ra.
    + apply fastq_below_NoDup. eapply wf_lookup; eassumption.
  - now rewrite os_path_isfile_eq, H1.
  - exact H2.
Qed.

Lemma list_fastq_finds_the_fastq_files_witness :
  FS.wf (root example_world) = true
  /\ os.scandir "/home/data/run2" example_world
     = (inr [("s2_R1.fastq.gz", FS.File "z");
             ("old.fastq", FS.Dir [("s3.fq", FS.File "")])], example_world)
  /\ exists fastq_list,
       list_fastq "/home/data/run2" example_world = (inr fastq_list, example_world)
       /\ (forall p,
             In p fastq_list
             <-> exists name content,
                   reaches "/home/data/run2"
                           [("s2_R1.fastq.gz", FS.File "z");
                            ("old.fastq", FS.Dir [("s3.fq", FS.File "")])]
                           p name (FS.File content)
                   /\ Py.endswith_any name fastq_suffixes = true)
       /\ NoDup fastq_list
       /\ (forall p, In p fastq_list
                     -> os.path_isfile p example_world = (inr true, example_world))
       /\ (forall p, In p fastq_list
                     -> os.path_isabs p = os.path_isabs "/home/data/run2").
Proof.
  split; [reflexivity|]. split; [reflexivity|].
  apply (list_fastq_finds_the_fastq_files "/home/data/run2" _ example_world);
    reflexivity.
Defined.

(** C4 as stated fails for a root given as a relative path: the paths
    that come back are relative to the working directory, not absolute. *)
Lemma list_fastq_relative_counterexample :
  list_fastq "data" example_world
  = (inr ["data/s1_R1.fq"; "data/run2/s2_R1.fastq.gz"; "data/run2/old.fastq/s3.fq"],
     example_world)
  /\ os.path_isabs "data/s1_R1.fq" = false
  /\ os.path_isfile "data/s1_R1.fq" example_world = (inr true, example_world).
Proof. repeat split. Qed.

End Enumerator.

(** ** Rewriting the header of the taxonomy table *)

Section Taxonomy.

Import Qiime2Methods.

Lemma tmp_name_differs (c : string) : c <> (c ++ ".tmp")%string.
Proof.
  induction c as [|a c IH]; simpl; [discriminate|].
  intros [= H]. now apply IH.
Qed.

Lemma tmp_name_steps (c : string) (pos : FS.position) :
  FS.step pos (c ++ ".tmp") = pos ++ [(c ++ ".tmp")%string].
Proof.
  unfold FS.step.
  destruct c as [|a [|b [|d c']]]; try reflexivity; cbn;
    repeat match goal with
           | |- context [Ascii.eqb ?x ?y] => destruct (Ascii.eqb x y)
           end; reflexivity.
Qed.

Lemma resolve_keeps (t t' : FS.node) (cwd : FS.position) (path : string) p :
  keeps_dirs t t' -> FS.resolve t cwd path = inr p -> FS.resolve t' cwd path = inr p.
Proof.
  unfold FS.resolve. intros Hk. destruct (String.eqb path ""); [discriminate|].
  now apply namei_keeps.
Qed.

(** A regular file and the path next to it that ends in [.tmp]: they are
    two names in one directory. *)
Lemma resolve_tmp (w : world) (input : string) (content : string) :
  stat_of w input = inr (FS.File content) ->
  exists parent c,
    FS.resolve (root w) (cwd w) input = inr (parent ++ [c])
    /\ FS.resolve (root w) (cwd w) (input ++ ".tmp") = inr (parent ++ [(c ++ ".tmp")%string])
    /\ FS.is_dir (FS.lookup (root w) parent) = true
    /\ FS.lookup (root w) (parent ++ [c]) = Some (FS.File content).
Proof.
  unfold stat_of, FS.resolve.
  destruct (String.eqb_spec input "") as [->|Hne]; [discriminate|].
  destruct (String.eqb_spec (input ++ ".tmp") "") as [E|_];
    [destruct input; discriminate|].
  unfold FS.start. rewrite (startswith_app input ".tmp" "/"%char Hne).
  rewrite (split_app_last "/" input ".tmp" eq_refl).
  destruct (exists_last (split_not_nil "/" input)) as (cs & c & Ecs).
  rewrite Ecs, removelast_last, last_last, !namei_app.
  destruct (FS.namei (root w) _ cs) as [e|p1]; [discriminate|].
  cbn [FS.namei].
  destruct (FS.lookup (root w) p1) as [[| |es1]|] eqn:L1; try discriminate.
  destruct (FS.lookup (root w) (FS.step p1 c)) as [n|] eqn:L; [|discriminate].
  intros [= ->]. exists p1, c.
  assert (Hstep : FS.step p1 c = p1 ++ [c]).
  { unfold FS.step in L |- *.
    destruct (String.eqb c "" || String.eqb c ".").
    - rewrite L1 in L. discriminate.
    - destruct (String.eqb c ".."); [|reflexivity].
      assert (Hd : FS.is_dir (FS.lookup (root w) (removelast p1)) = true)
        by (apply is_dir_removelast; now rewrite L1).
      rewrite L in Hd. discriminate. }
  rewrite Hstep in *. rewrite tmp_name_steps.
  repeat split; try reflexivity; [now rewrite L1 | assumption].
Qed.

Lemma os_replace_eq (src dst : string) (w : world) (ps pd : FS.position) (n : FS.node) :
  FS.resolve (root w) (cwd w) src = inr ps ->
  FS.resolve (root w) (cwd w) dst = inr pd ->
  FS.lookup (root w) ps = Some n ->
  FS.is_dir (Some n) = false ->
  FS.is_dir (FS.lookup (root w) pd) = false ->
  os.replace src dst w
  = set_root (FS.update (FS.update (root w) ps None) pd (Some n)) w.
Proof.
  intros Hs Hd Hn Hnd Hdd.
  cbv beta iota delta [os.replace os.locate bind get_world lift].
  rewrite Hs. cbv beta iota. rewrite Hd. cbv beta iota. rewrite Hn.
  destruct n as [x| |es]; [| |discriminate];
    destruct (FS.lookup (root w) pd) as [[| |]|]; (discriminate || reflexivity).
Qed.

Section Steps.

(** The world [w0] in which the method starts, the directory [parent]
    that holds the table under the name [c], and what the table holds. *)
Variable w0 : world.
Variable parent : FS.position.
Variable c : string.
Variable content : string.
Variable input : string.

Local Abbreviation pin := (parent ++ [c]).
Local Abbreviation ptmp := (parent ++ [(c ++ ".tmp")%string]).
Local Abbreviation writing_now := (writing w0 parent c content).

Hypothesis Hin : FS.resolve (root w0) (cwd w0) input = inr pin.
Hypothesis Htmp : FS.resolve (root w0) (cwd w0) (input ++ ".tmp") = inr ptmp.
Hypothesis Hparent : FS.is_dir (FS.lookup (root w0) parent) = true.
Hypothesis Hcontent : FS.lookup (root w0) pin = Some (FS.File content).

Lemma open_w_step :
  vacant_or_regular w0 (input ++ ".tmp") = true ->
  exists w1, io.open_w (input ++ ".tmp") w0 = (inr ptmp, w1) /\ writing_now "" w1.
Proof.
  unfold vacant_or_regular, stat_of. rewrite Htmp. intros Hv.
  assert (Hnd : FS.is_dir (FS.lookup (root w0) ptmp) = false)
    by (destruct (FS.lookup (root w0) ptmp) as [[| |]|]; (discriminate || reflexivity)).
  eexists. split.
  - unfold io.open_w, bind. rewrite os_locate_eq, Htmp. unfold get_world.
    destruct (FS.lookup (root w0) ptmp) as [[| |]|]; try discriminate; reflexivity.
  - unfold writing. cbn [cwd programs calls root history].
    repeat split.
    + intros q Hq. now apply update_keeps_dirs.
    + rewrite (lookup_update_sibling parent (c ++ ".tmp") c); [exact Hcontent|].
      intros E. symmetry in E. revert E. apply tmp_name_differs.
    + now apply lookup_update_same.
    + eexists. split; [reflexivity|]. repeat constructor.
      rewrite (lookup_update_sibling parent (c ++ ".tmp") c); [exact Hcontent|].
      intros E. symmetry in E. revert E. apply tmp_name_differs.
Qed.

Lemma write_step (written s : string) (w : world) :
  writing_now written w ->
  exists w', io.write ptmp s w = (inr tt, w') /\ writing_now (written ++ s) w'.
Proof.
  intros (Hc & Hp & Hcalls & Hk & Hi & Ht & hs & Hh & Hall).
  eexists. split.
  - unfold io.write, bind, get_world. rewrite Ht. reflexivity.
  - unfold writing. cbn [cwd programs calls root history].
    assert (Hsib : FS.lookup (FS.update (root w) ptmp
                                (Some (FS.File (written ++ s)))) pin
                   = Some (FS.File content)).
    { rewrite (lookup_update_sibling parent (c ++ ".tmp") c); [exact Hi|].
      intros E. symmetry in E. revert E. apply tmp_name_differs. }
    repeat split; try assumption.
    + intros q Hq. apply update_keeps_dirs; [now rewrite Ht | now apply Hk].
    + apply lookup_update_same. now apply Hk.
    + exists (hs ++ [FS.update (root w) ptmp (Some (FS.File (written ++ s)))]).
      split; [now rewrite Hh, app_assoc|].
      apply Forall_app. split; [assumption|]. now repeat constructor.
Qed.

Lemma write_all (ls : list string) :
  forall (written : string) (w : world),
    writing_now written w ->
    exists w', for_each ls (fun line => io.write ptmp line) w = (inr tt, w')
               /\ writing_now (written ++ fold_right String.append "" ls) w'.
Proof.
  induction ls as [|l ls IH]; intros written w Hw.
  - exists w. split; [reflexivity|]. now rewrite string_app_nil_r.
  - destruct (write_step written l w Hw) as (w1 & Hrun & Hw1).
    destruct (IH _ _ Hw1) as (w2 & Hrun2 & Hw2).
    exists w2. split.
    + cbn [for_each]. unfold bind. now rewrite Hrun.
    + cbn [fold_right]. now rewrite <- string_app_assoc.
Qed.

Lemma open_r_step (written : string) (w : world) :
  writing_now written w ->
  io.open_r input w
  = (inr (if Py.utf8_valid content
          then inr (Py.lines (Py.universal_newlines content))
          else inl Py.UnicodeDecodeError), w).
Proof.
  intros (Hc & Hp & Hcalls & Hk & Hi & Ht & _).
  unfold io.open_r, bind. rewrite os_stat_eq. unfold stat_of.
  rewrite Hc, (resolve_keeps _ _ _ _ _ Hk Hin), Hi. reflexivity.
Qed.

(** The one step that touches the table: afterwards it holds what the
    temporary file held, and the temporary file is gone. *)
Lemma replace_step (written : string) (w : world) :
  writing_now written w ->
  exists t,
    os.replace (input ++ ".tmp") input w
    = (inr tt, mkWorld t (cwd w0) (programs w0) (calls w0) (history w ++ [t]))
    /\ keeps_dirs (root w0) t
    /\ FS.lookup t pin = Some (FS.File written)
    /\ FS.lookup t ptmp = None.
Proof.
  intros (Hc & Hp & Hcalls & Hk & Hi & Ht & _).
  set (ta := FS.update (root w) ptmp None).
  assert (Ha : FS.lookup ta pin = Some (FS.File content)).
  { unfold ta. rewrite (lookup_update_sibling parent (c ++ ".tmp") c); [exact Hi|].
    intros E. symmetry in E. revert E. apply tmp_name_differs. }
  assert (Hka : keeps_dirs (root w0) ta).
  { intros q Hq. apply update_keeps_dirs; [now rewrite Ht | now apply Hk]. }
  exists (FS.update ta pin (Some (FS.File written))). split; [|split; [|split]].
  - rewrite (os_replace_eq _ _ w ptmp pin (FS.File written)).
    + unfold set_root. now rewrite Hc, Hp, Hcalls.
    + rewrite Hc. exact (resolve_keeps _ _ _ _ _ Hk Htmp).
    + rewrite Hc. exact (resolve_keeps _ _ _ _ _ Hk Hin).
    + exact Ht.
    + reflexivity.
    + now rewrite Hi.
  - intros q Hq. apply update_keeps_dirs; [now rewrite Ha | now apply Hka].
  - apply lookup_update_same. now apply Hka.
  - rewrite (lookup_update_sibling parent c (c ++ ".tmp"))
      by apply tmp_name_differs.
    apply lookup_update_same. now apply Hk.
Qed.

End Steps.

(** The run up to the replacement, for a table with a first line:
    afterwards the temporary file holds the new header and everything
    after the first line of the table as a text-mode reader sees it. *)
Lemma rewrite_into_tmp (w : world) (parent : FS.position) (c content input : string)
  (first : string) (rest : list string) :
  FS.resolve (root w) (cwd w) input = inr (parent ++ [c]) ->
  FS.resolve (root w) (cwd w) (input ++ ".tmp") = inr (parent ++ [(c ++ ".tmp")%string]) ->
  FS.is_dir (FS.lookup (root w) parent) = true ->
  FS.lookup (root w) (parent ++ [c]) = Some (FS.File content) ->
  vacant_or_regular w (input ++ ".tmp") = true ->
  Py.utf8_valid content = true ->
  Py.lines (Py.universal_newlines content) = first :: rest ->
  exists w',
    (out_f <- io.open_w (input ++ ".tmp") ;;
     io.write out_f taxonomy_header ;;
     in_f <- io.open_r input ;;
     '(_, in_f) <- io.next in_f ;;
     io.for_lines in_f (fun line => io.write out_f line)) w = (inr tt, w')
    /\ writing w parent c content
               (taxonomy_header ++ fold_right String.append "" rest) w'.
Proof.
  intros Hin Htmp Hpar Hcont Hv Hutf Hlines.
  destruct (open_w_step w parent c content input Htmp Hpar Hcont Hv)
    as (w1 & Hopen & Hw1).
  destruct (write_step w parent c content Hpar "" taxonomy_header w1 Hw1)
    as (w2 & Hwr & Hw2).
  destruct (write_all w parent c content Hpar rest _ w2 Hw2) as (w3 & Hall & Hw3).
  exists w3. split; [|exact Hw3].
  unfold bind at 1. rewrite Hopen. unfold bind at 1. rewrite Hwr.
  unfold bind at 1. rewrite (open_r_step w parent c content input Hin _ w2 Hw2).
  rewrite Hutf, Hlines. unfold bind at 1. cbn [io.next io.for_lines ret]. exact Hall.
Qed.

(** C5, as amended.  The table at [input_taxo] is a regular file of
    well-formed UTF-8 text: a first line [X], its line end [eol] (a line
    feed, a carriage return and a line feed, or a carriage return alone)
    and then [data], with no carriage return in [data], and the path next
    to it that ends in [.tmp] is free or a regular file.  Then the method
    returns; [input_taxo] names a regular file that holds the fixed
    header line and then [data], byte for byte; nothing is left at the
    [.tmp] path; no external program is run; and in every tree the file
    system went through, the table held either all of the old text or all
    of the new one. *)
Theorem change_taxonomy_file_header_rewrites
  (input_taxo X eol data : string) (w : world) :
  os.stat input_taxo w = (inr (FS.File (X ++ eol ++ data)), w) ->
  Py.mem Py.LF X = false ->
  Py.mem Py.CR X = false ->
  line_end eol data = true ->
  Py.mem Py.CR data = false ->
  Py.utf8_valid (X ++ eol ++ data) = true ->
  vacant_or_regular w (input_taxo ++ ".tmp") = true ->
  exists w' pos hs,
    change_taxonomy_file_header input_taxo w = (inr tt, w')
    /\ os.stat input_taxo w' = (inr (FS.File (taxonomy_header ++ data)), w')
    /\ os.stat (input_taxo ++ ".tmp") w' = (inl Py.FileNotFoundError, w')
    /\ calls w' = calls w
    /\ FS.resolve (root w) (cwd w) input_taxo = inr pos
    /\ history w' = history w ++ hs
    /\ Forall (fun t =>
                 FS.lookup t pos = Some (FS.File (X ++ eol ++ data))
                 \/ FS.lookup t pos = Some (FS.File (taxonomy_header ++ data))) hs.
Proof.
  rewrite os_stat_eq. intros Hstat HX HXCR Heol HCR Hutf Hv. injection Hstat as Hstat.
  destruct (resolve_tmp w input_taxo _ Hstat) as (parent & c & Hin & Htmp & Hpar & Hcont).
  assert (Hlines : Py.lines (Py.universal_newlines (X ++ eol ++ data))
                   = (X ++ String Py.LF "")%string :: Py.lines data).
  { rewrite universal_newlines_app, universal_newlines_line_end by assumption.
    now apply lines_first. }
  destruct (rewrite_into_tmp w parent c _ input_taxo _ _ Hin Htmp Hpar Hcont Hv Hutf
              Hlines) as (w3 & Hrun & Hw3).
  rewrite concat_lines in Hw3.
  destruct (replace_step w parent c _ input_taxo Hin Htmp Hpar _ w3 Hw3)
    as (t & Hrep & Hkt & Hpin & Hptmp).
  destruct Hw3 as (Hc & Hp & Hcalls & Hk & Hi & Ht & hs & Hh & Hold).
  eexists. exists (parent ++ [c]), (hs ++ [t]). split; [|split; [|split; [|split]]].
  - unfold change_taxonomy_file_header. unfold bind at 1. rewrite Hrun. exact Hrep.
  - rewrite os_stat_eq. unfold stat_of. cbn [root cwd].
    now rewrite (resolve_keeps _ _ _ _ _ Hkt Hin), Hpin.
  - rewrite os_stat_eq. unfold stat_of. cbn [root cwd].
    now rewrite (resolve_keeps _ _ _ _ _ Hkt Htmp), Hptmp.
  - reflexivity.
  - split; [exact Hin|]. split.
    + cbn [history]. now rewrite Hh, app_assoc.
    + apply Forall_app. split.
      * revert Hold. apply Forall_impl. intros a Ha. cbv beta. now left.
      * constructor; [cbv beta; now right | constructor].
Qed.

Lemma change_taxonomy_file_header_rewrites_witness :
  let X := ("Feature ID" ++ String Py.TAB "Taxon" ++ String Py.TAB "Confidence")%string in
  let eol := String Py.LF "" in
  let data := ("f1" ++ String Py.TAB "k__Fungi" ++ String Py.TAB "0.9"
               ++ String Py.LF "")%string in
  os.stat "taxonomy.tsv" example_world
  = (inr (FS.File (X ++ eol ++ data)), example_world)
  /\ Py.mem Py.LF X = false
  /\ Py.mem Py.CR X = false
  /\ line_end eol data = true
  /\ Py.mem Py.CR data = false
  /\ Py.utf8_valid (X ++ eol ++ data) = true
  /\ vacant_or_regular example_world "taxonomy.tsv.tmp" = true
  /\ exists w' pos hs,
       change_taxonomy_file_header "taxonomy.tsv" example_world = (inr tt, w')
       /\ os.stat "taxonomy.tsv" w' = (inr (FS.File (taxonomy_header ++ data)), w')
       /\ os.stat "taxonomy.tsv.tmp" w' = (inl Py.FileNotFoundError, w')
       /\ calls w' = calls example_world
       /\ FS.resolve (root example_world) (cwd example_world) "taxonomy.tsv" = inr pos
       /\ history w' = history example_world ++ hs
       /\ Forall (fun t =>
                    FS.lookup t pos = Some (FS.File (X ++ eol ++ data))
                    \/ FS.lookup t pos = Some (FS.File (taxonomy_header ++ data))) hs.
Proof.
  intros X eol data.
  split; [reflexivity|]. split; [reflexivity|]. split; [reflexivity|].
  split; [reflexivity|]. split; [reflexivity|]. split; [reflexivity|].
  split; [reflexivity|].
  apply (change_taxonomy_file_header_rewrites "taxonomy.tsv" X eol data example_world);
    reflexivity.
Defined.

(** C5 as stated fails for a table with carriage returns: the reader
    turns each [\r\n] into [\n], so the data line [f1\r\n] comes out as
    [f1\n]. *)
Lemma change_taxonomy_file_header_crlf_counterexample :
  let crlf := String Py.CR (String Py.LF "") in
  os.stat "crlf.tsv" example_world
  = (inr (FS.File ("X" ++ crlf ++ "f1" ++ crlf)), example_world)
  /\ exists w',
       change_taxonomy_file_header "crlf.tsv" example_world = (inr tt, w')
       /\ os.stat "crlf.tsv" w'
          = (inr (FS.File (taxonomy_header ++ "f1" ++ String Py.LF "")), w')
       /\ (taxonomy_header ++ "f1" ++ String Py.LF "")%string
          <> (taxonomy_header ++ "f1" ++ crlf)%string.
Proof.
  intros crlf. split; [reflexivity|]. eexists.
  split; [reflexivity|]. split; [reflexivity|]. vm_compute. discriminate.
Qed.

(** C9.  The table at [input_taxo] is an empty regular file, and the path
    next to it that ends in [.tmp] is free or a regular file.  Then
    [next(in_f)] raises [StopIteration] out of the method; the table is
    still the empty file, in the world and in every tree the file system
    went through, so it was never replaced; and the [.tmp] path names a
    regular file that holds the new header line and nothing else. *)
Theorem change_taxonomy_file_header_empty_input (input_taxo : string) (w : world) :
  os.stat input_taxo w = (inr (FS.File ""), w) ->
  vacant_or_regular w (input_taxo ++ ".tmp") = true ->
  exists w' pos hs,
    change_taxonomy_file_header input_taxo w = (inl Py.StopIteration, w')
    /\ os.stat input_taxo w' = (inr (FS.File ""), w')
    /\ os.stat (input_taxo ++ ".tmp") w' = (inr (FS.File taxonomy_header), w')
    /\ calls w' = calls w
    /\ FS.resolve (root w) (cwd w) input_taxo = inr pos
    /\ history w' = history w ++ hs
    /\ Forall (fun t => FS.lookup t pos = Some (FS.File "")) hs.
Proof.
  rewrite os_stat_eq. intros Hstat Hv. injection Hstat as Hstat.
  destruct (resolve_tmp w input_taxo _ Hstat) as (parent & c & Hin & Htmp & Hpar & Hcont).
  destruct (open_w_step w parent c "" input_taxo Htmp Hpar Hcont Hv)
    as (w1 & Hopen & Hw1).
  destruct (write_step w parent c "" Hpar "" taxonomy_header w1 Hw1)
    as (w2 & Hwr & Hw2).
  pose proof (open_r_step w parent c "" input_taxo Hin _ w2 Hw2) as Hread.
  destruct Hw2 as (Hc & Hp & Hcalls & Hk & Hi & Ht & hs & Hh & Hold).
  exists w2, (parent ++ [c]), hs. split; [|split; [|split; [|split]]].
  - unfold change_taxonomy_file_header.
    unfold bind at 1. unfold bind at 1. rewrite Hopen.
    unfold bind at 1. rewrite Hwr. unfold bind at 1. rewrite Hread.
    reflexivity.
  - rewrite os_stat_eq. unfold stat_of.
    now rewrite Hc, (resolve_keeps _ _ _ _ _ Hk Hin), Hi.
  - rewrite os_stat_eq. unfold stat_of.
    now rewrite Hc, (resolve_keeps _ _ _ _ _ Hk Htmp), Ht.
  - exact Hcalls.
  - repeat split; assumption.
Qed.

Lemma change_taxonomy_file_header_empty_input_witness :
  os.stat "empty.tsv" example_world = (inr (FS.File ""), example_world)
  /\ vacant_or_regular example_world "empty.tsv.tmp" = true
  /\ exists w' pos hs,
       change_taxonomy_file_header "empty.tsv" example_world = (inl Py.StopIteration, w')
       /\ os.stat "empty.tsv" w' = (inr (FS.File ""), w')
       /\ os.stat "empty.tsv.tmp" w' = (inr (FS.File taxonomy_header), w')
       /\ calls w' = calls example_world
       /\ FS.resolve (root example_world) (cwd example_world) "empty.tsv" = inr pos
       /\ history w' = history example_world ++ hs
       /\ Forall (fun t => FS.lookup t pos = Some (FS.File "")) hs.
Proof.
  split; [reflexivity|]. split; [reflexivity|].
  apply (change_taxonomy_file_header_empty_input "empty.tsv" example_world);
    reflexivity.
Defined.

End Taxonomy.

(** ** Creating directories: [os.mkdir], [Path.mkdir], [make_folder] *)

Section Folders.

Import Qiime2Methods.

Lemma of_string_parts (folder : string) :
  Forall (fun c => is_part c = true) (pathlib.parts (pathlib.of_string folder)).
Proof.
  unfold pathlib.of_string. cbn [pathlib.parts]. apply Forall_forall.
  intros c Hc. apply filter_In in Hc. destruct Hc as [Hin Hnd].
  unfold is_part. rewrite Hnd. cbn [andb].
  pose proof (split_fields "/" folder) as Hf. rewrite Forall_forall in Hf.
  now rewrite (Hf c Hin).
Qed.

Lemma is_part_facts (c : string) :
  is_part c = true ->
  c <> "" /\ Py.mem "/" c = false /\ String.eqb c "" || String.eqb c "." = false.
Proof.
  unfold is_part. rewrite andb_true_iff, !negb_true_iff. intros [H1 H2].
  split; [|now split]. intros ->. discriminate.
Qed.

Lemma join_parts_nonempty (c : string) (ps : list string) :
  c <> "" -> Py.join "/" (c :: ps) <> ""
             /\ forall x, Py.startswith (Py.join "/" (c :: ps)) (String x "")
                          = Py.startswith c (String x "").
Proof.
  intros Hc. destruct c as [|a c]; [contradiction|].
  destruct ps as [|d ps]; cbn [Py.join]; split; try discriminate; try reflexivity.
  intros x. now apply (startswith_app (String a c) _ x).
Qed.

(** [str(p)] resolves as the parts of [p] do. *)
Lemma resolve_to_string (w : world) (p : pathlib.Path) :
  Forall (fun c => is_part c = true) (pathlib.parts p) ->
  FS.resolve (root w) (cwd w) (pathlib.to_string p) = goto w p.
Proof.
  destruct p as [a ps]. unfold goto, pathlib.to_string, start_of.
  cbn [pathlib.anchored pathlib.parts]. intros Hparts.
  destruct a, ps as [|c ps].
  - cbn. destruct (root w); reflexivity.
  - inversion Hparts as [|? ? Hc Hps]; subst.
    assert (Hs : Forall (fun c => Py.mem "/" c = false) (c :: ps)).
    { eapply Forall_impl; [|exact Hparts]. intros x Hx. now apply is_part_facts. }
    unfold FS.resolve, FS.start. cbn [String.append String.eqb Py.startswith String.prefix].
    change (Py.split "/" (String "/" (Py.join "/" (c :: ps))))
      with ("" :: Py.split "/" (Py.join "/" (c :: ps))).
    rewrite (split_join "/"%char (c :: ps)) by (discriminate || assumption).
    destruct (Ascii.ascii_dec "/" "/") as [_|N]; [|contradiction].
    destruct (Py.join "/" (c :: ps)); reflexivity.
  - reflexivity.
  - inversion Hparts as [|? ? Hc Hps]; subst.
    assert (Hs : Forall (fun c => Py.mem "/" c = false) (c :: ps)).
    { eapply Forall_impl; [|exact Hparts]. intros x Hx. now apply is_part_facts. }
    destruct (is_part_facts c Hc) as (Hne & Hslash & _).
    destruct (join_parts_nonempty c ps Hne) as [Hj Hst].
    unfold FS.resolve, FS.start.
    destruct (String.eqb_spec (Py.join "/" (c :: ps)) ""); [contradiction|].
    rewrite Hst, (mem_false_not_startswith _ _ Hslash).
    rewrite (split_join "/"%char (c :: ps)) by (discriminate || assumption).
    cbn [FS.namei]. change (FS.step (cwd w) ".") with (cwd w).
    destruct (FS.lookup (root w) (cwd w)) as [[| |]|] eqn:L; reflexivity.
Qed.

Lemma namei_fold (t : FS.node) (cs : list string) :
  forall pos p, FS.namei t pos cs = inr p -> p = fold_left FS.step cs pos.
Proof.
  induction cs as [|c cs IH]; intros pos p; simpl.
  - now intros [= <-].
  - destruct (FS.lookup t pos) as [[| |]|]; try discriminate. apply IH.
Qed.

(** A resolution that went through [cs] found directories all along. *)
Lemma namei_prefix (t : FS.node) (cs cs' : list string) (pos p : FS.position) :
  FS.namei t pos (cs ++ cs') = inr p ->
  exists p1, FS.namei t pos cs = inr p1
             /\ (cs' <> [] -> FS.is_dir (FS.lookup t p1) = true).
Proof.
  rewrite namei_app. destruct (FS.namei t pos cs) as [e|p1]; [discriminate|].
  intros H. exists p1. split; [reflexivity|]. intros Hne.
  destruct cs' as [|c cs']; [contradiction|]. simpl in H.
  destruct (FS.lookup t p1) as [[| |]|]; (discriminate || reflexivity).
Qed.

(** A position that resolution reaches and that holds nothing is a new
    name in a directory. *)
Lemma namei_vacant (t : FS.node) (cs : list string) :
  forall start pos,
    FS.namei t start cs = inr pos ->
    FS.is_dir (FS.lookup t start) = true ->
    FS.lookup t pos = None ->
    exists p1 c, pos = p1 ++ [c] /\ FS.is_dir (FS.lookup t p1) = true.
Proof.
  induction cs as [|c cs IH]; intros start pos Hn Hd Hv.
  - injection Hn as <-. rewrite Hv in Hd. discriminate.
  - cbn [FS.namei] in Hn.
    destruct (FS.lookup t start) as [[| |es]|] eqn:L; try discriminate.
    destruct (FS.is_dir (FS.lookup t (FS.step start c))) eqn:Hs.
    + now apply IH with (FS.step start c).
    + destruct cs as [|c' cs].
      * injection Hn as <-. unfold FS.step in *.
        destruct (String.eqb c "" || String.eqb c ".").
        { rewrite L in Hs. discriminate. }
        destruct (String.eqb c "..").
        { rewrite is_dir_removelast in Hs; [discriminate | now rewrite L]. }
        exists start, c. split; [reflexivity | now rewrite L].
      * cbn [FS.namei] in Hn.
        destruct (FS.lookup t (FS.step start c)) as [[| |]|]; discriminate.
Qed.

Lemma clear_way_app (t : FS.node) (cs cs' : list string) :
  forall pos, clear_way t pos (cs ++ cs') = true -> clear_way t pos cs = true.
Proof.
  induction cs as [|c cs IH]; intros pos; cbn [app].
  - destruct cs'; cbn [clear_way];
      destruct (FS.lookup t pos) as [[| |]|]; try discriminate; reflexivity.
  - cbn [clear_way].
    destruct (FS.lookup t pos) as [[| |]|]; try discriminate; apply IH.
Qed.

(** On a clear way, what the last position holds is a directory or
    nothing. *)
Lemma clear_way_end (t : FS.node) (cs : list string) :
  forall pos n,
    clear_way t pos cs = true ->
    FS.lookup t (fold_left FS.step cs pos) = Some n ->
    FS.is_dir (Some n) = true.
Proof.
  induction cs as [|c cs IH]; intros pos n; cbn [clear_way fold_left].
  - intros H L. rewrite L in H. now destruct n.
  - destruct (FS.lookup t pos) as [[| |]|]; try discriminate; apply IH.
Qed.

(** On a clear way, resolution can only fail for want of a directory. *)
Lemma clear_way_error (t : FS.node) (cs : list string) :
  forall pos e,
    clear_way t pos cs = true -> FS.namei t pos cs = inl e -> e = Py.FileNotFoundError.
Proof.
  induction cs as [|c cs IH]; intros pos e; cbn [clear_way FS.namei]; [discriminate|].
  destruct (FS.lookup t pos) as [[| |]|]; try discriminate.
  - apply IH.
  - now intros _ [= <-].
Qed.

Lemma grew_refl (w : world) : grew w w.
Proof. unfold grew, keeps_dirs. repeat split; auto. Qed.

Lemma grew_trans (w1 w2 w3 : world) : grew w1 w2 -> grew w2 w3 -> grew w1 w3.
Proof.
  intros (A1 & A2 & A3 & A4 & A5) (B1 & B2 & B3 & B4 & B5).
  unfold grew, keeps_dirs in *. repeat split; try congruence; eauto.
Qed.

Lemma os_mkdir_eq (path : string) (w : world) :
  os.mkdir path w
  = match FS.resolve (root w) (cwd w) path with
    | inl e => (inl e, w)
    | inr pos =>
        match FS.lookup (root w) pos with
        | Some _ => (inl Py.FileExistsError, w)
        | None => set_root (FS.update (root w) pos (Some (FS.Dir []))) w
        end
    end.
Proof.
  cbv beta iota delta [os.mkdir os.locate bind get_world lift].
  destruct (FS.resolve (root w) (cwd w) path) as [e|pos]; [reflexivity|].
  cbv beta iota. now destruct (FS.lookup (root w) pos).
Qed.

Lemma pathlib_is_dir_eq (p : pathlib.Path) (w : world) :
  Forall (fun c => is_part c = true) (pathlib.parts p) ->
  pathlib.is_dir p w = (inr (dir_at w p), w).
Proof.
  intros Hp. unfold pathlib.is_dir. rewrite os_path_isdir_eq. unfold stat_of, dir_at.
  rewrite (resolve_to_string w p Hp).
  destruct (goto w p) as [e|pos]; [reflexivity|].
  now destruct (FS.lookup (root w) pos) as [[| |]|].
Qed.

Lemma clear_way_dot (t : FS.node) (pos : FS.position) (cs : list string) :
  FS.is_dir (FS.lookup t pos) = true ->
  clear_way t pos cs = true -> clear_way t pos ("." :: cs) = true.
Proof.
  intros Hd Hc. cbn [clear_way]. change (FS.step pos ".") with pos.
  now destruct (FS.lookup t pos) as [[| |]|].
Qed.

Section OnePath.

Variable p : pathlib.Path.
Hypothesis Hparts : Forall (fun c => is_part c = true) (pathlib.parts p).

(** [mkdir] on a path that names a directory: [FileExistsError] from the
    kernel, swallowed because of [exist_ok]; nothing changes. *)
Lemma mkdir_on_dir (w : world) :
  dir_at w p = true ->
  (forall n, pathlib.mkdir_parents n p true w = (inr tt, w))
  /\ pathlib.mkdir_flat p true w = (inr tt, w).
Proof.
  intros Hd.
  assert (Hmk : os.mkdir (pathlib.to_string p) w = (inl Py.FileExistsError, w)).
  { rewrite os_mkdir_eq, (resolve_to_string w p Hparts). unfold dir_at in Hd.
    destruct (goto w p) as [e|pos]; [discriminate|].
    destruct (FS.lookup (root w) pos); [reflexivity|discriminate]. }
  split; [intros [|n]; cbn [pathlib.mkdir_parents] | unfold pathlib.mkdir_flat];
    unfold catch; rewrite Hmk; cbn [Py.is_OSError];
    unfold bind; rewrite (pathlib_is_dir_eq p w Hparts), Hd; reflexivity.
Qed.

(** [mkdir] on a path that resolves to a free position: the kernel makes
    the directory. *)
Lemma mkdir_on_vacant (w : world) (pos : FS.position) :
  goto w p = inr pos ->
  FS.lookup (root w) pos = None ->
  FS.is_dir (FS.lookup (root w) (start_of w (pathlib.anchored p))) = true ->
  exists w',
    (forall n e, pathlib.mkdir_parents n p e w = (inr tt, w'))
    /\ (forall e, pathlib.mkdir_flat p e w = (inr tt, w'))
    /\ grew w w' /\ dir_at w' p = true.
Proof.
  intros Hg Hv Hs.
  set (t' := FS.update (root w) pos (Some (FS.Dir []))).
  set (w' := mkWorld t' (cwd w) (programs w) (calls w) (history w ++ [t'])).
  assert (Hmk : os.mkdir (pathlib.to_string p) w = (inr tt, w')).
  { rewrite os_mkdir_eq, (resolve_to_string w p Hparts), Hg, Hv. reflexivity. }
  assert (Hk : keeps_dirs (root w) t').
  { intros q Hq. apply update_keeps_dirs; [now rewrite Hv | assumption]. }
  exists w'. split; [|split; [|split]].
  - intros [|n] e; cbn [pathlib.mkdir_parents]; unfold catch; now rewrite Hmk.
  - intros e. unfold pathlib.mkdir_flat, catch. now rewrite Hmk.
  - unfold grew. cbn [cwd programs calls root]. repeat split; try assumption.
    intros q n Hq Hn. now apply (mkdir_keeps_files pos (root w) q n).
  - unfold dir_at, goto, start_of, w'. cbn [cwd root].
    unfold goto, start_of in Hg. rewrite (namei_keeps _ _ _ Hk _ _ Hg).
    destruct (namei_vacant _ _ _ _ Hg Hs Hv) as (p1 & c & -> & Hp1).
    unfold t'. now rewrite lookup_update_same.
Qed.

End OnePath.

(** [mkdir(parents=True, exist_ok=True)] on an unobstructed path:
    it returns, the world has grown by directories only, and the path
    names a directory. *)
Lemma mkdir_parents_ok (n : nat) :
  forall (p : pathlib.Path) (w : world),
    length (pathlib.parts p) = n ->
    Forall (fun c => is_part c = true) (pathlib.parts p) ->
    unobstructed w p = true ->
    exists w', pathlib.mkdir_parents n p true w = (inr tt, w')
               /\ grew w w' /\ dir_at w' p = true.
Proof.
  induction n as [|n IH]; intros p w Hlen Hparts Hun;
    unfold unobstructed in Hun; apply andb_true_iff in Hun;
    destruct Hun as [Hstart Hclear];
    destruct (goto w p) as [e|pos] eqn:Hg.
  - (* no parts: the start is a directory, so resolution cannot fail *)
    exfalso. destruct p as [a ps]. cbn in Hlen. destruct ps; [|discriminate].
    unfold goto in Hg. cbn [pathlib.parts pathlib.anchored FS.namei] in Hg, Hstart.
    destruct (FS.lookup (root w) (start_of w a)) as [[| |]|]; discriminate.
  - destruct (FS.lookup (root w) pos) as [m|] eqn:L.
    + exists w. split; [|split; [apply grew_refl|]].
      * apply mkdir_on_dir; [assumption|]. unfold dir_at. rewrite Hg, L.
        apply (clear_way_end (root w) (pathlib.parts p) _ m Hclear).
        rewrite (namei_fold _ _ _ _ Hg) in L. exact L.
      * unfold dir_at. rewrite Hg, L.
        apply (clear_way_end (root w) (pathlib.parts p) _ m Hclear).
        rewrite (namei_fold _ _ _ _ Hg) in L. exact L.
    + destruct (mkdir_on_vacant p Hparts w pos Hg L Hstart) as (w' & H1 & _ & H3 & H4).
      exists w'. now rewrite H1.
  - (* the parent is missing: make it, then the directory itself *)
    assert (He : e = Py.FileNotFoundError).
    { apply (clear_way_error (root w) ("." :: pathlib.parts p)
                             (start_of w (pathlib.anchored p)) e);
        [now apply clear_way_dot | exact Hg]. }
    subst e. destruct p as [a ps]. cbn [pathlib.parts pathlib.anchored] in *.
    assert (Hne : ps <> []) by (intros ->; discriminate).
    destruct (exists_last Hne) as (ps' & c & ->).
    rewrite length_app in Hlen. cbn in Hlen.
    apply Forall_app in Hparts. destruct Hparts as [Hps' Hc].
    set (q := pathlib.mkPath a ps').
    destruct (IH q w) as (w1 & Hrun1 & Hgrew1 & Hdir1).
    { cbn. lia. }
    { exact Hps'. }
    { unfold unobstructed. cbn [pathlib.parts pathlib.anchored q].
      rewrite Hstart. now rewrite (clear_way_app _ _ _ _ Hclear). }
    assert (Hparts : Forall (fun c => is_part c = true) (ps' ++ [c]))
      by (apply Forall_app; now split).
    set (p := pathlib.mkPath a (ps' ++ [c])).
    destruct Hgrew1 as (Hcwd & Hprog & Hcalls & Hk & Hf).
    assert (Hstart1 : FS.is_dir (FS.lookup (root w1) (start_of w1 a)) = true).
    { unfold start_of. rewrite Hcwd. now apply Hk. }
    assert (Hg1 : exists pos, goto w1 p = inr pos).
    { unfold dir_at, goto in Hdir1. cbn [pathlib.parts pathlib.anchored q] in Hdir1.
      unfold goto. cbn [pathlib.parts pathlib.anchored p].
      change ("." :: ps' ++ [c]) with (("." :: ps') ++ [c]). rewrite namei_app.
      destruct (FS.namei (root w1) (start_of w1 a) ("." :: ps')) as [e|p1];
        [discriminate|].
      cbn [FS.namei]. destruct (FS.lookup (root w1) p1) as [[| |]|]; try discriminate.
      now eexists. }
    destruct Hg1 as [pos Hg1].
    assert (Hflat : exists w', pathlib.mkdir_flat p true w1 = (inr tt, w')
                               /\ grew w1 w' /\ dir_at w' p = true).
    { destruct (FS.lookup (root w1) pos) as [m|] eqn:L.
      - assert (Hd : dir_at w1 p = true).
        { unfold dir_at. rewrite Hg1, L.
          destruct (FS.is_dir (Some m)) eqn:Hm; [reflexivity|]. exfalso.
          pose proof (Hf pos m L Hm) as L0.
          rewrite (namei_fold _ _ _ _ Hg1) in L0. cbn [fold_left] in L0.
          change (FS.step (start_of w1 a) ".") with (start_of w1 a) in L0.
          unfold start_of in L0. rewrite Hcwd in L0. fold (start_of w a) in L0.
          pose proof (clear_way_end (root w) (ps' ++ [c]) _ m Hclear L0) as Hm'.
          rewrite Hm in Hm'. discriminate. }
        exists w1. split; [now apply mkdir_on_dir | split; [apply grew_refl | exact Hd]].
      - destruct (mkdir_on_vacant p Hparts w1 pos Hg1 L Hstart1)
          as (w2 & _ & H2 & H3 & H4).
        exists w2. now rewrite H2. }
    destruct Hflat as (w2 & Hrun2 & Hgrew2 & Hdir2).
    exists w2. split; [|split].
    + cbn [pathlib.mkdir_parents]. unfold catch.
      rewrite os_mkdir_eq, (resolve_to_string w p Hparts).
      fold p in Hg. rewrite Hg.
      unfold pathlib.parent. cbn [pathlib.parts pathlib.anchored p].
      rewrite removelast_last. fold q. unfold bind. now rewrite Hrun1.
    + apply grew_trans with w1; [|assumption]. unfold grew. now repeat split.
    + exact Hdir2.
  - destruct (FS.lookup (root w) pos) as [m|] eqn:L.
    + assert (Hd : dir_at w p = true).
      { unfold dir_at. rewrite Hg, L.
        apply (clear_way_end (root w) (pathlib.parts p) _ m Hclear).
        rewrite (namei_fold _ _ _ _ Hg) in L. exact L. }
      exists w. split; [now apply mkdir_on_dir | split; [apply grew_refl | exact Hd]].
    + destruct (mkdir_on_vacant p Hparts w pos Hg L Hstart) as (w' & H1 & _ & H3 & H4).
      exists w'. now rewrite H1.
Qed.

(** Above a directory there are directories. *)
Lemma dir_at_ancestor (w : world) (p : pathlib.Path) (k : nat) :
  dir_at w p = true -> dir_at w (ancestor k p) = true.
Proof.
  unfold dir_at, goto, ancestor. cbn [pathlib.anchored pathlib.parts].
  destruct (FS.namei (root w) (start_of w (pathlib.anchored p))
                     ("." :: pathlib.parts p)) as [e|pos] eqn:G; [discriminate|].
  intros Hd. rewrite <- (firstn_skipn k (pathlib.parts p)) in G.
  change ("." :: firstn k (pathlib.parts p) ++ skipn k (pathlib.parts p))
    with (("." :: firstn k (pathlib.parts p)) ++ skipn k (pathlib.parts p)) in G.
  destruct (namei_prefix _ _ _ _ _ G) as (p1 & H1 & H2). rewrite H1.
  destruct (skipn k (pathlib.parts p)) as [|c cs].
  - rewrite app_nil_r, H1 in G. injection G as ->. exact Hd.
  - apply H2. discriminate.
Qed.

(** Whatever [make_folder] raises is an [OSError] of the file system. *)
Lemma os_mkdir_error (path : string) (w w' : world) (e : Py.exn) :
  os.mkdir path w = (inl e, w') -> Py.is_OSError e = true.
Proof.
  rewrite os_mkdir_eq.
  destruct (FS.resolve (root w) (cwd w) path) as [e0|pos] eqn:R.
  - intros [= <- _]. eapply resolve_error; eassumption.
  - destruct (FS.lookup (root w) pos); [now intros [= <- _]|discriminate].
Qed.

Lemma mkdir_flat_error (p : pathlib.Path) (ok : bool) (w w' : world) (e : Py.exn) :
  pathlib.mkdir_flat p ok w = (inl e, w') -> Py.is_OSError e = true.
Proof.
  unfold pathlib.mkdir_flat, catch.
  destruct (os.mkdir (pathlib.to_string p) w) as [[e0|[]] w0] eqn:Hmk; [|discriminate].
  pose proof (os_mkdir_error _ _ _ _ Hmk) as He0.
  destruct e0; try discriminate; cbn [Py.is_OSError];
    try (now intros [= <- _]);
    unfold bind, pathlib.is_dir; rewrite os_path_isdir_eq;
    match goal with
    | |- context [negb ok || negb ?d] => destruct (negb ok || negb d)
    end; try discriminate; now intros [= <- _].
Qed.

Lemma mkdir_parents_error (n : nat) :
  forall (p : pathlib.Path) (ok : bool) (w w' : world) (e : Py.exn),
    pathlib.mkdir_parents n p ok w = (inl e, w') -> Py.is_OSError e = true.
Proof.
  induction n as [|n IH]; intros p ok w w' e; cbn [pathlib.mkdir_parents];
    unfold catch;
    destruct (os.mkdir (pathlib.to_string p) w) as [[e0|[]] w0] eqn:Hmk;
    try discriminate;
    pose proof (os_mkdir_error _ _ _ _ Hmk) as He0;
    (destruct e0; try discriminate; cbn [Py.is_OSError];
     try (now intros [= <- _]);
     try (unfold bind, pathlib.is_dir; rewrite os_path_isdir_eq;
          match goal with
          | |- context [negb ok || negb ?d] => destruct (negb ok || negb d)
          end; try discriminate; now intros [= <- _])).
  unfold bind.
  destruct (pathlib.mkdir_parents n (pathlib.parent p) true w0) as [[e1|[]] w1] eqn:Hrec.
  - intros [= <- _]. eapply IH; eassumption.
  - apply mkdir_flat_error.
Qed.

Lemma make_folder_only_OSError (folder : string) (w w' : world) (e : Py.exn) :
  make_folder folder w = (inl e, w') -> Py.is_OSError e = true.
Proof. unfold make_folder, pathlib.mkdir. apply mkdir_parents_error. Qed.

(** Dropping the empty components and the dots of a path that resolves
    does not change where it leads. *)
Lemma namei_filter (t : FS.node) (cs : list string) :
  forall pos p,
    FS.namei t pos cs = inr p ->
    FS.namei t pos (filter (fun c => negb (String.eqb c "" || String.eqb c ".")) cs)
    = inr p.
Proof.
  induction cs as [|c cs IH]; intros pos p; cbn [FS.namei filter]; [trivial|].
  destruct (FS.lookup t pos) as [[| |es]|] eqn:L; try discriminate.
  intros H. destruct (String.eqb c "" || String.eqb c ".") eqn:E; cbn [negb].
  - apply IH. unfold FS.step in H. now rewrite E in H.
  - cbn [FS.namei]. rewrite L. now apply IH.
Qed.

(** [Path(folder)] leads where [folder] leads. *)
Lemma goto_of_string (w : world) (folder : string) (pos : FS.position) :
  FS.resolve (root w) (cwd w) folder = inr pos ->
  goto w (pathlib.of_string folder) = inr pos.
Proof.
  unfold FS.resolve. destruct (String.eqb folder ""); [discriminate|].
  intros H.
  assert (Es : FS.start (cwd w) folder = start_of w (Py.startswith folder "/"))
    by reflexivity.
  rewrite Es in H. clear Es. unfold goto, pathlib.of_string.
  cbn [pathlib.anchored pathlib.parts].
  set (s := start_of w (Py.startswith folder "/")) in *. revert H.
  intros H. cbn [FS.namei]. change (FS.step s ".") with s.
  pose proof (split_not_nil "/" folder) as Hne.
  destruct (Py.split "/" folder) as [|c cs] eqn:E; [contradiction|].
  assert (Hd : FS.is_dir (FS.lookup (root w) s) = true).
  { cbn [FS.namei] in H.
    destruct (FS.lookup (root w) s) as [[| |]|]; (discriminate || reflexivity). }
  destruct (FS.lookup (root w) s) as [[| |]|]; try discriminate.
  now apply namei_filter.
Qed.

(** A path that gets to a directory started at one. *)
Lemma namei_start_dir (t : FS.node) (cs : list string) (pos p : FS.position) :
  FS.namei t pos cs = inr p ->
  FS.is_dir (FS.lookup t p) = true ->
  FS.is_dir (FS.lookup t pos) = true.
Proof.
  destruct cs as [|c cs]; cbn [FS.namei]; [now intros [= <-]|].
  destruct (FS.lookup t pos) as [[| |]|]; (discriminate || reflexivity).
Qed.

(** The other way round, for a path that leads to a directory: the
    empty components and the dots of the string find directories where
    they are looked up. *)
Lemma namei_unfilter (t : FS.node) (cs : list string) :
  forall pos p,
    FS.namei t pos (filter (fun c => negb (String.eqb c "" || String.eqb c ".")) cs)
    = inr p ->
    FS.is_dir (FS.lookup t p) = true ->
    FS.namei t pos cs = inr p.
Proof.
  induction cs as [|c cs IH]; intros pos p; cbn [filter]; [trivial|].
  destruct (String.eqb c "" || String.eqb c ".") eqn:E; cbn [negb]; intros H Hd.
  - pose proof (namei_start_dir _ _ _ _ H Hd) as Hpos. cbn [FS.namei].
    destruct (FS.lookup t pos) as [[| |]|]; try discriminate.
    unfold FS.step. rewrite E. now apply IH.
  - cbn [FS.namei] in H |- *.
    destruct (FS.lookup t pos) as [[| |]|]; try discriminate. now apply IH.
Qed.

(** When [Path(folder)] names a directory, so does the string
    [folder]. *)
Lemma isdir_of_string (w : world) (folder : string) :
  folder <> "" ->
  dir_at w (pathlib.of_string folder) = true ->
  os.path_isdir folder w = (inr true, w).
Proof.
  intros Hne. unfold dir_at, goto, pathlib.of_string.
  cbn [pathlib.anchored pathlib.parts].
  assert (Es : start_of w (Py.startswith folder "/") = FS.start (cwd w) folder)
    by reflexivity.
  rewrite Es. cbn [FS.namei].
  change (FS.step (FS.start (cwd w) folder) ".") with (FS.start (cwd w) folder).
  destruct (FS.lookup (root w) (FS.start (cwd w) folder)) as [[| |es0]|];
    try discriminate.
  destruct (FS.namei (root w) (FS.start (cwd w) folder)
              (filter (fun c => negb (String.eqb c "" || String.eqb c "."))
                      (Py.split "/" folder))) as [e|pos] eqn:G; [discriminate|].
  intros Hd. rewrite os_path_isdir_eq. unfold stat_of, FS.resolve.
  destruct (String.eqb_spec folder ""); [contradiction|].
  rewrite (namei_unfilter _ _ _ _ G Hd).
  now destruct (FS.lookup (root w) pos) as [[| |]|].
Qed.

(** ... and the other way round. *)
Lemma of_string_isdir (w : world) (folder : string) :
  os.path_isdir folder w = (inr true, w) ->
  dir_at w (pathlib.of_string folder) = true.
Proof.
  rewrite os_path_isdir_eq. unfold stat_of, dir_at.
  destruct (FS.resolve (root w) (cwd w) folder) as [e|pos] eqn:R; [discriminate|].
  rewrite (goto_of_string w folder pos R).
  now destruct (FS.lookup (root w) pos) as [[| |]|].
Qed.

(** Before a slash of a path that names a directory stands a path that
    names a directory. *)
Lemma isdir_before_slash (w : world) (a b : string) :
  a <> "" ->
  os.path_isdir (a ++ "/" ++ b) w = (inr true, w) ->
  os.path_isdir a w = (inr true, w).
Proof.
  intros Ha. rewrite !os_path_isdir_eq. unfold stat_of, FS.resolve.
  destruct (String.eqb_spec a ""); [contradiction|].
  destruct (String.eqb (a ++ "/" ++ b) ""); [discriminate|].
  unfold FS.start. rewrite (startswith_app a ("/" ++ b) "/"%char Ha).
  change (a ++ "/" ++ b)%string with (a ++ String "/" b)%string.
  rewrite split_app_sep.
  destruct (FS.namei (root w) _ (Py.split "/" a ++ Py.split "/" b)) as [e|pos] eqn:G;
    [discriminate|].
  destruct (namei_prefix _ _ _ _ _ G) as (p1 & -> & Hd). intros _.
  specialize (Hd (split_not_nil "/" b)).
  now destruct (FS.lookup (root w) p1) as [[| |]|].
Qed.

(** Empty components and dots do not count for the way being clear. *)
Lemma clear_way_filter (t : FS.node) (cs : list string) :
  forall pos,
    clear_way t pos (filter (fun c => negb (String.eqb c "" || String.eqb c ".")) cs)
    = clear_way t pos cs.
Proof.
  induction cs as [|c cs IH]; intros pos; cbn [filter]; [reflexivity|].
  destruct (String.eqb c "" || String.eqb c ".") eqn:E; cbn [negb clear_way].
  - rewrite IH. unfold FS.step. rewrite E.
    destruct cs; cbn [clear_way]; now destruct (FS.lookup t pos) as [[| |]|].
  - now rewrite IH.
Qed.

Lemma unobstructed_path_eq (w : world) (folder : string) :
  unobstructed_path w folder = unobstructed w (pathlib.of_string folder).
Proof.
  unfold unobstructed_path, unobstructed, pathlib.of_string.
  cbn [pathlib.anchored pathlib.parts]. now rewrite clear_way_filter.
Qed.

(** C8.  The errors of the file system that this tree can give are a
    missing start and something that is not a directory on the way
    ([unobstructed_path] is false), and [make_folder] raises nothing but
    such errors ([make_folder_only_OSError]).  Absent those,
    [make_folder] returns without an exception; afterwards the path, as
    the caller wrote it, names a directory, and so does what stands
    before each of its slashes: the missing ancestors have been made;
    nothing but directories has been added; a second call returns without
    an exception and leaves the world as the first call left it; and if
    the path named a directory before the first call, that call changed
    nothing either. *)
Theorem make_folder_idempotent (folder : string) (w : world) :
  unobstructed_path w folder = true ->
  exists w',
    make_folder folder w = (inr tt, w')
    /\ (folder <> "" -> os.path_isdir folder w' = (inr true, w'))
    /\ (forall a b, folder = (a ++ "/" ++ b)%string -> a <> "" ->
                    os.path_isdir a w' = (inr true, w'))
    /\ grew w w'
    /\ make_folder folder w' = (inr tt, w')
    /\ (os.path_isdir folder w = (inr true, w) -> w' = w).
Proof.
  rewrite unobstructed_path_eq. intros Hun. set (p := pathlib.of_string folder) in *.
  pose proof (of_string_parts folder) as Hparts. fold p in Hparts.
  destruct (mkdir_parents_ok _ p w eq_refl Hparts Hun) as (w' & Hrun & Hgrew & Hdir).
  assert (Hraw : folder <> "" -> os.path_isdir folder w' = (inr true, w'))
    by (intros Hne; now apply isdir_of_string).
  exists w'. unfold make_folder, pathlib.mkdir. fold p.
  split; [exact Hrun|]. split; [exact Hraw|]. split; [|split; [exact Hgrew|split]].
  - intros a b -> Ha. apply isdir_before_slash with b; [exact Ha|].
    apply Hraw. destruct a; [contradiction | discriminate].
  - now apply mkdir_on_dir.
  - intros Hd. apply of_string_isdir in Hd. fold p in Hd.
    destruct (mkdir_on_dir p Hparts w Hd) as [Hsame _].
    rewrite Hsame in Hrun. now injection Hrun.
Qed.

Lemma make_folder_idempotent_witness :
  unobstructed_path example_world "results/run1/logs" = true
  /\ exists w',
       make_folder "results/run1/logs" example_world = (inr tt, w')
       /\ ("results/run1/logs" <> "" ->
           os.path_isdir "results/run1/logs" w' = (inr true, w'))
       /\ (forall a b, "results/run1/logs" = (a ++ "/" ++ b)%string -> a <> "" ->
                       os.path_isdir a w' = (inr true, w'))
       /\ grew example_world w'
       /\ make_folder "results/run1/logs" w' = (inr tt, w')
       /\ (os.path_isdir "results/run1/logs" example_world = (inr true, example_world)
           -> w' = example_world).
Proof.
  split; [reflexivity|].
  apply (make_folder_idempotent "results/run1/logs" example_world). reflexivity.
Defined.

(** What the hypothesis of C8 leaves out: a regular file where the
    directory should be, or on the way to it, is an error of the file
    system that [exist_ok] does not swallow; nothing is made. *)
Example make_folder_obstructed :
  make_folder "taxonomy.tsv" example_world = (inl Py.FileExistsError, example_world)
  /\ make_folder "taxonomy.tsv/logs" example_world
     = (inl Py.NotADirectoryError, example_world)
  /\ unobstructed_path example_world "taxonomy.tsv" = false
  /\ unobstructed_path example_world "taxonomy.tsv/logs" = false.
Proof. repeat split. Qed.

Example make_folder_makes_ancestors :
  root (snd (make_folder "results/../out/./logs/" example_world))
  = FS.update
      (FS.update
         (FS.update (root example_world) ["home"; "results"] (Some (FS.Dir [])))
         ["home"; "out"] (Some (FS.Dir [])))
      ["home"; "out"; "logs"] (Some (FS.Dir [])).
Proof. reflexivity. Qed.

End Folders.

(** ** The dispatchers, case by case *)

Section DispatchCases.

Import Qiime2Methods.

Lemma pool_closed {A} (n : Z) (body : M A) (w : world) :
  (n <= 0)%Z -> futures.ThreadPoolExecutor n body w = (inl Py.ValueError, w).
Proof.
  intros H. unfold futures.ThreadPoolExecutor.
  destruct (Z.leb_spec n 0); [reflexivity|lia].
Qed.

(** Fewer than four processors leave no worker: [int(cpu / 4)] is zero,
    or negative for a negative budget. *)
Lemma int_div4_small (cpu : Z) :
  (- 2 ^ 53 < cpu < 4)%Z -> exists n, Py.int_div4 cpu = inr n /\ (n <= 0)%Z.
Proof.
  intros [H0 H1]. exists (Z.quot cpu 4). unfold Py.int_div4.
  rewrite round53_small by lia.
  assert (2 ^ 53 < 2 ^ 1026)%Z by (apply Z.pow_lt_mono_r; lia).
  destruct (Z.leb_spec (2 ^ 1026) (Z.abs cpu)) as [Hbig|_]; [lia|].
  split; [reflexivity|].
  destruct (Z.le_gt_cases 0 cpu) as [Hpos|Hneg].
  - rewrite Z.quot_small by lia. lia.
  - apply Z.quot_le_upper_bound; lia.
Qed.

Lemma quarter_pos (cpu : Z) : (4 <= cpu)%Z -> (0 < cpu / 4)%Z.
Proof. intros H. apply Z.div_str_pos. lia. Qed.

(** A pool whose tasks each run one program, fed by a generator that
    raises at some item: the items before it have run, those after it are
    never looked at. *)
Lemma futures_map_stops {X A} (fn : A -> M unit) (arg : X -> Py.exn + A)
  (cmd : X -> list string) (e : Py.exn) (xs : list X) (bad : X) (rest : list X) :
  (forall x, In x xs ->
     exists a, arg x = inr a /\ forall w, fn a w = (inr tt, after_run w (cmd x))) ->
  arg bad = inl e ->
  forall w : world,
    futures.map fn (List.map arg (xs ++ bad :: rest)) w
    = (inl e, after_runs w (List.map cmd xs)).
Proof.
  intros H Hbad. induction xs as [|x xs IH]; intros w.
  - cbn [app List.map futures.map]. now rewrite Hbad.
  - destruct (H x (or_introl eq_refl)) as (a & Ha & Hfn).
    cbn [app List.map futures.map]. rewrite Ha. unfold bind, attempt. rewrite Hfn.
    rewrite IH by (intros y Hy; apply H; now right). reflexivity.
Qed.

Lemma index_short (files : list string) :
  (length files < 2)%nat ->
  match Py.index files 0, Py.index files 1 with
  | inr _, inr _ => False
  | inl e, _ | _, inl e => e = Py.IndexError
  end.
Proof. destruct files as [|a [|b l]]; simpl; try lia; reflexivity. Qed.

(** X1.  With a budget of four processors or more (below [2 ^ 53]),
    [extract_its_se_parallel] returns normally after one [itsxpress] run
    per file of the list, in the order of the list, each with the file's
    own arguments and [floor(cpu / 4)] threads; the exit statuses play no
    part.  (The pool is taken in its submission-order schedule.) *)
Theorem extract_its_se_parallel_one_run_per_file
  (fastq_list : list string) (output_folder log_folder : string) (cpu : Z) (w : world) :
  (4 <= cpu < 2 ^ 53)%Z ->
  exists w',
    extract_its_se_parallel fastq_list output_folder log_folder cpu w = (inr tt, w')
    /\ w' = after_runs w (List.map (fun fastq =>
                            extract_its_se_cmd fastq output_folder log_folder (cpu / 4))
                          fastq_list)
    /\ calls w' = calls w ++ List.map (fun fastq =>
                     extract_its_se_cmd fastq output_folder log_folder (cpu / 4)) fastq_list.
Proof.
  intros H. eexists. split; [|split; [reflexivity|apply calls_after_runs]].
  apply extract_its_se_parallel_runs; [apply int_div4_exact; lia | apply quarter_pos; lia].
Qed.

Lemma extract_its_se_parallel_one_run_per_file_witness :
  (4 <= 8 < 2 ^ 53)%Z
  /\ exists w',
       extract_its_se_parallel ["/d/s1_R1.fastq"; "/d/s2_R1.fastq"] "out" "log" 8
                               example_world = (inr tt, w')
       /\ w' = after_runs example_world
                 (List.map (fun fastq => extract_its_se_cmd fastq "out" "log" (8 / 4))
                           ["/d/s1_R1.fastq"; "/d/s2_R1.fastq"])
       /\ calls w' = calls example_world
                     ++ List.map (fun fastq => extract_its_se_cmd fastq "out" "log" (8 / 4))
                                 ["/d/s1_R1.fastq"; "/d/s2_R1.fastq"].
Proof.
  split; [split; [discriminate | reflexivity]|].
  apply (extract_its_se_parallel_one_run_per_file
           ["/d/s1_R1.fastq"; "/d/s2_R1.fastq"] "out" "log" 8 example_world).
  split; [discriminate | reflexivity].
Defined.

(** X2.  With a budget of four processors or more (below [2 ^ 53]) and
    samples of at least two files each, [extract_its_pe_parallel] returns
    normally after one [itsxpress] run per sample, on the first two files
    of the sample with [floor(cpu / 4)] threads; the sample name and any
    further file are not used.  (The pool is taken in its submission-order
    schedule, one of those a pool of several workers allows: the order of
    the runs in the log, that of the dictionary, is the order of that
    schedule and not one the code fixes.) *)
Theorem extract_its_pe_parallel_one_run_per_sample
  (samples : sample_dict) (output_folder log_folder : string) (cpu : Z) (w : world) :
  (4 <= cpu < 2 ^ 53)%Z ->
  Forall (fun s => (2 <= length (snd s))%nat) samples ->
  exists w',
    extract_its_pe_parallel samples output_folder log_folder cpu w = (inr tt, w')
    /\ w' = after_runs w (List.map (fun s =>
                            extract_its_pe_cmd (fst (mates s)) (snd (mates s))
                                               output_folder log_folder (cpu / 4))
                          samples)
    /\ calls w' = calls w ++ List.map (fun s =>
                     extract_its_pe_cmd (fst (mates s)) (snd (mates s))
                                        output_folder log_folder (cpu / 4)) samples.
Proof.
  intros H Hall. eexists. split; [|split; [reflexivity|apply calls_after_runs]].
  apply extract_its_pe_parallel_runs;
    [apply int_div4_exact; lia | apply quarter_pos; lia | exact Hall].
Qed.

Lemma extract_its_pe_parallel_one_run_per_sample_witness :
  (4 <= 8 < 2 ^ 53)%Z
  /\ Forall (fun s : string * list string => (2 <= length (snd s))%nat)
            [("s1", ["s1_R1.fq"; "s1_R2.fq"; "s1_I1.fq"])]
  /\ exists w',
       extract_its_pe_parallel [("s1", ["s1_R1.fq"; "s1_R2.fq"; "s1_I1.fq"])] "out" "log" 8
                               example_world = (inr tt, w')
       /\ w' = after_runs example_world
                 (List.map (fun s => extract_its_pe_cmd (fst (mates s)) (snd (mates s))
                                                        "out" "log" (8 / 4))
                           [("s1", ["s1_R1.fq"; "s1_R2.fq"; "s1_I1.fq"])])
       /\ calls w' = calls example_world
                     ++ List.map (fun s => extract_its_pe_cmd (fst (mates s)) (snd (mates s))
                                                              "out" "log" (8 / 4))
                                 [("s1", ["s1_R1.fq"; "s1_R2.fq"; "s1_I1.fq"])].
Proof.
  split; [split; [discriminate | reflexivity]|].
  split; [repeat constructor|].
  apply (extract_its_pe_parallel_one_run_per_sample
           [("s1", ["s1_R1.fq"; "s1_R2.fq"; "s1_I1.fq"])] "out" "log" 8 example_world).
  - split; [discriminate | reflexivity].
  - repeat constructor.
Defined.

(** X3.  [fix_fastq_se_parallel] on every input: a pool size [cpu] of
    zero or less is refused with [ValueError] before anything runs;
    otherwise the method returns normally after one run of the clean-up
    script per file of the list.  (The pool is taken in its
    submission-order schedule, one of those a pool of several workers
    allows: the order of the runs in the log, that of the list, is the
    order of that schedule and not one the code fixes.) *)
Theorem fix_fastq_se_parallel_on_every_input
  (fastq_list : list string) (cpu : Z) (w : world) :
  fix_fastq_se_parallel fastq_list cpu w
  = if (cpu <=? 0)%Z then (inl Py.ValueError, w)
    else (inr tt, after_runs w (List.map fix_fastq_se_cmd fastq_list)).
Proof.
  destruct (Z.leb_spec cpu 0) as [H|H].
  - unfold fix_fastq_se_parallel. now apply pool_closed.
  - now apply fix_fastq_se_parallel_runs.
Qed.

(** X4.  With a pool size [cpu] of one or more and samples of at least
    two files each, [fix_fastq_pe_parallel] returns normally after one run
    of the clean-up script per sample, on the first two files of the
    sample.  (The pool is taken in its submission-order schedule, one of
    those a pool of several workers allows: the order of the runs in the
    log, that of the dictionary, is the order of that schedule and not one
    the code fixes.) *)
Theorem fix_fastq_pe_parallel_one_run_per_sample
  (samples : sample_dict) (cpu : Z) (w : world) :
  (0 < cpu)%Z ->
  Forall (fun s => (2 <= length (snd s))%nat) samples ->
  exists w',
    fix_fastq_pe_parallel samples cpu w = (inr tt, w')
    /\ w' = after_runs w (List.map (fun s =>
                            fix_fastq_pe_cmd (fst (mates s)) (snd (mates s))) samples)
    /\ calls w' = calls w ++ List.map (fun s =>
                     fix_fastq_pe_cmd (fst (mates s)) (snd (mates s))) samples.
Proof.
  intros H Hall. eexists. split; [|split; [reflexivity|apply calls_after_runs]].
  now apply fix_fastq_pe_parallel_runs.
Qed.

Lemma fix_fastq_pe_parallel_one_run_per_sample_witness :
  (0 < 2)%Z
  /\ Forall (fun s : string * list string => (2 <= length (snd s))%nat)
            [("s1", ["s1_R1.fq"; "s1_R2.fq"]); ("s2", ["s2_R1.fq"; "s2_R2.fq"])]
  /\ exists w',
       fix_fastq_pe_parallel
         [("s1", ["s1_R1.fq"; "s1_R2.fq"]); ("s2", ["s2_R1.fq"; "s2_R2.fq"])] 2
         example_world = (inr tt, w')
       /\ w' = after_runs example_world
                 (List.map (fun s => fix_fastq_pe_cmd (fst (mates s)) (snd (mates s)))
                    [("s1", ["s1_R1.fq"; "s1_R2.fq"]); ("s2", ["s2_R1.fq"; "s2_R2.fq"])])
       /\ calls w' = calls example_world
                     ++ List.map (fun s => fix_fastq_pe_cmd (fst (mates s)) (snd (mates s)))
                          [("s1", ["s1_R1.fq"; "s1_R2.fq"]); ("s2", ["s2_R1.fq"; "s2_R2.fq"])].
Proof.
  split; [lia|]. split; [repeat constructor|].
  apply (fix_fastq_pe_parallel_one_run_per_sample
           [("s1", ["s1_R1.fq"; "s1_R2.fq"]); ("s2", ["s2_R1.fq"; "s2_R2.fq"])] 2
           example_world); [lia | repeat constructor].
Defined.

(** X5.  With fewer than four processors the two ITS dispatchers cannot
    work: [int(cpu / 4)] is not positive, the pool refuses that size with
    [ValueError], and no program is run, whatever the list holds. *)
Theorem its_dispatchers_need_four_processors
  (fastq_list : list string) (samples : sample_dict)
  (output_folder log_folder : string) (cpu : Z) (w : world) :
  (- 2 ^ 53 < cpu < 4)%Z ->
  extract_its_se_parallel fastq_list output_folder log_folder cpu w
  = (inl Py.ValueError, w)
  /\ extract_its_pe_parallel samples output_folder log_folder cpu w
     = (inl Py.ValueError, w).
Proof.
  intros H. destruct (int_div4_small cpu H) as (n & Hn & Hle).
  unfold extract_its_se_parallel, extract_its_pe_parallel. rewrite Hn.
  unfold bind, lift. split; now apply pool_closed.
Qed.

Lemma its_dispatchers_need_four_processors_witness :
  (- 2 ^ 53 < 3 < 4)%Z
  /\ extract_its_se_parallel ["s1_R1.fastq"] "out" "log" 3 example_world
     = (inl Py.ValueError, example_world)
  /\ extract_its_pe_parallel [("s1", ["s1_R1.fastq"; "s1_R2.fastq"])] "out" "log" 3
                             example_world
     = (inl Py.ValueError, example_world).
Proof.
  split; [split; reflexivity|].
  apply (its_dispatchers_need_four_processors
           ["s1_R1.fastq"] [("s1", ["s1_R1.fastq"; "s1_R2.fastq"])] "out" "log" 3
           example_world).
  split; reflexivity.
Defined.

(** X6.  A sample with fewer than two files stops [fix_fastq_pe_parallel]:
    the samples before it in the dictionary have had their run, the
    generator of the arguments raises [IndexError] at the short sample,
    and nothing is run for that sample or for any later one. *)
Theorem fix_fastq_pe_parallel_short_sample
  (before after : sample_dict) (name : string) (files : list string) (cpu : Z)
  (w : world) :
  (0 < cpu)%Z ->
  Forall (fun s => (2 <= length (snd s))%nat) before ->
  (length files < 2)%nat ->
  fix_fastq_pe_parallel (before ++ (name, files) :: after) cpu w
  = (inl Py.IndexError,
     after_runs w (List.map (fun s => fix_fastq_pe_cmd (fst (mates s)) (snd (mates s)))
                            before)).
Proof.
  intros Hpos Hall Hshort. unfold fix_fastq_pe_parallel.
  rewrite pool_open by assumption. unfold bind.
  rewrite (futures_map_stops fix_fastq_pe_star _
             (fun s => fix_fastq_pe_cmd (fst (mates s)) (snd (mates s)))
             Py.IndexError).
  - reflexivity.
  - intros [k l] Hin. rewrite Forall_forall in Hall.
    destruct (index_mates (k, l) (Hall _ Hin)) as [H0 H1]. simpl in H0, H1.
    rewrite H0, H1. eexists; split; [reflexivity|].
    intros w0. apply fix_fastq_pe_after_run.
  - pose proof (index_short files Hshort) as Hi.
    destruct (Py.index files 0), (Py.index files 1); try contradiction; now subst.
Qed.

Lemma fix_fastq_pe_parallel_short_sample_witness :
  (0 < 2)%Z
  /\ Forall (fun s : string * list string => (2 <= length (snd s))%nat)
            [("s1", ["s1_R1.fq"; "s1_R2.fq"])]
  /\ (length ["s2_R1.fq"] < 2)%nat
  /\ fix_fastq_pe_parallel
       ([("s1", ["s1_R1.fq"; "s1_R2.fq"])] ++ ("s2", ["s2_R1.fq"])
          :: [("s3", ["s3_R1.fq"; "s3_R2.fq"])]) 2 example_world
     = (inl Py.IndexError,
        after_runs example_world
          (List.map (fun s => fix_fastq_pe_cmd (fst (mates s)) (snd (mates s)))
                    [("s1", ["s1_R1.fq"; "s1_R2.fq"])])).
Proof.
  split; [lia|]. split; [repeat constructor|]. split; [simpl; lia|].
  apply (fix_fastq_pe_parallel_short_sample
           [("s1", ["s1_R1.fq"; "s1_R2.fq"])] [("s3", ["s3_R1.fq"; "s3_R2.fq"])]
           "s2" ["s2_R1.fq"] 2 example_world);
    [lia | repeat constructor | simpl; lia].
Defined.

(** X7.  A sample with fewer than two files stops
    [extract_its_pe_parallel] in the same way: with four processors or
    more, the samples before it have had their [itsxpress] run, then
    [IndexError] is raised and no later sample is processed. *)
Theorem extract_its_pe_parallel_short_sample
  (before after : sample_dict) (name : string) (files : list string)
  (output_folder log_folder : string) (cpu : Z) (w : world) :
  (4 <= cpu < 2 ^ 53)%Z ->
  Forall (fun s => (2 <= length (snd s))%nat) before ->
  (length files < 2)%nat ->
  extract_its_pe_parallel (before ++ (name, files) :: after) output_folder log_folder cpu w
  = (inl Py.IndexError,
     after_runs w (List.map (fun s =>
                     extract_its_pe_cmd (fst (mates s)) (snd (mates s))
                                        output_folder log_folder (cpu / 4)) before)).
Proof.
  intros Hcpu Hall Hshort. unfold extract_its_pe_parallel.
  rewrite int_div4_exact by lia. unfold bind at 1, lift.
  rewrite pool_open by (apply quarter_pos; lia). unfold bind.
  rewrite (futures_map_stops extract_its_pe_star _
             (fun s => extract_its_pe_cmd (fst (mates s)) (snd (mates s))
                                          output_folder log_folder (cpu / 4))
             Py.IndexError).
  - reflexivity.
  - intros [k l] Hin. rewrite Forall_forall in Hall.
    destruct (index_mates (k, l) (Hall _ Hin)) as [H0 H1]. simpl in H0, H1.
    rewrite H0, H1. eexists; split; [reflexivity|].
    intros w0. apply extract_its_pe_after_run.
  - pose proof (index_short files Hshort) as Hi.
    destruct (Py.index files 0), (Py.index files 1); try contradiction; now subst.
Qed.

Lemma extract_its_pe_parallel_short_sample_witness :
  (4 <= 8 < 2 ^ 53)%Z
  /\ Forall (fun s : string * list string => (2 <= length (snd s))%nat)
            [("s1", ["s1_R1.fq"; "s1_R2.fq"])]
  /\ (length (@nil string) < 2)%nat
  /\ extract_its_pe_parallel
       ([("s1", ["s1_R1.fq"; "s1_R2.fq"])] ++ ("s2", [])
          :: [("s3", ["s3_R1.fq"; "s3_R2.fq"])]) "out" "log" 8 example_world
     = (inl Py.IndexError,
        after_runs example_world
          (List.map (fun s => extract_its_pe_cmd (fst (mates s)) (snd (mates s))
                                                 "out" "log" (8 / 4))
                    [("s1", ["s1_R1.fq"; "s1_R2.fq"])])).
Proof.
  split; [split; [discriminate | reflexivity]|].
  split; [repeat constructor|]. split; [simpl; lia|].
  apply (extract_its_pe_parallel_short_sample
           [("s1", ["s1_R1.fq"; "s1_R2.fq"])] [("s3", ["s3_R1.fq"; "s3_R2.fq"])]
           "s2" [] "out" "log" 8 example_world);
    [split; [discriminate | reflexivity] | repeat constructor | simpl; lia].
Defined.

(** X8.  [rc_fastq_parallel] runs no program on any input, and it returns
    normally only for an empty list: the world is always left as it was,
    and the outcome is the error of [int(cpu / 4)] if there is one,
    [ValueError] for a pool without workers, [TypeError] as soon as the
    list holds a file, and [None] otherwise. *)
Theorem rc_fastq_parallel_runs_no_program
  (fastq_list : list string) (output_folder : string) (cpu : Z) (w : world) :
  rc_fastq_parallel fastq_list output_folder cpu w
  = (match Py.int_div4 cpu with
     | inl e => inl e
     | inr n =>
         if (n <=? 0)%Z then inl Py.ValueError
         else match fastq_list with
              | [] => inr tt
              | _ :: _ => inl Py.TypeError
              end
     end, w).
Proof.
  unfold rc_fastq_parallel.
  destruct (Py.int_div4 cpu) as [e|n] eqn:Hn; [reflexivity|].
  unfold bind at 1, lift.
  destruct (Z.leb_spec n 0) as [H|H]; [now apply pool_closed|].
  rewrite pool_open by assumption. unfold bind.
  rewrite (futures_map_raises extract_its_se_star _ Py.TypeError).
  - now destruct fastq_list.
  - intros x _. eexists; split; [reflexivity|]. intros w0. reflexivity.
Qed.

(** X9.  The catalogue methods compose into pipelines that never stop
    early: called one after the other, every method of the sequence runs
    its program, in order, and the sequence returns normally, whatever the
    exit status of any step. *)
Theorem pipeline_runs_every_step (steps : list method_call) (w : world) :
  for_each steps invoke w = (inr tt, after_runs w (List.map argv steps))
  /\ calls (after_runs w (List.map argv steps)) = calls w ++ List.map argv steps.
Proof.
  split; [|apply calls_after_runs]. revert w.
  induction steps as [|c steps IH]; intros w; [reflexivity|].
  cbn [for_each List.map]. unfold bind. rewrite invoke_after_run. apply IH.
Qed.

End DispatchCases.

(** ** The files [itsxpress] is told to write *)

Section Names.

Import Qiime2Methods.






End Names.

(** ** [make_folder] on every path *)

Section FolderOutcomes.

Import Qiime2Methods.

(** A new, empty directory where nothing was: every file stays. *)
Lemma mkdir_keeps_files_conv (pos : FS.position) :
  forall t q n,
    FS.lookup t pos = None ->
    FS.lookup t q = Some n ->
    FS.is_dir (Some n) = false ->
    FS.lookup (FS.update t pos (Some (FS.Dir []))) q = Some n.
Proof.
  induction pos as [|c pos' IH]; intros t q n Hpos Hq Hn; [exact Hq|].
  destruct t as [| |es]; try exact Hq.
  destruct q as [|d q'].
  - exfalso. simpl in Hq. injection Hq as <-. discriminate.
  - cbn [FS.update]. destruct pos' as [|x xs].
    + cbn [FS.lookup] in *.
      destruct (String.eqb_spec c d) as [->|Hne].
      * exfalso. destruct (FS.assoc d es); discriminate.
      * now rewrite assoc_put_other.
    + cbn [FS.lookup] in Hq |- *.
      destruct (String.eqb_spec c d) as [->|Hne].
      * rewrite assoc_alter_same. cbn [FS.lookup] in Hpos.
        destruct (FS.assoc d es) as [child|]; simpl in *; [|discriminate].
        now apply IH.
      * now rewrite assoc_alter_other.
Qed.

Lemma keeps_files_refl (w : world) : keeps_files w w.
Proof. intros q n H _. exact H. Qed.

Lemma keeps_files_trans (w1 w2 w3 : world) :
  keeps_files w1 w2 -> keeps_files w2 w3 -> keeps_files w1 w3.
Proof. intros H1 H2 q n Hq Hn. apply H2; [now apply H1 | exact Hn]. Qed.

(** [os.mkdir] adds at most one empty directory. *)
Lemma os_mkdir_monotone (path : string) (w : world) :
  grew w (snd (os.mkdir path w)) /\ keeps_files w (snd (os.mkdir path w)).
Proof.
  rewrite os_mkdir_eq.
  destruct (FS.resolve (root w) (cwd w) path) as [e|pos];
    [split; [apply grew_refl | apply keeps_files_refl]|].
  destruct (FS.lookup (root w) pos) as [m|] eqn:L;
    [split; [apply grew_refl | apply keeps_files_refl]|].
  cbn [set_root snd]. split.
  - unfold grew. cbn [cwd programs calls root]. repeat split.
    + intros q Hq. apply update_keeps_dirs; [now rewrite L | assumption].
    + intros q n Hq Hn. now apply (mkdir_keeps_files pos (root w) q n).
  - intros q n Hq Hn. cbn [root]. now apply mkdir_keeps_files_conv.
Qed.

(** The handlers of [Path.mkdir] only look: the world is as [os.mkdir]
    left it. *)
Lemma mkdir_flat_world (p : pathlib.Path) (ok : bool) (w : world) :
  snd (pathlib.mkdir_flat p ok w) = snd (os.mkdir (pathlib.to_string p) w).
Proof.
  unfold pathlib.mkdir_flat, catch.
  destruct (os.mkdir (pathlib.to_string p) w) as [[e|[]] w0]; [|reflexivity].
  destruct e; cbn [Py.is_OSError]; try reflexivity;
    unfold bind, pathlib.is_dir; rewrite os_path_isdir_eq;
    match goal with
    | |- context [negb ok || negb ?d] => destruct (negb ok || negb d)
    end; reflexivity.
Qed.

Lemma mkdir_flat_monotone (p : pathlib.Path) (ok : bool) (w : world) :
  grew w (snd (pathlib.mkdir_flat p ok w))
  /\ keeps_files w (snd (pathlib.mkdir_flat p ok w)).
Proof. rewrite mkdir_flat_world. apply os_mkdir_monotone. Qed.

Lemma mkdir_parents_monotone (n : nat) :
  forall (p : pathlib.Path) (ok : bool) (w : world),
    grew w (snd (pathlib.mkdir_parents n p ok w))
    /\ keeps_files w (snd (pathlib.mkdir_parents n p ok w)).
Proof.
  induction n as [|n IH]; intros p ok w; cbn [pathlib.mkdir_parents];
    pose proof (os_mkdir_monotone (pathlib.to_string p) w) as Hmk;
    unfold catch;
    destruct (os.mkdir (pathlib.to_string p) w) as [[e|[]] w0]; cbn [snd] in Hmk;
    try exact Hmk;
    (destruct e; cbn [Py.is_OSError]; try exact Hmk;
     try (unfold bind, pathlib.is_dir; rewrite os_path_isdir_eq;
          match goal with
          | |- context [negb ok || negb ?d] => destruct (negb ok || negb d)
          end; exact Hmk)).
  unfold bind.
  pose proof (IH (pathlib.parent p) true w0) as Hrec.
  destruct (pathlib.mkdir_parents n (pathlib.parent p) true w0) as [[e1|[]] w1];
    cbn [snd] in Hrec.
  - cbn [snd]. destruct Hmk, Hrec.
    split; [now apply grew_trans with w0 | now apply keeps_files_trans with w0].
  - pose proof (mkdir_flat_monotone p ok w1) as Hflat.
    destruct Hmk, Hrec, Hflat. split.
    + apply grew_trans with w0; [assumption|]. now apply grew_trans with w1.
    + apply keeps_files_trans with w0; [assumption|].
      now apply keeps_files_trans with w1.
Qed.

(** A path that resolves starts at a directory. *)
Lemma goto_start_dir (w : world) (p : pathlib.Path) (pos : FS.position) :
  goto w p = inr pos ->
  FS.is_dir (FS.lookup (root w) (start_of w (pathlib.anchored p))) = true.
Proof.
  unfold goto. cbn [FS.namei].
  destruct (FS.lookup (root w) (start_of w (pathlib.anchored p))) as [[| |]|];
    (discriminate || reflexivity).
Qed.

Section OnePathOutcome.

Variable p : pathlib.Path.
Hypothesis Hparts : Forall (fun c => is_part c = true) (pathlib.parts p).

(** When [mkdir] returns normally, the path names a directory. *)
Lemma mkdir_flat_success (ok : bool) (w w' : world) :
  pathlib.mkdir_flat p ok w = (inr tt, w') -> dir_at w' p = true.
Proof.
  destruct (goto w p) as [e|pos] eqn:Hg.
  - unfold pathlib.mkdir_flat, catch.
    rewrite os_mkdir_eq, (resolve_to_string w p Hparts), Hg.
    destruct e; cbn [Py.is_OSError]; try discriminate;
      unfold bind; rewrite (pathlib_is_dir_eq p w Hparts); unfold dir_at; rewrite Hg;
      rewrite orb_true_r; discriminate.
  - destruct (FS.lookup (root w) pos) as [m|] eqn:L.
    + unfold pathlib.mkdir_flat, catch.
      rewrite os_mkdir_eq, (resolve_to_string w p Hparts), Hg, L.
      cbn [Py.is_OSError]. unfold bind. rewrite (pathlib_is_dir_eq p w Hparts).
      destruct (dir_at w p) eqn:Hd; destruct ok; cbn; try discriminate.
      now intros [= <-].
    + destruct (mkdir_on_vacant p Hparts w pos Hg L (goto_start_dir w p pos Hg))
        as (w1 & _ & H2 & _ & H4).
      rewrite H2. now intros [= <-].
Qed.

Lemma mkdir_parents_success (n : nat) (ok : bool) (w w' : world) :
  pathlib.mkdir_parents n p ok w = (inr tt, w') -> dir_at w' p = true.
Proof.
  destruct (goto w p) as [e|pos] eqn:Hg.
  - destruct n as [|n]; cbn [pathlib.mkdir_parents]; unfold catch;
      rewrite os_mkdir_eq, (resolve_to_string w p Hparts), Hg;
      (destruct e; cbn [Py.is_OSError]; try discriminate;
       try (unfold bind; rewrite (pathlib_is_dir_eq p w Hparts); unfold dir_at;
            rewrite Hg; rewrite orb_true_r; discriminate)).
    unfold bind.
    destruct (pathlib.mkdir_parents n (pathlib.parent p) true w) as [[e1|[]] w1];
      [discriminate|]. apply mkdir_flat_success.
  - destruct (FS.lookup (root w) pos) as [m|] eqn:L.
    + destruct n as [|n]; cbn [pathlib.mkdir_parents]; unfold catch;
        rewrite os_mkdir_eq, (resolve_to_string w p Hparts), Hg, L;
        cbn [Py.is_OSError]; unfold bind; rewrite (pathlib_is_dir_eq p w Hparts);
        (destruct (dir_at w p) eqn:Hd; destruct ok; cbn; try discriminate;
         now intros [= <-]).
    + destruct (mkdir_on_vacant p Hparts w pos Hg L (goto_start_dir w p pos Hg))
        as (w1 & H1 & _ & _ & H4).
      rewrite H1. now intros [= <-].
Qed.

(** On a path that names something that is no directory, [mkdir] raises
    the [FileExistsError] of the kernel again: [exist_ok] only covers
    directories. *)
Lemma mkdir_parents_on_file (n : nat) (w : world) (pos : FS.position) (m : FS.node) :
  goto w p = inr pos ->
  FS.lookup (root w) pos = Some m ->
  FS.is_dir (Some m) = false ->
  pathlib.mkdir_parents n p true w = (inl Py.FileExistsError, w).
Proof.
  intros Hg L Hm.
  destruct n as [|n]; cbn [pathlib.mkdir_parents]; unfold catch;
    rewrite os_mkdir_eq, (resolve_to_string w p Hparts), Hg, L;
    cbn [Py.is_OSError]; unfold bind; rewrite (pathlib_is_dir_eq p w Hparts);
    unfold dir_at; rewrite Hg, L, Hm; reflexivity.
Qed.

End OnePathOutcome.

(** X12.  Whatever the path and the tree, [make_folder] only ever adds
    directories: every directory is still a directory, every file is
    where it was and as it was, no file is new, no program is run.  When
    it returns normally the path, as the caller wrote it (and not
    empty), names a directory, and so does what stands before each of its
    slashes; when it raises, the exception is an [OSError]. *)
Theorem make_folder_only_adds_directories (folder : string) (w : world) :
  exists r w',
    make_folder folder w = (r, w')
    /\ grew w w'
    /\ keeps_files w w'
    /\ match r with
       | inr _ =>
           (folder <> "" -> os.path_isdir folder w' = (inr true, w'))
           /\ (forall a b, folder = (a ++ "/" ++ b)%string -> a <> "" ->
                           os.path_isdir a w' = (inr true, w'))
       | inl e => Py.is_OSError e = true
       end.
Proof.
  unfold make_folder, pathlib.mkdir.
  set (p := pathlib.of_string folder). set (n := length (pathlib.parts p)).
  pose proof (of_string_parts folder) as Hparts. fold p in Hparts.
  destruct (mkdir_parents_monotone n p true w) as [Hg Hk].
  destruct (pathlib.mkdir_parents n p true w) as [[e|[]] w'] eqn:Hrun;
    cbn [snd] in Hg, Hk.
  - exists (inl e), w'. split; [reflexivity|]. split; [assumption|].
    split; [assumption|]. eapply mkdir_parents_error; eassumption.
  - exists (inr tt), w'. split; [reflexivity|]. split; [assumption|].
    split; [assumption|].
    pose proof (mkdir_parents_success p Hparts n true w w' Hrun) as Hdir.
    assert (Hraw : folder <> "" -> os.path_isdir folder w' = (inr true, w'))
      by (intros Hne; now apply isdir_of_string).
    split; [exact Hraw|].
    intros a b -> Ha. apply isdir_before_slash with b; [exact Ha|].
    apply Hraw. destruct a; [contradiction | discriminate].
Qed.

(** X13.  [make_folder] on a path that names a regular or a special file
    raises [FileExistsError] and changes nothing: only an existing
    directory is accepted in silence. *)
Theorem make_folder_refuses_a_file (folder : string) (n : FS.node) (w : world) :
  os.stat folder w = (inr n, w) ->
  FS.is_dir (Some n) = false ->
  make_folder folder w = (inl Py.FileExistsError, w).
Proof.
  rewrite os_stat_eq. unfold stat_of. intros Hs Hn.
  destruct (FS.resolve (root w) (cwd w) folder) as [e|pos] eqn:R; [discriminate|].
  destruct (FS.lookup (root w) pos) as [m|] eqn:L; [|discriminate].
  injection Hs as ->.
  unfold make_folder, pathlib.mkdir.
  apply mkdir_parents_on_file with pos n;
    [apply of_string_parts | now apply goto_of_string | assumption | assumption].
Qed.

Lemma make_folder_refuses_a_file_witness :
  os.stat "data/pipe.fastq" example_world = (inr FS.Special, example_world)
  /\ FS.is_dir (Some FS.Special) = false
  /\ make_folder "data/pipe.fastq" example_world
     = (inl Py.FileExistsError, example_world).
Proof.
  split; [reflexivity|]. split; [reflexivity|].
  apply (make_folder_refuses_a_file "data/pipe.fastq" FS.Special example_world);
    reflexivity.
Defined.

End FolderOutcomes.

(** ** The header rewrite on every table *)

Section TaxonomyCases.

Import Qiime2Methods.

(** The run on a table with a first line, as [os.stat] sees it before
    and after. *)
Lemma header_rewrite_run (input content first : string) (rest : list string)
  (w : world) :
  stat_of w input = inr (FS.File content) ->
  Py.utf8_valid content = true ->
  Py.lines (Py.universal_newlines content) = first :: rest ->
  vacant_or_regular w (input ++ ".tmp") = true ->
  exists w',
    change_taxonomy_file_header input w = (inr tt, w')
    /\ stat_of w' input
       = inr (FS.File (taxonomy_header ++ fold_right String.append "" rest))
    /\ stat_of w' (input ++ ".tmp") = inl Py.FileNotFoundError
    /\ calls w' = calls w.
Proof.
  intros Hstat Hutf Hlines Hv.
  destruct (resolve_tmp w input _ Hstat) as (parent & c & Hin & Htmp & Hpar & Hcont).
  destruct (rewrite_into_tmp w parent c _ input _ _ Hin Htmp Hpar Hcont Hv Hutf Hlines)
    as (w3 & Hrun & Hw3).
  destruct (replace_step w parent c _ input Hin Htmp Hpar _ w3 Hw3)
    as (t & Hrep & Hkt & Hpin & Hptmp).
  eexists. split; [|split; [|split]].
  - unfold change_taxonomy_file_header. unfold bind at 1. rewrite Hrun. exact Hrep.
  - unfold stat_of. cbn [root cwd].
    now rewrite (resolve_keeps _ _ _ _ _ Hkt Hin), Hpin.
  - unfold stat_of. cbn [root cwd].
    now rewrite (resolve_keeps _ _ _ _ _ Hkt Htmp), Hptmp.
  - reflexivity.
Qed.

(** The lines after the first, put together, are the text after the
    first line feed. *)
Lemma lines_after_first (s : string) :
  forall first rest,
    Py.lines s = first :: rest ->
    fold_right String.append "" rest = after_first_line s.
Proof.
  induction s as [|c s IH]; intros first rest; cbn [Py.lines after_first_line];
    [discriminate|].
  destruct (Ascii.eqb c Py.LF).
  - intros [= _ <-]. apply concat_lines.
  - destruct (Py.lines s) as [|l ls] eqn:E.
    + intros [= _ <-]. pose proof (concat_lines s) as Hs. rewrite E in Hs.
      cbn in Hs. now subst s.
    + intros [= _ <-]. now apply (IH l ls).
Qed.

Lemma lines_nonempty (s : string) : s <> "" -> Py.lines s <> [].
Proof.
  destruct s as [|c s]; [contradiction|]. intros _. cbn [Py.lines].
  destruct (Ascii.eqb c Py.LF); [discriminate|].
  destruct (Py.lines s); discriminate.
Qed.

Lemma universal_newlines_nonempty (s : string) :
  s <> "" -> Py.universal_newlines s <> "".
Proof.
  destruct s as [|c s]; [contradiction|]. intros _. cbn [Py.universal_newlines].
  destruct (Ascii.eqb c Py.CR); [|discriminate].
  destruct s as [|d s]; [discriminate|]. destruct (Ascii.eqb d Py.LF); discriminate.
Qed.

(** What a text-mode reader hands over holds no carriage return. *)
Lemma universal_newlines_no_CR (s : string) :
  Py.mem Py.CR (Py.universal_newlines s) = false.
Proof.
  assert (H : forall n s, (String.length s <= n)%nat ->
                          Py.mem Py.CR (Py.universal_newlines s) = false).
  { clear s. induction n as [|n IH]; intros [|c s] Hlen; try reflexivity;
      cbn [String.length] in Hlen; [lia|].
    cbn [Py.universal_newlines]. destruct (Ascii.eqb c Py.CR) eqn:E.
    - destruct s as [|d s]; [reflexivity|].
      destruct (Ascii.eqb d Py.LF); cbn [Py.mem]; cbn [String.length] in Hlen.
      + change (Ascii.eqb Py.LF Py.CR) with false. cbn [orb]. apply IH. lia.
      + change (Ascii.eqb Py.LF Py.CR) with false. cbn [orb]. apply IH.
        cbn [String.length]. lia.
    - cbn [Py.mem]. rewrite E. cbn [orb]. apply IH. lia. }
  now apply (H (String.length s)).
Qed.

Lemma after_first_line_keeps_out (c : ascii) (s : string) :
  Py.mem c s = false -> Py.mem c (after_first_line s) = false.
Proof.
  induction s as [|d s IH]; cbn [Py.mem after_first_line]; [trivial|].
  intros H. apply orb_false_iff in H. destruct H as [_ Hs].
  destruct (Ascii.eqb d Py.LF); [exact Hs | now apply IH].
Qed.

(** The decoder stays in states that accept bytes from [80] up only,
    and in such a state it accepts neither a carriage return nor a line
    feed. *)
Lemma byte_in_high (lo hi : N) (a : ascii) :
  (128 <= lo)%N -> Py.byte_in lo hi a = true ->
  Ascii.eqb a Py.CR = false /\ Ascii.eqb a Py.LF = false.
Proof.
  unfold Py.byte_in. intros Hlo H. apply andb_true_iff in H. destruct H as [H _].
  apply N.leb_le in H.
  split; match goal with
         | |- Ascii.eqb a ?c = false =>
             destruct (Ascii.eqb_spec a c) as [->|_]; [|reflexivity]
         end; cbn in H; lia.
Qed.

Lemma utf8_step_high (st st' : Py.utf8_state) (a : ascii) :
  high_state st -> Py.utf8_step st a = Some st' -> high_state st'.
Proof.
  destruct st as [|lo hi more]; cbn [Py.utf8_step]; intros _.
  - repeat match goal with
           | |- context [if ?b then _ else _] => destruct b
           end; intros [= <-]; cbn; lia || exact I.
  - destruct (Py.byte_in lo hi a); [|discriminate].
    intros [= <-]. destruct more; cbn; lia || exact I.
Qed.

Lemma utf8_step_newline (st st' : Py.utf8_state) (a : ascii) :
  high_state st -> Py.utf8_step st a = Some st' ->
  Ascii.eqb a Py.CR = true \/ Ascii.eqb a Py.LF = true ->
  st = Py.Boundary /\ st' = Py.Boundary.
Proof.
  intros Hst Hs Ha. destruct st as [|lo hi more].
  - split; [reflexivity|].
    destruct Ha as [Ha|Ha]; apply Ascii.eqb_eq in Ha; subst a;
      cbn in Hs; now injection Hs.
  - exfalso. cbn [Py.utf8_step] in Hs.
    destruct (Py.byte_in lo hi a) eqn:B; [|discriminate].
    destruct (byte_in_high lo hi a Hst B) as [H1 H2].
    destruct Ha; congruence.
Qed.

(** What the reader hands over of well-formed text is well-formed. *)
Lemma universal_newlines_valid (s : string) :
  Py.utf8_valid s = true -> Py.utf8_valid (Py.universal_newlines s) = true.
Proof.
  unfold Py.utf8_valid.
  assert (H : forall n s st,
             (String.length s <= n)%nat -> high_state st ->
             Py.utf8_from st s = true ->
             Py.utf8_from st (Py.universal_newlines s) = true).
  { clear s. induction n as [|n IH]; intros [|a s1] st Hlen Hst Hv; try exact Hv;
      cbn [String.length] in Hlen; [lia|].
    cbn [Py.utf8_from] in Hv.
    destruct (Py.utf8_step st a) as [st'|] eqn:Hs; [|discriminate].
    cbn [Py.universal_newlines]. destruct (Ascii.eqb a Py.CR) eqn:Ea.
    - destruct (utf8_step_newline st st' a Hst Hs (or_introl Ea)) as [-> ->].
      destruct s1 as [|d s2]; [reflexivity|].
      destruct (Ascii.eqb d Py.LF) eqn:Ed.
      + change (Py.utf8_from Py.Boundary (Py.universal_newlines s2) = true).
        cbn [Py.utf8_from] in Hv.
        destruct (Py.utf8_step Py.Boundary d) as [st2|] eqn:Hs2; [|discriminate].
        destruct (utf8_step_newline Py.Boundary st2 d I Hs2 (or_intror Ed)) as [_ ->].
        apply IH; [cbn [String.length] in Hlen; lia | exact I | exact Hv].
      + change (Py.utf8_from Py.Boundary (Py.universal_newlines (String d s2)) = true).
        apply IH; [lia | exact I | exact Hv].
    - cbn [Py.utf8_from]. rewrite Hs.
      apply IH; [lia | now apply (utf8_step_high st st' a) | exact Hv]. }
  now apply (H (String.length s)).
Qed.

(** ... and so is what follows its first line. *)
Lemma after_first_line_valid (s : string) :
  Py.utf8_valid s = true -> Py.utf8_valid (after_first_line s) = true.
Proof.
  unfold Py.utf8_valid.
  assert (H : forall st, high_state st -> Py.utf8_from st s = true ->
                         Py.utf8_from Py.Boundary (after_first_line s) = true).
  { induction s as [|a s IH]; intros st Hst Hv; [reflexivity|].
    cbn [Py.utf8_from] in Hv.
    destruct (Py.utf8_step st a) as [st'|] eqn:Hs; [|discriminate].
    cbn [after_first_line]. destruct (Ascii.eqb a Py.LF) eqn:Ea.
    - now destruct (utf8_step_newline st st' a Hst Hs (or_intror Ea)) as [_ <-].
    - apply (IH st'); [now apply (utf8_step_high st st' a) | exact Hv]. }
  now apply (H Py.Boundary).
Qed.

(** X14.  On any table that is not empty and is well-formed UTF-8 text,
    whatever its line ends, with the [.tmp] path free or a regular file,
    the method returns normally; afterwards the table holds the new
    header line and then the text after the first line of the table as a
    text-mode reader hands it over, so with every [\r\n] and every lone
    [\r] of the data turned into [\n]; nothing is left at the [.tmp] path
    (a file that was there is gone) and no program is run. *)
Theorem change_taxonomy_file_header_on_any_table
  (input_taxo content : string) (w : world) :
  os.stat input_taxo w = (inr (FS.File content), w) ->
  content <> "" ->
  Py.utf8_valid content = true ->
  vacant_or_regular w (input_taxo ++ ".tmp") = true ->
  exists w',
    change_taxonomy_file_header input_taxo w = (inr tt, w')
    /\ os.stat input_taxo w'
       = (inr (FS.File (taxonomy_header
                        ++ after_first_line (Py.universal_newlines content))), w')
    /\ os.stat (input_taxo ++ ".tmp") w' = (inl Py.FileNotFoundError, w')
    /\ calls w' = calls w.
Proof.
  rewrite os_stat_eq. intros Hstat Hne Hutf Hv. injection Hstat as Hstat.
  destruct (Py.lines (Py.universal_newlines content)) as [|first rest] eqn:Hl.
  { exfalso. revert Hl. apply lines_nonempty. now apply universal_newlines_nonempty. }
  destruct (header_rewrite_run input_taxo content first rest w Hstat Hutf Hl Hv)
    as (w' & Hrun & Hin & Htmp & Hcalls).
  exists w'. rewrite !os_stat_eq, Hin, Htmp, (lines_after_first _ _ _ Hl).
  now repeat split.
Qed.

Lemma change_taxonomy_file_header_on_any_table_witness :
  let crlf := String Py.CR (String Py.LF "") in
  os.stat "crlf.tsv" example_world
  = (inr (FS.File ("X" ++ crlf ++ "f1" ++ crlf)), example_world)
  /\ ("X" ++ crlf ++ "f1" ++ crlf)%string <> ""
  /\ Py.utf8_valid ("X" ++ crlf ++ "f1" ++ crlf) = true
  /\ vacant_or_regular example_world "crlf.tsv.tmp" = true
  /\ exists w',
       change_taxonomy_file_header "crlf.tsv" example_world = (inr tt, w')
       /\ os.stat "crlf.tsv" w'
          = (inr (FS.File (taxonomy_header ++ "f1" ++ String Py.LF "")), w')
       /\ os.stat "crlf.tsv.tmp" w' = (inl Py.FileNotFoundError, w')
       /\ calls w' = calls example_world.
Proof.
  intros crlf. split; [reflexivity|]. split; [discriminate|]. split; [reflexivity|].
  split; [reflexivity|].
  apply (change_taxonomy_file_header_on_any_table
           "crlf.tsv" ("X" ++ crlf ++ "f1" ++ crlf) example_world);
    [reflexivity | discriminate | reflexivity | reflexivity].
Defined.

(** X15.  The rewrite is idempotent on the table: after one run on a
    table that is not empty and is well-formed UTF-8 text (the [.tmp]
    path being free or a regular file), a second run returns normally too
    and leaves in the table the very text the first run left, with
    nothing at the [.tmp] path. *)
Theorem change_taxonomy_file_header_twice
  (input_taxo content : string) (w : world) :
  os.stat input_taxo w = (inr (FS.File content), w) ->
  content <> "" ->
  Py.utf8_valid content = true ->
  vacant_or_regular w (input_taxo ++ ".tmp") = true ->
  exists w1 w2 text,
    change_taxonomy_file_header input_taxo w = (inr tt, w1)
    /\ os.stat input_taxo w1 = (inr (FS.File text), w1)
    /\ change_taxonomy_file_header input_taxo w1 = (inr tt, w2)
    /\ os.stat input_taxo w2 = (inr (FS.File text), w2)
    /\ os.stat (input_taxo ++ ".tmp") w2 = (inl Py.FileNotFoundError, w2).
Proof.
  rewrite os_stat_eq. intros Hstat Hne Hutf Hv. injection Hstat as Hstat.
  destruct (Py.lines (Py.universal_newlines content)) as [|first rest] eqn:Hl.
  { exfalso. revert Hl. apply lines_nonempty. now apply universal_newlines_nonempty. }
  destruct (header_rewrite_run input_taxo content first rest w Hstat Hutf Hl Hv)
    as (w1 & Hrun1 & Hin1 & Htmp1 & _).
  rewrite (lines_after_first _ _ _ Hl) in Hin1.
  set (data := after_first_line (Py.universal_newlines content)) in *.
  assert (Hdata : Py.universal_newlines data = data).
  { apply universal_newlines_id. apply after_first_line_keeps_out.
    apply universal_newlines_no_CR. }
  assert (Hutf1 : Py.utf8_valid (taxonomy_header ++ data) = true).
  { change (Py.utf8_valid data = true).
    apply after_first_line_valid. now apply universal_newlines_valid. }
  assert (Hl2 : exists first2 rest2,
             Py.lines (Py.universal_newlines (taxonomy_header ++ data))
             = first2 :: rest2
             /\ fold_right String.append "" rest2 = data).
  { assert (E : Py.universal_newlines (taxonomy_header ++ data)
                = (taxonomy_header ++ data)%string)
      by (cbn; now rewrite Hdata).
    rewrite E.
    destruct (Py.lines (taxonomy_header ++ data)) as [|f2 r2] eqn:Hl2.
    - exfalso. revert Hl2. apply lines_nonempty. discriminate.
    - exists f2, r2. split; [reflexivity|].
      now rewrite (lines_after_first _ _ _ Hl2). }
  destruct Hl2 as (first2 & rest2 & Hl2 & Hrest2).
  assert (Hv1 : vacant_or_regular w1 (input_taxo ++ ".tmp") = true)
    by (unfold vacant_or_regular; now rewrite Htmp1).
  destruct (header_rewrite_run input_taxo _ first2 rest2 w1 Hin1 Hutf1 Hl2 Hv1)
    as (w2 & Hrun2 & Hin2 & Htmp2 & _).
  rewrite Hrest2 in Hin2.
  exists w1, w2, (taxonomy_header ++ data)%string.
  rewrite !os_stat_eq, Hin1, Hin2, Htmp2. now repeat split.
Qed.

Lemma change_taxonomy_file_header_twice_witness :
  os.stat "taxonomy.tsv" example_world
  = (inr (FS.File ("Feature ID" ++ String Py.TAB "Taxon" ++ String Py.TAB "Confidence"
                   ++ String Py.LF "f1" ++ String Py.TAB "k__Fungi" ++ String Py.TAB "0.9"
                   ++ String Py.LF "")), example_world)
  /\ ("Feature ID" ++ String Py.TAB "Taxon" ++ String Py.TAB "Confidence"
      ++ String Py.LF "f1" ++ String Py.TAB "k__Fungi" ++ String Py.TAB "0.9"
      ++ String Py.LF "")%string <> ""
  /\ Py.utf8_valid
       ("Feature ID" ++ String Py.TAB "Taxon" ++ String Py.TAB "Confidence"
        ++ String Py.LF "f1" ++ String Py.TAB "k__Fungi" ++ String Py.TAB "0.9"
        ++ String Py.LF "") = true
  /\ vacant_or_regular example_world "taxonomy.tsv.tmp" = true
  /\ exists w1 w2 text,
       change_taxonomy_file_header "taxonomy.tsv" example_world = (inr tt, w1)
       /\ os.stat "taxonomy.tsv" w1 = (inr (FS.File text), w1)
       /\ change_taxonomy_file_header "taxonomy.tsv" w1 = (inr tt, w2)
       /\ os.stat "taxonomy.tsv" w2 = (inr (FS.File text), w2)
       /\ os.stat "taxonomy.tsv.tmp" w2 = (inl Py.FileNotFoundError, w2).
Proof.
  split; [reflexivity|]. split; [discriminate|]. split; [reflexivity|].
  split; [reflexivity|].
  apply (change_taxonomy_file_header_twice
           "taxonomy.tsv"
           ("Feature ID" ++ String Py.TAB "Taxon" ++ String Py.TAB "Confidence"
            ++ String Py.LF "f1" ++ String Py.TAB "k__Fungi" ++ String Py.TAB "0.9"
            ++ String Py.LF "") example_world);
    [reflexivity | discriminate | reflexivity | reflexivity].
Defined.

(** What the hypotheses on the text leave out.  A table with a byte that
    is not UTF-8 is not read: the first [next] raises
    [UnicodeDecodeError], the table stays, and the [.tmp] file is left
    with the new header.  A carriage return inside the first line ends
    that line for the reader: what follows it in the line is kept as
    data. *)
Example change_taxonomy_file_header_undecodable :
  let table := ("X" ++ String Py.LF (String "255" (String Py.LF "")))%string in
  let w := mkWorld (FS.Dir [("t.tsv", FS.File table)]) [] failing_programs [] [] in
  Py.utf8_valid table = false
  /\ exists w',
       change_taxonomy_file_header "t.tsv" w = (inl Py.UnicodeDecodeError, w')
       /\ os.stat "t.tsv" w' = (inr (FS.File table), w')
       /\ os.stat "t.tsv.tmp" w' = (inr (FS.File taxonomy_header), w').
Proof. split; [reflexivity|]. eexists. repeat split. Qed.

Example change_taxonomy_file_header_inner_CR :
  let table := ("A" ++ String Py.CR ("B" ++ String Py.LF ("d" ++ String Py.LF "")))%string in
  let w := mkWorld (FS.Dir [("t.tsv", FS.File table)]) [] failing_programs [] [] in
  exists w',
    change_taxonomy_file_header "t.tsv" w = (inr tt, w')
    /\ os.stat "t.tsv" w'
       = (inr (FS.File (taxonomy_header ++ "B" ++ String Py.LF ("d" ++ String Py.LF ""))),
          w').
Proof. eexists. repeat split. Qed.

Example utf8_valid_ex :
  Py.utf8_valid (String "195" (String "169" "")) = true          (* U+00E9 *)
  /\ Py.utf8_valid (String "192" (String "128" "")) = false      (* overlong *)
  /\ Py.utf8_valid (String "237" (String "160" (String "128" ""))) = false  (* surrogate *)
  /\ Py.utf8_valid (String "240" (String "159" (String "152" (String "128" "")))) = true
  /\ Py.utf8_valid (String "244" (String "144" (String "128" (String "128" "")))) = false
  /\ Py.utf8_valid (String "226" (String "130" "")) = false.     (* cut short *)
Proof. repeat split. Qed.

(** A path that resolves to a free position, and the path next to it
    that ends in [.tmp]: two names in one directory. *)
Lemma resolve_tmp_vacant (w : world) (input : string) (pos : FS.position) :
  FS.resolve (root w) (cwd w) input = inr pos ->
  FS.lookup (root w) pos = None ->
  exists parent c,
    pos = parent ++ [c]
    /\ FS.resolve (root w) (cwd w) (input ++ ".tmp")
       = inr (parent ++ [(c ++ ".tmp")%string])
    /\ FS.is_dir (FS.lookup (root w) parent) = true.
Proof.
  unfold FS.resolve.
  destruct (String.eqb_spec input "") as [->|Hne]; [discriminate|].
  destruct (String.eqb_spec (input ++ ".tmp") "") as [E|_];
    [destruct input; discriminate|].
  unfold FS.start. rewrite (startswith_app input ".tmp" "/"%char Hne).
  rewrite (split_app_last "/" input ".tmp" eq_refl).
  destruct (exists_last (split_not_nil "/" input)) as (cs & c & Ecs).
  rewrite Ecs, removelast_last, last_last, !namei_app.
  destruct (FS.namei (root w) _ cs) as [e|p1]; [discriminate|].
  cbn [FS.namei].
  destruct (FS.lookup (root w) p1) as [[| |es1]|] eqn:L1; try discriminate.
  intros [= <-] L. exists p1, c.
  assert (Hstep : FS.step p1 c = p1 ++ [c]).
  { unfold FS.step in L |- *.
    destruct (String.eqb c "" || String.eqb c ".").
    - rewrite L1 in L. discriminate.
    - destruct (String.eqb c ".."); [|reflexivity].
      assert (Hd : FS.is_dir (FS.lookup (root w) (removelast p1)) = true)
        by (apply is_dir_removelast; now rewrite L1).
      rewrite L in Hd. discriminate. }
  rewrite Hstep, tmp_name_steps. repeat split. now rewrite L1.
Qed.

(** X16.  On a path where no table is, in a directory that exists, the
    method raises [FileNotFoundError] when it opens the table, after it
    has made the temporary file: the [.tmp] path is left behind as a
    regular file that holds the new header line and nothing else (what a
    file there held before is lost), the table is still missing, and no
    program is run. *)
Theorem change_taxonomy_file_header_missing_table
  (input_taxo : string) (pos : FS.position) (w : world) :
  FS.resolve (root w) (cwd w) input_taxo = inr pos ->
  FS.lookup (root w) pos = None ->
  vacant_or_regular w (input_taxo ++ ".tmp") = true ->
  exists w',
    change_taxonomy_file_header input_taxo w = (inl Py.FileNotFoundError, w')
    /\ os.stat input_taxo w' = (inl Py.FileNotFoundError, w')
    /\ os.stat (input_taxo ++ ".tmp") w' = (inr (FS.File taxonomy_header), w')
    /\ calls w' = calls w.
Proof.
  intros R L Hv.
  destruct (resolve_tmp_vacant w input_taxo pos R L) as (parent & c & -> & Rt & Hp).
  set (ptmp := parent ++ [(c ++ ".tmp")%string]) in *.
  set (t1 := FS.update (root w) ptmp (Some (FS.File ""))).
  set (t2 := FS.update t1 ptmp (Some (FS.File taxonomy_header))).
  set (w1 := mkWorld t1 (cwd w) (programs w) (calls w) (history w ++ [t1])).
  set (w2 := mkWorld t2 (cwd w) (programs w) (calls w) ((history w ++ [t1]) ++ [t2])).
  assert (Hdiff : (c ++ ".tmp")%string <> c)
    by (intros E; symmetry in E; revert E; apply tmp_name_differs).
  unfold vacant_or_regular, stat_of in Hv. rewrite Rt in Hv.
  assert (Hnd : FS.is_dir (FS.lookup (root w) ptmp) = false)
    by (destruct (FS.lookup (root w) ptmp) as [[| |]|]; (discriminate || reflexivity)).
  assert (K1 : keeps_dirs (root w) t1)
    by (intros q Hq; now apply update_keeps_dirs).
  assert (L1 : FS.lookup t1 ptmp = Some (FS.File ""))
    by now apply lookup_update_same.
  assert (K2 : keeps_dirs (root w) t2).
  { intros q Hq. apply update_keeps_dirs; [now rewrite L1 | now apply K1]. }
  assert (L2 : FS.lookup t2 ptmp = Some (FS.File taxonomy_header))
    by (apply lookup_update_same; now apply K1).
  assert (N2 : FS.lookup t2 (parent ++ [c]) = None).
  { unfold t2, t1, ptmp.
    now rewrite !(lookup_update_sibling parent (c ++ ".tmp") c) by exact Hdiff. }
  assert (Hopen : io.open_w (input_taxo ++ ".tmp") w = (inr ptmp, w1)).
  { unfold io.open_w, bind. rewrite os_locate_eq, Rt. unfold get_world.
    destruct (FS.lookup (root w) ptmp) as [[| |]|]; try discriminate; reflexivity. }
  assert (Hwrite : io.write ptmp taxonomy_header w1 = (inr tt, w2)).
  { unfold io.write, bind, get_world. cbn [root w1]. rewrite L1. reflexivity. }
  assert (Hstat2 : stat_of w2 input_taxo = inl Py.FileNotFoundError).
  { unfold stat_of. cbn [root cwd w2].
    now rewrite (resolve_keeps _ _ _ _ _ K2 R), N2. }
  exists w2. split; [|split; [|split]].
  - unfold change_taxonomy_file_header.
    unfold bind at 1. unfold bind at 1. rewrite Hopen.
    unfold bind at 1. rewrite Hwrite.
    unfold bind at 1. unfold io.open_r, bind. rewrite os_stat_eq, Hstat2. reflexivity.
  - now rewrite os_stat_eq, Hstat2.
  - rewrite os_stat_eq. unfold stat_of. cbn [root cwd w2].
    now rewrite (resolve_keeps _ _ _ _ _ K2 Rt), L2.
  - reflexivity.
Qed.

Lemma change_taxonomy_file_header_missing_table_witness :
  FS.resolve (root example_world) (cwd example_world) "data/taxonomy.tsv"
  = inr ["home"; "data"; "taxonomy.tsv"]
  /\ FS.lookup (root example_world) ["home"; "data"; "taxonomy.tsv"] = None
  /\ vacant_or_regular example_world "data/taxonomy.tsv.tmp" = true
  /\ exists w',
       change_taxonomy_file_header "data/taxonomy.tsv" example_world
       = (inl Py.FileNotFoundError, w')
       /\ os.stat "data/taxonomy.tsv" w' = (inl Py.FileNotFoundError, w')
       /\ os.stat "data/taxonomy.tsv.tmp" w' = (inr (FS.File taxonomy_header), w')
       /\ calls w' = calls example_world.
Proof.
  split; [reflexivity|]. split; [reflexivity|]. split; [reflexivity|].
  apply (change_taxonomy_file_header_missing_table
           "data/taxonomy.tsv" ["home"; "data"; "taxonomy.tsv"] example_world);
    reflexivity.
Defined.

End TaxonomyCases.

(** ** The order of the listing *)

Section EnumeratorCases.

Import Qiime2Methods.

Lemma listed_eq (w : world) (top : string) :
  listed w top
  = collected w (match stat_of w top with
                 | inr (FS.Dir es) => FS.walk os.path_join top (FS.Dir es)
                 | _ => []
                 end).
Proof. unfold listed. now rewrite list_fastq_eq. Qed.

(** X17.  The listing is top down and composes on a tree without
    symbolic links, which is what the trees of this development are
    ([os.walk] does not go into a directory that is reached through a
    link, [list_fastq] called on its path does): on a well-formed tree,
    what [list_fastq] returns for a directory is the fastq files of the
    directory itself, in the order of its listing, followed by what
    [list_fastq] returns for each entry of the directory, called on the
    entry's joined path, in the order of the listing (nothing for an entry
    that is not a directory). *)
Theorem list_fastq_top_down (my_path : string) (es : FS.entries) (w : world) :
  FS.wf (root w) = true ->
  os.scandir my_path w = (inr es, w) ->
  list_fastq my_path w = (inr (listed w my_path), w)
  /\ listed w my_path
     = List.map (fun e => os.path_join my_path (fst e)) (filter is_fastq_entry es)
       ++ flat_map (fun e => listed w (os.path_join my_path (fst e))) es.
Proof.
  intros Hwf Hscan. rewrite os_scandir_eq in Hscan.
  assert (Hs : stat_of w my_path = inr (FS.Dir es)).
  { destruct (stat_of w my_path) as [e|[| |es']]; try discriminate.
    now injection Hscan as ->. }
  split; [unfold listed; now rewrite list_fastq_eq|].
  rewrite listed_eq, Hs. cbn [FS.walk].
  rewrite collected_cons, collected_flat_map. f_equal.
  - rewrite (kept_filenames w Hwf my_path es es Hs (fun e H => H)), map_map.
    reflexivity.
  - apply flat_map_ext_in. intros [k n] Hin. cbn [fst snd].
    rewrite listed_eq, (stat_join w my_path k es n Hwf Hs Hin).
    now destruct n.
Qed.

Lemma list_fastq_top_down_witness :
  FS.wf (root example_world) = true
  /\ os.scandir "data" example_world
     = (inr [("s1_R1.fq", FS.File "@r");
             ("notes.txt", FS.File "n");
             ("pipe.fastq", FS.Special);
             ("run2",
              FS.Dir
                [("s2_R1.fastq.gz", FS.File "z");
                 ("old.fastq", FS.Dir [("s3.fq", FS.File "")])])], example_world)
  /\ list_fastq "data" example_world = (inr (listed example_world "data"), example_world)
  /\ listed example_world "data"
     = ["data/s1_R1.fq"]
       ++ (listed example_world "data/s1_R1.fq"
           ++ listed example_world "data/notes.txt"
           ++ listed example_world "data/pipe.fastq"
           ++ listed example_world "data/run2" ++ []).
Proof.
  split; [reflexivity|]. split; [reflexivity|].
  apply (list_fastq_top_down
           "data"
           [("s1_R1.fq", FS.File "@r");
            ("notes.txt", FS.File "n");
            ("pipe.fastq", FS.Special);
            ("run2",
             FS.Dir
               [("s2_R1.fastq.gz", FS.File "z");
                ("old.fastq", FS.Dir [("s3.fq", FS.File "")])])]
           example_world); reflexivity.
Defined.

(** On a well-formed tree no path is listed twice. *)
Lemma listed_NoDup (w : world) (top : string) :
  FS.wf (root w) = true -> NoDup (listed w top).
Proof.
  intros Hwf. rewrite listed_eq.
  destruct (stat_of w top) as [e|[c| |es]] eqn:Hs; try (cbn; constructor).
  rewrite (collected_below w Hwf (FS.Dir es) top Hs).
  unfold stat_of in Hs.
  destruct (FS.resolve (root w) (cwd w) top) as [e|pos] eqn:R; [discriminate|].
  destruct (FS.lookup (root w) pos) as [d|] eqn:L; [|discriminate].
  injection Hs as ->.
  apply NoDup_map_NoDup_ForallPairs.
  - intros a b Ha Hb E.
    pose proof (below_resolve w Hwf _ _ _ _ R L Ha) as Ra.
    pose proof (below_resolve w Hwf _ _ _ _ R L Hb) as Rb.
    rewrite E, Rb in Ra. injection Ra as Ra. symmetry.
    now apply app_inv_head in Ra.
  - apply fastq_below_NoDup. eapply wf_lookup; eassumption.
Qed.

(** X18.  Listing a folder and handing the list to
    [fix_fastq_se_parallel] cleans every fastq file of the folder exactly
    once: on a well-formed tree and with a pool of one worker or more, the
    two calls in sequence return normally, the listing changes nothing,
    and the clean-up script is then run once per listed path, no two runs
    on the same path. *)
Theorem list_then_fix_cleans_each_file_once (my_path : string) (cpu : Z) (w : world) :
  FS.wf (root w) = true ->
  (0 < cpu)%Z ->
  (fastq_list <- list_fastq my_path ;; fix_fastq_se_parallel fastq_list cpu) w
  = (inr tt, after_runs w (List.map fix_fastq_se_cmd (listed w my_path)))
  /\ calls (after_runs w (List.map fix_fastq_se_cmd (listed w my_path)))
     = calls w ++ List.map fix_fastq_se_cmd (listed w my_path)
  /\ NoDup (List.map fix_fastq_se_cmd (listed w my_path)).
Proof.
  intros Hwf Hcpu. split; [|split; [apply calls_after_runs|]].
  - unfold bind. rewrite list_fastq_eq, <- listed_eq.
    now apply fix_fastq_se_parallel_runs.
  - apply NoDup_map_NoDup_ForallPairs; [|now apply listed_NoDup].
    intros a b _ _ E. unfold fix_fastq_se_cmd in E. now injection E.
Qed.

Lemma list_then_fix_cleans_each_file_once_witness :
  FS.wf (root example_world) = true
  /\ (0 < 4)%Z
  /\ (fastq_list <- list_fastq "data" ;; fix_fastq_se_parallel fastq_list 4) example_world
     = (inr tt,
        after_runs example_world
          (List.map fix_fastq_se_cmd (listed example_world "data")))
  /\ calls (after_runs example_world
              (List.map fix_fastq_se_cmd (listed example_world "data")))
     = calls example_world ++ List.map fix_fastq_se_cmd (listed example_world "data")
  /\ NoDup (List.map fix_fastq_se_cmd (listed example_world "data")).
Proof.
  split; [reflexivity|]. split; [lia|].
  apply (list_then_fix_cleans_each_file_once "data" 4 example_world);
    [reflexivity | lia].
Defined.

End EnumeratorCases.

(** ** What the header rewrite leaves alone *)

Section TaxonomyFrame.

Import Qiime2Methods.

Lemma is_dir_below_file (n : FS.node) (q : FS.position) :
  FS.is_dir (Some n) = false -> FS.is_dir (FS.lookup n q) = false.
Proof. destruct n, q; try reflexivity; discriminate. Qed.

Lemma lookup_below_file (n : FS.node) (q : FS.position) :
  FS.is_dir (Some n) = false -> q <> [] -> FS.lookup n q = None.
Proof. destruct n, q; try reflexivity; try contradiction; discriminate. Qed.

(** Writing a file, or unlinking, where no directory is: the same
    positions hold directories afterwards. *)
Lemma update_same_dirs (pos : FS.position) (v : option FS.node) :
  FS.is_dir v = false ->
  forall t q,
    FS.is_dir (FS.lookup t pos) = false ->
    FS.is_dir (FS.lookup (FS.update t pos v) q) = FS.is_dir (FS.lookup t q).
Proof.
  intros Hv. induction pos as [|c pos' IH]; intros t q Hpos; [reflexivity|].
  destruct t as [| |es]; try reflexivity.
  destruct q as [|d q']; [now destruct pos'|].
  cbn [FS.update]. destruct pos' as [|x xs].
  - cbn [FS.lookup] in *.
    destruct (String.eqb_spec c d) as [->|Hne].
    + destruct v as [nv|].
      * rewrite assoc_put_same, (is_dir_below_file nv q' Hv).
        destruct (FS.assoc d es) as [m|]; [|reflexivity].
        symmetry. now apply is_dir_below_file.
      * rewrite assoc_remove_same.
        destruct (FS.assoc d es) as [m|]; [|reflexivity].
        symmetry. now apply is_dir_below_file.
    + destruct v as [nv|]; [rewrite assoc_put_other | rewrite assoc_remove_other];
        (assumption || reflexivity).
  - cbn [FS.lookup] in Hpos |- *.
    destruct (String.eqb_spec c d) as [->|Hne].
    + rewrite assoc_alter_same.
      destruct (FS.assoc d es) as [child|]; cbn [option_map]; [|reflexivity].
      now apply IH.
    + now rewrite assoc_alter_other.
Qed.

(** ... and every other position holds the file it held. *)
Lemma update_same_files (pos : FS.position) (v : option FS.node) :
  FS.is_dir v = false ->
  forall t q n,
    FS.is_dir (FS.lookup t pos) = false ->
    q <> pos ->
    FS.is_dir (Some n) = false ->
    (FS.lookup (FS.update t pos v) q = Some n <-> FS.lookup t q = Some n).
Proof.
  intros Hv. induction pos as [|c pos' IH]; intros t q n Hpos Hq Hn; [reflexivity|].
  destruct t as [| |es]; try reflexivity.
  destruct q as [|d q'].
  - cbn [FS.update]. destruct pos'; cbn [FS.lookup];
      split; intros [= <-]; discriminate.
  - cbn [FS.update]. destruct pos' as [|x xs].
    + cbn [FS.lookup] in *.
      destruct (String.eqb_spec c d) as [->|Hne].
      * assert (Hq' : q' <> []) by (intros ->; now apply Hq).
        assert (Hold : match FS.assoc d es with
                       | Some n' => FS.lookup n' q'
                       | None => None
                       end = None).
        { destruct (FS.assoc d es) as [m|]; [|reflexivity].
          now apply lookup_below_file. }
        rewrite Hold. destruct v as [nv|].
        -- now rewrite assoc_put_same, (lookup_below_file nv q' Hv Hq').
        -- now rewrite assoc_remove_same.
      * destruct v as [nv|]; [rewrite assoc_put_other | rewrite assoc_remove_other];
          (assumption || reflexivity).
    + cbn [FS.lookup] in Hpos |- *.
      destruct (String.eqb_spec c d) as [->|Hne].
      * rewrite assoc_alter_same.
        destruct (FS.assoc d es) as [child|]; cbn [option_map]; [|reflexivity].
        apply IH; [assumption | | assumption].
        intros ->. now apply Hq.
      * now rewrite assoc_alter_other.
Qed.

Lemma touched_only_refl (but : list FS.position) (w : world) : touched_only but w w.
Proof. unfold touched_only. repeat split; auto. Qed.

Lemma touched_only_trans (a b : list FS.position) (w1 w2 w3 : world) :
  touched_only a w1 w2 -> touched_only b w2 w3 -> touched_only (a ++ b) w1 w3.
Proof.
  intros (A1 & A2 & A3 & A4 & A5) (B1 & B2 & B3 & B4 & B5).
  unfold touched_only.
  split; [congruence|]. split; [congruence|]. split; [congruence|]. split.
  - intros q. now rewrite B4, A4.
  - intros q n Hq Hn.
    assert (Ha : ~ In q a) by (intros Hin; apply Hq; apply in_or_app; now left).
    assert (Hb : ~ In q b) by (intros Hin; apply Hq; apply in_or_app; now right).
    rewrite (B5 q n Hb Hn). exact (A5 q n Ha Hn).
Qed.

Lemma touched_only_incl (a b : list FS.position) (w w' : world) :
  incl a b -> touched_only a w w' -> touched_only b w w'.
Proof.
  intros Hi (A1 & A2 & A3 & A4 & A5). unfold touched_only.
  split; [assumption|]. split; [assumption|]. split; [assumption|].
  split; [assumption|].
  intros q n Hq Hn. apply (A5 q n); [|assumption].
  intros Hin. apply Hq. now apply Hi.
Qed.

(** One write of the tree at a position that holds no directory. *)
Lemma set_root_touched (w : world) (pos : FS.position) (v : option FS.node) :
  FS.is_dir v = false ->
  FS.is_dir (FS.lookup (root w) pos) = false ->
  touched_only [pos] w (snd (set_root (FS.update (root w) pos v) w)).
Proof.
  intros Hv Hpos. unfold touched_only. cbn [set_root snd cwd programs calls root].
  split; [reflexivity|]. split; [reflexivity|]. split; [reflexivity|]. split.
  - intros q. now apply update_same_dirs.
  - intros q n Hq Hn. apply (update_same_files pos v Hv (root w) q n Hpos); [|assumption].
    intros ->. apply Hq. now left.
Qed.

(** Paths resolve alike in two worlds with the same directories. *)
Lemma namei_same_dirs (t t' : FS.node) (cs : list string) :
  (forall q, FS.is_dir (FS.lookup t' q) = FS.is_dir (FS.lookup t q)) ->
  forall pos p, FS.namei t' pos cs = inr p -> FS.namei t pos cs = inr p.
Proof.
  intros H. apply namei_keeps. intros q Hq. now rewrite <- H.
Qed.

Lemma named_touched (but : list FS.position) (w w' : world) (path : string) :
  touched_only but w w' -> named w' path = named w path.
Proof.
  intros (A1 & _ & _ & A4 & _). unfold named. rewrite A1.
  destruct (FS.resolve (root w) (cwd w) path) as [e|p] eqn:R.
  - destruct (FS.resolve (root w') (cwd w) path) as [e'|p'] eqn:R'; [reflexivity|].
    exfalso. unfold FS.resolve in R, R'.
    destruct (String.eqb path ""); [discriminate|].
    rewrite (namei_same_dirs (root w) (root w') _ A4 _ _ R') in R. discriminate.
  - unfold FS.resolve in R |- *. destruct (String.eqb path ""); [discriminate|].
    assert (A4' : forall q, FS.is_dir (FS.lookup (root w) q)
                            = FS.is_dir (FS.lookup (root w') q))
      by (intros q; now rewrite A4).
    now rewrite (namei_same_dirs (root w') (root w) _ A4' _ _ R).
Qed.

Lemma open_w_touched (path : string) (w : world) :
  touched_only (named w path) w (snd (io.open_w path w))
  /\ forall f w', io.open_w path w = (inr f, w') -> named w path = [f].
Proof.
  unfold io.open_w, bind, named. rewrite os_locate_eq.
  destruct (FS.resolve (root w) (cwd w) path) as [e|pos];
    [split; [apply touched_only_refl | discriminate]|].
  unfold get_world.
  destruct (FS.lookup (root w) pos) as [[c| |es]|] eqn:L;
    try (split; [apply touched_only_refl | discriminate]).
  - split; [|now intros f w' [= <- _]].
    apply (set_root_touched w pos (Some (FS.File ""))); [reflexivity | now rewrite L].
  - split; [|now intros f w' [= <- _]].
    apply (set_root_touched w pos (Some (FS.File ""))); [reflexivity | now rewrite L].
Qed.

Lemma write_touched (f : io.writer) (s : string) (w : world) :
  touched_only [f] w (snd (io.write f s w)).
Proof.
  unfold io.write, bind, get_world.
  destruct (FS.lookup (root w) f) as [[c| |es]|] eqn:L; try apply touched_only_refl.
  apply (set_root_touched w f (Some (FS.File (c ++ s)))); [reflexivity | now rewrite L].
Qed.

Lemma writes_touched (f : io.writer) (ls : list string) :
  forall w, touched_only [f] w (snd (for_each ls (fun line => io.write f line) w)).
Proof.
  induction ls as [|l ls IH]; intros w; [apply touched_only_refl|].
  cbn [for_each]. unfold bind.
  pose proof (write_touched f l w) as H1.
  destruct (io.write f l w) as [[e|[]] w1]; cbn [snd] in H1 |- *; [exact H1|].
  apply (touched_only_incl ([f] ++ [f])); [intros x [<-|[<-|[]]]; now left|].
  now apply touched_only_trans with w1.
Qed.

Lemma open_r_world (path : string) (w : world) : snd (io.open_r path w) = w.
Proof.
  unfold io.open_r, bind. rewrite os_stat_eq.
  now destruct (stat_of w path) as [e|[| |]].
Qed.

Lemma replace_touched (src dst : string) (w : world) :
  touched_only (named w src ++ named w dst) w (snd (os.replace src dst w)).
Proof.
  cbv beta iota delta [os.replace os.locate bind get_world lift named].
  destruct (FS.resolve (root w) (cwd w) src) as [e|ps]; [apply touched_only_refl|].
  cbv beta iota.
  destruct (FS.resolve (root w) (cwd w) dst) as [e|pd]; [apply touched_only_refl|].
  cbv beta iota.
  destruct (FS.lookup (root w) ps) as [n|] eqn:Ls; [|apply touched_only_refl].
  assert (Hgo : FS.is_dir (Some n) = false ->
                FS.is_dir (FS.lookup (root w) pd) = false ->
                touched_only ([ps] ++ [pd]) w
                  (snd (set_root (FS.update (FS.update (root w) ps None) pd (Some n)) w))).
  { intros Hn Hd.
    pose proof (set_root_touched w ps None eq_refl) as H1.
    rewrite Ls in H1. specialize (H1 Hn).
    set (w1 := snd (set_root (FS.update (root w) ps None) w)) in *.
    pose proof (set_root_touched w1 pd (Some n) Hn) as H2.
    assert (Hd1 : FS.is_dir (FS.lookup (root w1) pd) = false).
    { destruct H1 as (_ & _ & _ & A4 & _). now rewrite A4. }
    specialize (H2 Hd1).
    pose proof (touched_only_trans _ _ _ _ _ H1 H2) as H3.
    destruct H3 as (C1 & C2 & C3 & C4 & C5).
    unfold touched_only. cbn [set_root snd cwd programs calls root] in *.
    split; [reflexivity|]. split; [reflexivity|]. split; [reflexivity|].
    split; [exact C4 | exact C5]. }
  destruct n as [c| |es]; try apply touched_only_refl;
    destruct (FS.lookup (root w) pd) as [[| |]|] eqn:Ld;
    try apply touched_only_refl; apply Hgo; reflexivity.
Qed.

(** After the temporary file is open: the header and the lines go to
    it, and to nothing else. *)
Lemma block_touched (input : string) (f : io.writer) (w1 : world) :
  touched_only [f] w1
    (snd ((io.write f taxonomy_header ;;
           in_f <- io.open_r input ;;
           '(_, in_f) <- io.next in_f ;;
           io.for_lines in_f (fun line => io.write f line)) w1)).
Proof.
  unfold bind.
  pose proof (write_touched f taxonomy_header w1) as H2.
  destruct (io.write f taxonomy_header w1) as [[e|[]] w2]; cbn [snd] in H2 |- *;
    [exact H2|].
  pose proof (open_r_world input w2) as H3.
  destruct (io.open_r input w2) as [[e|rd] w2']; cbn [snd] in H3 |- *;
    subst w2'; [exact H2|].
  destruct rd as [e|[|l rd]]; cbn [io.next io.for_lines raise ret snd];
    [exact H2 | exact H2 |].
  apply (touched_only_incl ([f] ++ [f])); [intros x [<-|[<-|[]]]; now left|].
  apply touched_only_trans with w2; [exact H2 | apply writes_touched].
Qed.

(** X19.  Whatever the table, the tree and the outcome,
    [change_taxonomy_file_header] touches nothing but the position its
    argument names and the position the [.tmp] path names: the working
    directory and the log of calls are as before (no program is run), the
    same positions hold directories, and every other position holds the
    very file it held, regular or special, no more and no less. *)
Theorem change_taxonomy_file_header_touches_only_its_paths
  (input_taxo : string) (w : world) :
  touched_only (named w (input_taxo ++ ".tmp") ++ named w input_taxo)
               w (snd (change_taxonomy_file_header input_taxo w)).
Proof.
  set (tmp := (input_taxo ++ ".tmp")%string).
  set (but := named w tmp ++ named w input_taxo).
  assert (Htmp : incl (named w tmp) but) by (intros x Hx; apply in_or_app; now left).
  unfold change_taxonomy_file_header. fold tmp.
  unfold bind at 1. unfold bind at 1.
  destruct (open_w_touched tmp w) as [H1 Hf].
  destruct (io.open_w tmp w) as [[e|f] w1] eqn:Hopen; cbn [snd] in H1;
    [exact (touched_only_incl _ _ _ _ Htmp H1)|].
  rewrite (Hf f w1 eq_refl) in H1, Htmp.
  match goal with
  | |- touched_only _ _ (snd (match ?m with _ => _ end)) =>
      pose proof (block_touched input_taxo f w1 : touched_only [f] w1 (snd m)) as H2;
      destruct m as [[e|[]] w3]
  end; cbn [snd] in H2;
    assert (H12 : touched_only [f] w w3)
      by (apply (touched_only_incl ([f] ++ [f])); [intros x [<-|[<-|[]]]; now left|];
          now apply touched_only_trans with w1);
    [exact (touched_only_incl _ _ _ _ Htmp H12)|].
  pose proof (replace_touched tmp input_taxo w3) as H3.
  rewrite !(named_touched [f] w w3) in H3 by assumption. fold but in H3.
  apply (touched_only_incl ([f] ++ but)).
  - intros x Hx. apply in_app_or in Hx. destruct Hx as [Hx|Hx]; [now apply Htmp|exact Hx].
  - now apply touched_only_trans with w3.
Qed.

End TaxonomyFrame.

(** ** New folders and the listing *)

Section FolderListing.

Import Qiime2Methods.

Lemma put_fresh k n (es : FS.entries) :
  FS.assoc k es = None -> FS.put k n es = es ++ [(k, n)].
Proof.
  induction es as [|[k' m] es IH]; simpl; [reflexivity|].
  destruct (String.eqb k' k); [discriminate|]. intros H. now rewrite IH.
Qed.

Lemma assoc_app k (a b : FS.entries) :
  FS.assoc k (a ++ b)
  = match FS.assoc k a with Some n => Some n | None => FS.assoc k b end.
Proof.
  induction a as [|[k' m] a IH]; simpl; [reflexivity|].
  now destruct (String.eqb k' k).
Qed.

Lemma names_unique_snoc k n (es : FS.entries) :
  FS.names_unique es = true -> FS.assoc k es = None ->
  FS.names_unique (es ++ [(k, n)]) = true.
Proof.
  induction es as [|[k' m] es IH]; simpl; [trivial|].
  destruct (FS.assoc k' es) eqn:E; [discriminate|].
  destruct (String.eqb_spec k' k) as [->|Hne]; [discriminate|].
  intros Hu Ha. rewrite assoc_app, E. simpl.
  destruct (String.eqb_spec k k'); [now subst|]. now apply IH.
Qed.

Lemma names_unique_alter k f (es : FS.entries) :
  FS.names_unique (FS.alter k f es) = FS.names_unique es.
Proof.
  induction es as [|[k' m] es IH]; simpl; [reflexivity|].
  destruct (String.eqb_spec k' k) as [->|Hne]; simpl; [reflexivity|].
  rewrite assoc_alter_other, IH by (intros E; now subst). reflexivity.
Qed.

Lemma In_alter k f (es : FS.entries) j n :
  In (j, n) (FS.alter k f es) ->
  In (j, n) es \/ (j = k /\ exists m, FS.assoc k es = Some m /\ n = f m).
Proof.
  induction es as [|[k' m] es IH]; simpl; [contradiction|].
  destruct (String.eqb_spec k' k) as [->|Hne]; simpl.
  - intros [[= <- <-]|Hin]; [right; split; [reflexivity | now exists m] | left; now right].
  - intros [E|Hin]; [left; now left|].
    destruct (IH Hin) as [H|H]; [left; now right | now right].
Qed.

Lemma wf_Dir_intro (es : FS.entries) :
  FS.names_unique es = true ->
  (forall k n, In (k, n) es -> FS.valid_name k = true /\ FS.wf n = true) ->
  FS.wf (FS.Dir es) = true.
Proof.
  intros Hu Hall. cbn [FS.wf]. rewrite Hu. cbn [andb]. clear Hu.
  induction es as [|[k m] es IH]; [reflexivity|].
  destruct (Hall k m (or_introl eq_refl)) as [Hk Hm]. rewrite Hk, Hm. cbn [andb].
  apply IH. intros j n Hin. apply Hall. now right.
Qed.

(** A new, empty directory under a valid name keeps the tree
    well-formed. *)
Lemma wf_mkdir (p : FS.position) (c : string) :
  FS.valid_name c = true ->
  forall t,
    FS.wf t = true ->
    FS.lookup t (p ++ [c]) = None ->
    FS.wf (FS.update t (p ++ [c]) (Some (FS.Dir []))) = true.
Proof.
  intros Hc. induction p as [|d p IH]; intros t Hwf Hpos.
  - destruct t as [| |es]; try reflexivity.
    cbn [app FS.update]. cbn [app FS.lookup] in Hpos.
    assert (Ha : FS.assoc c es = None)
      by (destruct (FS.assoc c es); [discriminate|reflexivity]).
    destruct (wf_Dir es Hwf) as [Hu Hall].
    rewrite (put_fresh _ _ _ Ha). apply wf_Dir_intro.
    + now apply names_unique_snoc.
    + intros k n Hin. apply in_app_or in Hin. destruct Hin as [Hin|[[= <- <-]|[]]].
      * now apply Hall.
      * now split.
  - destruct t as [| |es]; try reflexivity.
    change ((d :: p) ++ [c]) with (d :: (p ++ [c])) in *.
    rewrite update_deeper by (now destruct p).
    destruct (wf_Dir es Hwf) as [Hu Hall].
    apply wf_Dir_intro; [now rewrite names_unique_alter|].
    intros k n Hin. apply In_alter in Hin.
    destruct Hin as [Hin|(-> & m & Hm & ->)]; [now apply Hall|].
    destruct (Hall d m (assoc_In _ _ _ Hm)) as [Hd Hwfm]. split; [assumption|].
    apply IH; [assumption|]. cbn [FS.lookup] in Hpos. now rewrite Hm in Hpos.
Qed.

Lemma update_keeps_kind (pos : FS.position) (v : option FS.node) (n : FS.node) :
  pos <> [] -> FS.is_file (Some (FS.update n pos v)) = FS.is_file (Some n).
Proof.
  destruct pos as [|c pos']; [contradiction|]. intros _.
  destruct n; try reflexivity. cbn [FS.update]. now destruct pos'.
Qed.

(** A new, empty directory adds no fastq file below any node. *)
Lemma fastq_below_mkdir (pos : FS.position) :
  forall t,
    FS.lookup t pos = None ->
    fastq_below (FS.update t pos (Some (FS.Dir []))) = fastq_below t.
Proof.
  induction pos as [|c pos' IH]; intros t Hpos; [discriminate|].
  destruct t as [| |es]; try reflexivity.
  cbn [FS.update]. destruct pos' as [|x xs].
  - cbn [FS.lookup] in Hpos.
    assert (Ha : FS.assoc c es = None)
      by (destruct (FS.assoc c es); [discriminate|reflexivity]).
    rewrite (put_fresh _ _ _ Ha). cbn [fastq_below].
    rewrite filter_app, flat_map_app. cbn. now rewrite !app_nil_r.
  - cbn [fastq_below].
    assert (Hne : x :: xs <> []) by discriminate.
    revert Hne IH Hpos. generalize (x :: xs). intros pos' Hne IH Hpos.
    cbn [FS.lookup] in Hpos.
    set (f := fun child => FS.update child pos' (Some (FS.Dir []))).
    assert (H : filter is_fastq_entry (FS.alter c f es) = filter is_fastq_entry es
                /\ flat_map (fun e => List.map (cons (fst e)) (fastq_below (snd e)))
                            (FS.alter c f es)
                   = flat_map (fun e => List.map (cons (fst e)) (fastq_below (snd e))) es).
    { induction es as [|[k m] es IHes]; [split; reflexivity|].
      cbn [FS.alter FS.assoc] in *. destruct (String.eqb k c).
      - cbn [filter flat_map fst snd].
        change (f m) with (FS.update m pos' (Some (FS.Dir []))).
        rewrite (IH m Hpos). split; [|reflexivity].
        destruct m as [content| |es']; destruct pos' as [|y [|z zs]];
          try contradiction; reflexivity.
      - destruct (IHes Hpos) as [H1 H2]. cbn [filter flat_map]. rewrite H1, H2.
        split; reflexivity. }
    destruct H as [H1 H2]. now rewrite H1, H2.
Qed.

(** ... and every position that held a node holds one with the same
    fastq files below. *)
Lemma lookup_mkdir (pos : FS.position) :
  forall t q n,
    FS.lookup t pos = None ->
    FS.lookup t q = Some n ->
    exists n', FS.lookup (FS.update t pos (Some (FS.Dir []))) q = Some n'
               /\ fastq_below n' = fastq_below n.
Proof.
  induction pos as [|c pos' IH]; intros t q n Hpos Hq; [discriminate|].
  destruct q as [|d q'].
  - injection Hq as <-. eexists. split; [reflexivity|]. now apply fastq_below_mkdir.
  - destruct t as [| |es]; try discriminate.
    cbn [FS.update]. destruct pos' as [|x xs].
    + cbn [FS.lookup] in *.
      destruct (String.eqb_spec c d) as [->|Hne].
      * destruct (FS.assoc d es); discriminate.
      * rewrite assoc_put_other by assumption. now exists n.
    + assert (Hne : x :: xs <> []) by discriminate.
      revert Hne IH Hpos. generalize (x :: xs). intros pos' _ IH Hpos.
      cbn [FS.lookup] in Hpos, Hq |- *.
      destruct (String.eqb_spec c d) as [->|Hne].
      * rewrite assoc_alter_same.
        destruct (FS.assoc d es) as [child|]; [|discriminate]. cbn [option_map].
        now apply IH.
      * rewrite assoc_alter_other by assumption. now exists n.
Qed.

(** A free position that a path resolves to is a valid new name. *)
Lemma namei_vacant_name (t : FS.node) (cs : list string) :
  forall start pos,
    FS.namei t start cs = inr pos ->
    FS.is_dir (FS.lookup t start) = true ->
    FS.lookup t pos = None ->
    Forall (fun c => Py.mem "/" c = false) cs ->
    exists p1 c, pos = p1 ++ [c] /\ FS.valid_name c = true.
Proof.
  induction cs as [|c cs IH]; intros start pos Hn Hd Hv Hs.
  - injection Hn as <-. rewrite Hv in Hd. discriminate.
  - inversion Hs as [|? ? Hc Hcs]; subst. cbn [FS.namei] in Hn.
    destruct (FS.lookup t start) as [[| |es]|] eqn:L; try discriminate.
    destruct (FS.is_dir (FS.lookup t (FS.step start c))) eqn:Hstep.
    + now apply IH with (FS.step start c).
    + destruct cs as [|c' cs].
      * injection Hn as <-. unfold FS.step in *.
        destruct (String.eqb c "" || String.eqb c ".") eqn:E1.
        { rewrite L in Hstep. discriminate. }
        destruct (String.eqb c "..") eqn:E2.
        { rewrite is_dir_removelast in Hstep; [discriminate | now rewrite L]. }
        exists start, c. split; [reflexivity|]. unfold FS.valid_name.
        apply orb_false_iff in E1. destruct E1 as [-> ->]. now rewrite E2, Hc.
      * cbn [FS.namei] in Hn.
        destruct (FS.lookup t (FS.step start c)) as [[| |]|]; discriminate.
Qed.

Lemma resolve_vacant_name (t : FS.node) (cwd : FS.position) (path : string)
  (pos : FS.position) :
  FS.resolve t cwd path = inr pos ->
  FS.lookup t pos = None ->
  exists p1 c, pos = p1 ++ [c] /\ FS.valid_name c = true.
Proof.
  unfold FS.resolve. destruct (String.eqb path ""); [discriminate|].
  intros Hn Hv.
  apply (namei_vacant_name t (Py.split "/" path) (FS.start cwd path) pos);
    try assumption; [|apply split_fields].
  pose proof (split_not_nil "/" path) as Hne.
  destruct (Py.split "/" path) as [|c cs]; [contradiction|]. cbn [FS.namei] in Hn.
  destruct (FS.lookup t (FS.start cwd path)) as [[| |]|]; (discriminate || reflexivity).
Qed.

Lemma listing_kept_refl (w : world) : listing_kept w w.
Proof.
  unfold listing_kept, keeps_dirs. split; [reflexivity|]. split; [trivial|].
  split; [trivial|]. intros q n H. now exists n.
Qed.

Lemma listing_kept_trans (w1 w2 w3 : world) :
  listing_kept w1 w2 -> listing_kept w2 w3 -> listing_kept w1 w3.
Proof.
  intros (A1 & A2 & A3 & A4) (B1 & B2 & B3 & B4). unfold listing_kept, keeps_dirs in *.
  split; [congruence|]. split; [auto|]. split; [auto|].
  intros q n H. destruct (A4 q n H) as (n1 & H1 & E1).
  destruct (B4 q n1 H1) as (n2 & H2 & E2). exists n2. split; [assumption|congruence].
Qed.

Lemma os_mkdir_listing (path : string) (w : world) :
  listing_kept w (snd (os.mkdir path w)).
Proof.
  rewrite os_mkdir_eq.
  destruct (FS.resolve (root w) (cwd w) path) as [e|pos] eqn:R;
    [apply listing_kept_refl|].
  destruct (FS.lookup (root w) pos) as [m|] eqn:L; [apply listing_kept_refl|].
  cbn [set_root snd]. unfold listing_kept. cbn [cwd root].
  split; [reflexivity|]. split; [|split].
  - intros Hwf. destruct (resolve_vacant_name _ _ _ _ R L) as (p1 & c & -> & Hc).
    now apply wf_mkdir.
  - intros q Hq. apply update_keeps_dirs; [now rewrite L | assumption].
  - intros q n Hq. now apply lookup_mkdir.
Qed.

Lemma mkdir_flat_listing (p : pathlib.Path) (ok : bool) (w : world) :
  listing_kept w (snd (pathlib.mkdir_flat p ok w)).
Proof. rewrite mkdir_flat_world. apply os_mkdir_listing. Qed.

Lemma mkdir_parents_listing (n : nat) :
  forall (p : pathlib.Path) (ok : bool) (w : world),
    listing_kept w (snd (pathlib.mkdir_parents n p ok w)).
Proof.
  induction n as [|n IH]; intros p ok w; cbn [pathlib.mkdir_parents];
    pose proof (os_mkdir_listing (pathlib.to_string p) w) as Hmk;
    unfold catch;
    destruct (os.mkdir (pathlib.to_string p) w) as [[e|[]] w0]; cbn [snd] in Hmk;
    try exact Hmk;
    (destruct e; cbn [Py.is_OSError]; try exact Hmk;
     try (unfold bind, pathlib.is_dir; rewrite os_path_isdir_eq;
          match goal with
          | |- context [negb ok || negb ?d] => destruct (negb ok || negb d)
          end; exact Hmk)).
  unfold bind.
  pose proof (IH (pathlib.parent p) true w0) as Hrec.
  destruct (pathlib.mkdir_parents n (pathlib.parent p) true w0) as [[e1|[]] w1];
    cbn [snd] in Hrec.
  - cbn [snd]. now apply listing_kept_trans with w0.
  - pose proof (mkdir_flat_listing p ok w1) as Hflat.
    apply listing_kept_trans with w0; [assumption|].
    now apply listing_kept_trans with w1.
Qed.

(** X20.  Making a folder never changes what [list_fastq] finds in an
    existing directory: on a well-formed tree, for a path that names a
    directory, the listing after [make_folder] (of any folder, inside the
    directory or elsewhere, whether the call returns or raises) is the
    listing before it, path for path and in the same order. *)
Theorem make_folder_keeps_the_listing
  (folder my_path : string) (es : FS.entries) (w : world) :
  FS.wf (root w) = true ->
  os.scandir my_path w = (inr es, w) ->
  listed (snd (make_folder folder w)) my_path = listed w my_path.
Proof.
  intros Hwf Hscan. rewrite os_scandir_eq in Hscan.
  assert (Hs : stat_of w my_path = inr (FS.Dir es)).
  { destruct (stat_of w my_path) as [e|[| |es']]; try discriminate.
    now injection Hscan as ->. }
  unfold make_folder, pathlib.mkdir.
  destruct (mkdir_parents_listing
              (length (pathlib.parts (pathlib.of_string folder)))
              (pathlib.of_string folder) true w) as (Hcwd & Hwf' & Hk & Hl).
  set (w' := snd (pathlib.mkdir_parents _ _ true w)) in *.
  specialize (Hwf' Hwf).
  assert (Hs' : exists n', stat_of w' my_path = inr n'
                           /\ fastq_below n' = fastq_below (FS.Dir es)).
  { unfold stat_of in Hs |- *.
    destruct (FS.resolve (root w) (cwd w) my_path) as [e|pos] eqn:R; [discriminate|].
    destruct (FS.lookup (root w) pos) as [d|] eqn:L; [|discriminate].
    injection Hs as ->. destruct (Hl pos _ L) as (n' & L' & E).
    exists n'. now rewrite Hcwd, (resolve_keeps _ _ _ _ _ Hk R), L'. }
  destruct Hs' as (n' & Hs' & E).
  rewrite !listed_eq, Hs, Hs'.
  transitivity (collected w' (FS.walk os.path_join my_path n')); [now destruct n'|].
  now rewrite (collected_below w' Hwf' n' my_path Hs'),
    (collected_below w Hwf (FS.Dir es) my_path Hs), E.
Qed.

Lemma make_folder_keeps_the_listing_witness :
  FS.wf (root example_world) = true
  /\ os.scandir "data/run2" example_world
     = (inr [("s2_R1.fastq.gz", FS.File "z");
             ("old.fastq", FS.Dir [("s3.fq", FS.File "")])], example_world)
  /\ listed (snd (make_folder "data/run2/out/logs" example_world)) "data/run2"
     = listed example_world "data/run2".
Proof.
  split; [reflexivity|]. split; [reflexivity|].
  apply (make_folder_keeps_the_listing
           "data/run2/out/logs" "data/run2"
           [("s2_R1.fastq.gz", FS.File "z");
            ("old.fastq", FS.Dir [("s3.fq", FS.File "")])] example_world);
    reflexivity.
Defined.

End FolderListing.
